(** * Yaebo: DAO proposal lifecycle and membership reconciliation

    A shallow embedding of
    - the governance contract [contracts/DAO.sol],
    - the wallet/chain client [lib/utils/daoUtils.ts],
    - the relational mirrors [lib/utils/daoProposals.ts] and
      [lib/utils/daoMembership.ts],
    - the membership flows of [app/dao/page.tsx],
    together with the properties stated about them. *)

From Stdlib Require Import ZArith NArith Lia Bool Ascii String List.
From Stdlib Require Import DecimalString.
From stdpp Require Import base option list sorting gmap strings.

Local Open Scope string_scope.

(** ** The governance contract (contracts/DAO.sol) *)

Module Dao.

Local Open Scope N_scope.

(** [address] is a 160-bit word, [uint] a 256-bit word.  Solidity 0.8
    arithmetic is checked: an overflowing [++] aborts with panic 0x11. *)
Definition address := N.
Definition uint_max : N := 2 ^ 256 - 1.

Record user := mk_user { isMember : bool }.

Inductive Vote := yay | nay.

Record Proposal := mk_Proposal {
  yayVotes : N;
  nayVotes : N;
  deadline : N;
  puser : address;
  lotSize : N;
  SharePrice : N;
  maxPerInvestor : N;
  proposalSummary : string;
  executed : bool;
  voted : gmap address bool
}.

Inductive Event :=
| joinedDao (u : address)
| proposalCreated (proposalId : N) (u : address)
| proposalVoted (proposalId : N) (u : address).

(** Contract storage, plus the log of emitted events. *)
Record State := mk_State {
  addressToUser : gmap address user;
  numProposal : N;
  idToProposal : gmap N Proposal;
  membership : N;
  duration : N;
  events : list Event
}.

(** [msg.sender], [msg.value] and [block.timestamp] of a call. *)
Record Msg := mk_Msg {
  sender : address;
  value : N;
  timestamp : N
}.

Inductive Exec (A : Type) :=
| Done (a : A)
| Revert (reason : string)
| Panic (code : N).
Arguments Done {A} a.
Arguments Revert {A} reason.
Arguments Panic {A} code.

Definition ether : N := 10 ^ 18.
Definition days : N := 86400.

(** State right after the constructor: [membership = 0.1 ether],
    [duration = 7 days]. *)
Definition init : State :=
  {| addressToUser := ∅; numProposal := 0; idToProposal := ∅;
     membership := ether / 10; duration := 7 * days; events := [] |}.

(** Reading a mapping at an unset key yields the zero value. *)
Definition zero_user : user := mk_user false.
Definition zero_Proposal : Proposal :=
  mk_Proposal 0 0 0 0 0 0 0 "" false ∅.

Definition user_at (st : State) (a : address) : user :=
  default zero_user (addressToUser st !! a).
Definition proposal_at (st : State) (id : N) : Proposal :=
  default zero_Proposal (idToProposal st !! id).
Definition voted_by (p : Proposal) (a : address) : bool :=
  default false (voted p !! a).

Definition set_users (st : State) (m : gmap address user) : State :=
  mk_State m (numProposal st) (idToProposal st) (membership st)
           (duration st) (events st).
Definition set_numProposal (st : State) (n : N) : State :=
  mk_State (addressToUser st) n (idToProposal st) (membership st)
           (duration st) (events st).
Definition set_proposal (st : State) (id : N) (p : Proposal) : State :=
  mk_State (addressToUser st) (numProposal st) (<[id := p]> (idToProposal st))
           (membership st) (duration st) (events st).
Definition emit (st : State) (e : Event) : State :=
  mk_State (addressToUser st) (numProposal st) (idToProposal st)
           (membership st) (duration st) (events st ++ [e]).

Definition set_executed (p : Proposal) (b : bool) : Proposal :=
  mk_Proposal (yayVotes p) (nayVotes p) (deadline p) (puser p) (lotSize p)
              (SharePrice p) (maxPerInvestor p) (proposalSummary p) b (voted p).
Definition set_yayVotes (p : Proposal) (n : N) : Proposal :=
  mk_Proposal n (nayVotes p) (deadline p) (puser p) (lotSize p)
              (SharePrice p) (maxPerInvestor p) (proposalSummary p)
              (executed p) (voted p).
Definition set_nayVotes (p : Proposal) (n : N) : Proposal :=
  mk_Proposal (yayVotes p) n (deadline p) (puser p) (lotSize p)
              (SharePrice p) (maxPerInvestor p) (proposalSummary p)
              (executed p) (voted p).
Definition set_voted (p : Proposal) (a : address) : Proposal :=
  mk_Proposal (yayVotes p) (nayVotes p) (deadline p) (puser p) (lotSize p)
              (SharePrice p) (maxPerInvestor p) (proposalSummary p)
              (executed p) (<[a := true]> (voted p)).

(** Checked increment of a [uint]. *)
Definition incr (n : N) : Exec N :=
  if n <? uint_max then Done (n + 1) else Panic 17.

Definition bind {A B : Type} (x : Exec A) (f : A -> Exec B) : Exec B :=
  match x with
  | Done a => f a
  | Revert r => Revert r
  | Panic c => Panic c
  end.

Definition require (cond : bool) (reason : string) : Exec unit :=
  if cond then Done tt else Revert reason.

(** [function join() public payable] *)
Definition join (m : Msg) (st : State) : Exec State :=
  bind (require (value m =? membership st) "") (fun _ =>
  Done (set_users st (<[sender m := mk_user true]> (addressToUser st)))).

(** The [onlyMember] modifier, preceded by the value check the compiler
    puts in front of every function that is not payable. *)
Definition onlyMember {A : Type} (m : Msg) (st : State) (body : Exec A) : Exec A :=
  bind (require (value m =? 0) "") (fun _ =>
  bind (require (isMember (user_at st (sender m))) "not a member of pool") (fun _ =>
  body)).

(** [function createProposal(...) public onlyMember returns (uint256)] *)
Definition createProposal (m : Msg) (lot price maxPer : N) (summary : string)
           (st : State) : Exec (State * N) :=
  onlyMember m st
    (bind (incr (numProposal st)) (fun n =>
     let st1 := set_numProposal st n in
     let p := proposal_at st1 n in
     bind (if timestamp m + duration st1 <=? uint_max
           then Done (timestamp m + duration st1) else Panic 17) (fun dl =>
     let p' := mk_Proposal (yayVotes p) (nayVotes p) dl (sender m)
                           lot price maxPer summary (executed p) (voted p) in
     let st2 := set_proposal st1 n p' in
     Done (emit st2 (proposalCreated (numProposal st2) (sender m)),
           numProposal st2)))).

(** [function voteProposal(uint proposalId, Vote vote) public onlyMember] *)
Definition voteProposal (m : Msg) (proposalId : N) (vote : Vote)
           (st : State) : Exec State :=
  onlyMember m st
    (let proposal := proposal_at st proposalId in
     bind (require (timestamp m <? deadline proposal) "deadline exceeded") (fun _ =>
     bind (require (negb (voted_by proposal (sender m))) "already voted") (fun _ =>
     bind (match vote with
           | yay => bind (incr (yayVotes proposal)) (fun n =>
                    Done (set_yayVotes proposal n))
           | nay => bind (incr (nayVotes proposal)) (fun n =>
                    Done (set_nayVotes proposal n))
           end) (fun p1 =>
     let st1 := set_proposal st proposalId (set_voted p1 (sender m)) in
     Done (emit st1 (proposalVoted (numProposal st1) (sender m))))))).

(** [function executeProposal(uint256 proposalId) public onlyMember] *)
Definition executeProposal (m : Msg) (proposalId : N) (st : State) : Exec State :=
  onlyMember m st
    (bind (require (negb (executed (proposal_at st proposalId)))
                   "proposal already executed") (fun _ =>
     let latest := numProposal st in
     Done (set_proposal st latest (set_executed (proposal_at st latest) true)))).

(** Votes that a replay of the event log attributes to proposal [id]. *)
Definition votesInLog (log : list Event) (id : N) : list address :=
  omap (fun e => match e with
                 | proposalVoted i u => if i =? id then Some u else None
                 | _ => None
                 end) log.

End Dao.

(** ** JavaScript values used by the client

    JS numbers and bigints are modelled as [Z]: every quantity the client
    handles (ids, counters, timestamps, gas) is an integer in the range
    where a JS number is exact.  A string that is [undefined] in the source
    is the empty string here; both are falsy and the client only ever tests
    such strings with [||], [&&] and [includes]. *)

Module Js.

Local Open Scope Z_scope.

(** [Number.prototype.toString()] / template interpolation of an integer. *)
Definition toString (z : Z) : string :=
  NilZero.string_of_int (Z.to_int z).

(** [String.prototype.includes] *)
Fixpoint includes (needle hay : string) : bool :=
  String.prefix needle hay ||
  match hay with
  | EmptyString => false
  | String _ rest => includes needle rest
  end.

Definition lower_ascii (c : ascii) : ascii :=
  let n := nat_of_ascii c in
  if ((65 <=? n)%nat && (n <=? 90)%nat)%bool then ascii_of_nat (n + 32) else c.

(** [String.prototype.toLowerCase], on the ASCII strings addresses are. *)
Fixpoint toLowerCase (s : string) : string :=
  match s with
  | EmptyString => EmptyString
  | String c rest => String (lower_ascii c) (toLowerCase rest)
  end.

(** Occurrence of a character in a string. *)
Fixpoint has_char (c : ascii) (s : string) : bool :=
  match s with
  | EmptyString => false
  | String d rest => Ascii.eqb c d || has_char c rest
  end.

Definition is_digit_or_sign (c : ascii) : bool := has_char c "0123456789-".

(** Truthiness of a string: [""] (and [undefined]) are falsy. *)
Definition truthy (s : string) : bool :=
  match s with EmptyString => false | _ => true end.

(** [a || b] on strings. *)
Definition or_else (a b : string) : string := if truthy a then a else b.

(** An error object, with the properties the client inspects. *)
Record Error := mk_Error {
  code : string;
  reason : string;
  shortMessage : string;
  error_message : string;      (* error.error.message *)
  data_message : string;       (* error.data.message *)
  info_message : string;       (* error.info.error.message *)
  data : string;               (* error.data, interpolated *)
  message : string;
  instanceof_Error : bool      (* error instanceof Error *)
}.

(** [new Error(msg)] *)
Definition new_Error (msg : string) : Error :=
  mk_Error "" "" "" "" "" "" "" msg true.

(** Outcome of an awaited call: a value, or a thrown error. *)
Inductive Reply (A : Type) :=
| Ok (a : A)
| Throw (e : Error).
Arguments Ok {A} a.
Arguments Throw {A} e.

End Js.

(** ** The client: wallet, chain gateway, mirrors and page flows *)

Module Client.

Import Js.
Local Open Scope list_scope.
Local Open Scope Z_scope.

(** *** Data *)

Inductive Status := voting | closed | marketplace.

(** [interface Proposal] of daoUtils.ts; dates are milliseconds since the epoch. *)
Record Proposal := mk_Proposal {
  id : string;
  proposalId : Z;
  lotSize : Z;
  sharePrice : Z;
  maxPerInvestor : Z;
  proposalSummary : string;
  deadline : Z;
  user : string;
  yayVotes : Z;
  nayVotes : Z;
  executed : bool;
  status : Status;
  createdAt : Z;
  votingEndsAt : Z
}.

(** A row of table [dao_proposals].  Timestamp columns hold milliseconds
    since the epoch (what [toISOString] writes and [new Date(..)] reads
    back); the vote and execution columns are nullable. *)
Record ProposalRow := mk_ProposalRow {
  proposal_id : Z;
  lot_size : Z;
  share_price : Z;
  max_per_investor : Z;
  proposal_summary : string;
  creator_address : string;
  row_deadline : Z;
  transaction_hash : string;
  yay_votes : option Z;
  nay_votes : option Z;
  row_executed : option bool;
  created_at : Z;
  updated_at : Z
}.

(** A row of table [dao_members]. *)
Record MemberRow := mk_MemberRow {
  wallet_address : string;
  is_member : bool;
  member_updated_at : Z
}.

(** What [contract.addressToUser(address)] may decode to. *)
Inductive UserResult :=
| RObject (isMember : bool)      (* an object with an [isMember] property *)
| RBoolean (b : bool)            (* a bare boolean *)
| RArray (items : list bool)     (* a struct returned as an array *)
| ROther                         (* any other non-null value *)
| RNullish.                      (* null or undefined *)

(** What [contract.idToProposal(id)] decodes to when the getter exists. *)
Record ProposalStruct := mk_ProposalStruct {
  s_yayVotes : Z;
  s_nayVotes : Z;
  s_deadline : Z;
  s_user : string;
  s_lotSize : Z;
  s_SharePrice : Z;
  s_maxPerInvestor : Z;
  s_proposalSummary : string;
  s_executed : bool
}.

(** Decoded event arguments: positional and named access to the same log. *)
Record Args := mk_Args {
  arg0 : option Z;
  arg_proposalId : option Z;
  arg1 : string;
  arg_user : string
}.

Record ParsedLog := mk_ParsedLog {
  name : string;
  args : option Args
}.

(** A log entry; [parsed] is what [interface.parseLog] makes of it. *)
Record Log := mk_Log {
  parsed : Reply (option ParsedLog);
  log_blockNumber : Z
}.

Record Block := mk_Block { block_timestamp : Z }.

Record Receipt := mk_Receipt {
  receipt_hash : string;
  receipt_logs : option (list Log);
  receipt_blockNumber : Z
}.

Record Tx := mk_Tx { tx_hash : string }.

(** Contract methods the client estimates and sends. *)
Inductive Call :=
| CJoin
| CCreateProposal (lot price maxPer : Z) (summary : string)
| CVoteProposal (pid : Z) (vote : Z)
| CExecuteProposal (pid : Z)
| CMintToSelf (amount : Z)
| CApprove (spender : string) (amount : Z)
| CBuyLot
| CWithdraw.

(** Transaction overrides. *)
Record TxOpts := mk_TxOpts {
  tx_value : option Z;
  gasPrice : Z;
  gasLimit : Z
}.

Inductive ProviderKind := BrowserProvider | JsonRpcProvider.

Inductive ToastKind := toast_success | toast_info | toast_warning | toast_error.

Inductive DbOp :=
| DbUpsertProposal (pid : Z)
| DbSelectProposal (pid : Z)
| DbSelectProposals
| DbUpdateVotes (pid : Z)
| DbUpdateExecution (pid : Z)
| DbSelectMember (a : string)
| DbUpsertMember (a : string) (m : bool).

(** Everything observable the client does, in order. *)
Inductive Effect :=
| EthAccounts
| EthChainId
| EthRequestAccounts
| GetSigner
| SignerGetAddress
| ReadNumProposal
| ReadAddressToUser (a : string)
| ReadIdToProposal (pid : Z)
| ReadBalanceOf (a : string)
| ReadAllowance (owner spender : string)
| EstimateGas (c : Call) (v : option Z) (r : Reply Z)
| GetFeeData
| SendTx (c : Call) (o : TxOpts)
| WaitReceipt (h : string)
| QueryFilter
| GetBlock (n : Z)
| Db (op : DbOp)
| Sleep (ms : Z)
| Toast (k : ToastKind) (msg : string).

(** The environment: what the wallet, the node, the store and the clock
    answer.  Replies are indexed by the number of external calls awaited so
    far, so that the same request may be answered differently over time.
    [contract_has_provider] says whether [contract.provider] is defined on
    a contract object; with the ethers v6 the client is written against
    (top-level [parseUnits], [BrowserProvider], bigint arithmetic) it is
    not. *)
Record Env := mk_Env {
  hasEthereum : bool;
  contract_has_provider : bool;
  parseEther : string -> Reply Z;
  eth_accounts : nat -> Reply (list string);
  eth_chainId : nat -> Reply Z;
  eth_requestAccounts : nat -> Reply unit;
  getSigner : nat -> Reply string;
  signer_getAddress : nat -> Reply string;
  numProposal : nat -> Reply Z;
  addressToUser : nat -> string -> Reply UserResult;
  idToProposal : nat -> Z -> Reply ProposalStruct;
  balanceOf : nat -> string -> Reply Z;
  allowance : nat -> string -> string -> Reply Z;
  estimateGas : nat -> Call -> option Z -> Reply Z;
  getFeeData : nat -> Reply (option Z);
  sendTransaction : nat -> Call -> TxOpts -> Reply Tx;
  wait : nat -> string -> Reply Receipt;
  queryFilter : nat -> Reply (list Log);
  getBlock : nat -> Z -> Reply (option Block);
  db_error : nat -> option Error;
  dateNow : nat -> Z
}.

(** React state of the DAO page, and the [justJoinedRef] ref. *)
Record Page := mk_Page {
  isConnected : bool;
  walletAddress : string;
  isMember : bool;
  checkingMembership : bool;
  joiningDao : bool;
  loading : bool;
  justJoined : bool
}.

(** Client state: the module-level [signer] (known by its account) and
    [provider] of daoUtils.ts, the two mirror tables, the page. *)
Record World := mk_World {
  signer : option string;
  provider : option ProviderKind;
  tick : nat;
  dao_proposals : list ProposalRow;
  dao_members : list MemberRow;
  page : Page
}.

Definition set_signer (s : option string) (w : World) : World :=
  mk_World s (provider w) (tick w) (dao_proposals w) (dao_members w) (page w).
Definition set_provider (p : option ProviderKind) (w : World) : World :=
  mk_World (signer w) p (tick w) (dao_proposals w) (dao_members w) (page w).
Definition set_tick (n : nat) (w : World) : World :=
  mk_World (signer w) (provider w) n (dao_proposals w) (dao_members w) (page w).
Definition set_dao_proposals (t : list ProposalRow) (w : World) : World :=
  mk_World (signer w) (provider w) (tick w) t (dao_members w) (page w).
Definition set_dao_members (t : list MemberRow) (w : World) : World :=
  mk_World (signer w) (provider w) (tick w) (dao_proposals w) t (page w).
Definition set_page (p : Page) (w : World) : World :=
  mk_World (signer w) (provider w) (tick w) (dao_proposals w) (dao_members w) p.

(** *** The monad of asynchronous client code

    A computation takes the client state and yields a value or a thrown
    error, the new state, and the effects it performed. *)
Definition M (A : Type) : Type := World -> Reply A * World * list Effect.

Definition ret {A : Type} (a : A) : M A := fun w => (Ok a, w, []).

Definition throw {A : Type} (e : Error) : M A := fun w => (Throw e, w, []).

Definition bind {A B : Type} (m : M A) (f : A -> M B) : M B :=
  fun w =>
    match m w with
    | (Ok a, w1, t1) =>
      match f a w1 with
      | (r, w2, t2) => (r, w2, t1 ++ t2)
      end
    | (Throw e, w1, t1) => (Throw e, w1, t1)
    end.

(** [try { m } catch (e) { h e }] *)
Definition try_catch {A : Type} (m : M A) (h : Error -> M A) : M A :=
  fun w =>
    match m w with
    | (Ok a, w1, t1) => (Ok a, w1, t1)
    | (Throw e, w1, t1) =>
      match h e w1 with
      | (r, w2, t2) => (r, w2, t1 ++ t2)
      end
    end.

(** [try { m } finally { f }] *)
Definition finally {A : Type} (m : M A) (f : M unit) : M A :=
  fun w =>
    match m w with
    | (r, w1, t1) =>
      match f w1 with
      | (Ok _, w2, t2) => (r, w2, t1 ++ t2)
      | (Throw e, w2, t2) => (Throw e, w2, t1 ++ t2)
      end
    end.

Notation "'let!' x := m 'in' k" := (bind m (fun x => k))
  (at level 10, x name, m at level 100, k at level 200).
Notation "m ;;; k" := (bind m (fun _ => k))
  (at level 100, k at level 200, right associativity).

Definition get : M World := fun w => (Ok w, w, []).
Definition modify (f : World -> World) : M unit := fun w => (Ok tt, f w, []).
Definition effect (e : Effect) : M unit := fun w => (Ok tt, w, [e]).

(** Await an external call: the environment answers at the current tick. *)
Definition await {A : Type} (e : Effect) (answer : nat -> Reply A) : M A :=
  fun w => (answer (tick w), set_tick (S (tick w)) w, [e]).

Definition when (b : bool) (m : M unit) : M unit := if b then m else ret tt.

Definition result {A : Type} (x : Reply A * World * list Effect) : Reply A := fst (fst x).
Definition final {A : Type} (x : Reply A * World * list Effect) : World := snd (fst x).
Definition effects {A : Type} (x : Reply A * World * list Effect) : list Effect := snd x.


(** *** Chain gateway (lib/utils/network.ts, lib/utils/daoUtils.ts) *)

Section Gateway.

Variable env : Env.

(** The address constant of constants/daoContract. *)
Variable daoContractAddress : string.

Definition lift {A : Type} (r : Reply A) : M A := fun w => (r, w, []).

(** [parseUnits("1", "gwei")] and [parseUnits("20", "gwei")] *)
Definition gwei (n : Z) : Z := n * 10 ^ 9.

(** [x || fallback] on a bigint that may be null: null and [0n] are falsy. *)
Definition bigint_or (x : option Z) (fallback : Z) : Z :=
  match x with
  | Some v => if v =? 0 then fallback else v
  | None => fallback
  end.

(** [if (address)] on a [string | null]. *)
Definition present (a : option string) : option string :=
  match a with
  | Some s => if truthy s then Some s else None
  | None => None
  end.

Definition estimate (c : Call) (v : option Z) : M Z :=
  fun w =>
    let r := estimateGas env (tick w) c v in
    (r, set_tick (S (tick w)) w, [EstimateGas c v r]).

Definition send (c : Call) (o : TxOpts) : M Tx :=
  await (SendTx c o) (fun n => sendTransaction env n c o).

(** [Date.now()], in milliseconds, and [Math.floor(Date.now() / 1000)]. *)
Definition now_ms : M Z := fun w => (Ok (dateNow env (tick w)), w, []).
Definition now_s : M Z := let! ms := now_ms in ret (ms / 1000).

(** network.ts: [checkEtherlinkNetwork] *)
Definition checkEtherlinkNetwork : M bool :=
  if negb (hasEthereum env) then ret false
  else
    try_catch
      (let! chainIdNum := await EthChainId (eth_chainId env) in
       ret (chainIdNum =? 127823))
      (fun _ => ret false).

(** daoUtils.ts: [initializeProvider]; it returns null on every path. *)
Definition initializeProvider : M unit :=
  if negb (hasEthereum env) then
    modify (set_provider (Some JsonRpcProvider)) ;;;
    modify (set_signer None)
  else
    modify (set_provider (Some BrowserProvider)) ;;;
    let! accounts :=
      try_catch
        (let! a := await EthAccounts (eth_accounts env) in ret (Some a))
        (fun _ => modify (set_signer None) ;;; ret None) in
    match accounts with
    | None => ret tt
    | Some [] => modify (set_signer None)
    | Some (_ :: _) =>
      try_catch (let! _ := checkEtherlinkNetwork in ret tt) (fun _ => ret tt) ;;;
      modify (set_signer None)
    end.

(** daoUtils.ts: [connectWithMetamask]; yields the signer, or null without
    a wallet. *)
Definition connectWithMetamask : M (option string) :=
  if negb (hasEthereum env) then
    modify (set_provider (Some JsonRpcProvider)) ;;;
    ret None
  else
    modify (set_provider (Some BrowserProvider)) ;;;
    let! _ := checkEtherlinkNetwork in
    await EthRequestAccounts (eth_requestAccounts env) ;;;
    let! s := await GetSigner (getSigner env) in
    modify (set_signer (Some s)) ;;;
    ret (Some s).

(** daoUtils.ts: [getContract]; the contract is bound to the signer. *)
Definition getContract : M string :=
  let! w := get in
  match signer w with
  | None => throw (new_Error "Signer not initialized. Please connect wallet first.")
  | Some s => ret s
  end.

(** [if (!provider) provider = new ethers.JsonRpcProvider(ETHERLINK_RPC)] *)
Definition ensure_provider (w : World) : World :=
  match provider w with
  | None => set_provider (Some JsonRpcProvider) w
  | Some _ => w
  end.

(** daoUtils.ts: [getReadOnlyContract]; it creates the provider when missing. *)
Definition getReadOnlyContract : M unit := modify ensure_provider.

(** daoUtils.ts: [getCurrentAddress] *)
Definition getCurrentAddress : M (option string) :=
  if negb (hasEthereum env) then ret None
  else
    let! w := get in
    let! fromSigner :=
      match signer w with
      | Some _ =>
        try_catch
          (let! a := await SignerGetAddress (signer_getAddress env) in ret (Some a))
          (fun _ => modify (set_signer None) ;;; ret None)
      | None => ret None
      end in
    match fromSigner with
    | Some a => ret (Some a)
    | None =>
      try_catch
        (let! accounts := await EthAccounts (eth_accounts env) in
         match accounts with
         | a :: _ =>
           let! w1 := get in
           match provider w1 with
           | None => initializeProvider
           | Some _ => ret tt
           end ;;;
           ret (Some a)
         | [] => ret None
         end)
        (fun _ => ret None)
    end.

(** How [isDaoMember] reads the flag off the decoded result: the
    [isMember] property of an object, a bare boolean, the first element of
    an array, else [Boolean(result.isMember)], which throws on null. *)
Definition memberFlag (result : UserResult) : Reply bool :=
  match result with
  | RObject b => Ok b
  | RBoolean b => Ok b
  | RArray (b :: _) => Ok b
  | RArray [] => Ok false
  | ROther => Ok false
  | RNullish => Throw (new_Error "Cannot read properties of undefined (reading 'isMember')")
  end.

(** daoUtils.ts: [isDaoMember] *)
Definition isDaoMember (address : string) : M bool :=
  try_catch
    (getReadOnlyContract ;;;
     try_catch
       (let! result := await (ReadAddressToUser address)
                             (fun n => addressToUser env n address) in
        lift (memberFlag result))
       (fun callError => throw callError))
    (fun error =>
       if (String.eqb (code error) "BAD_DATA" || includes "could not decode" (message error))%bool
       then ret false
       else ret false).

(** The gas price of the fee data, with its default. *)
Definition feeGasPrice (fallback : Z) : M Z :=
  let! feeData := await GetFeeData (getFeeData env) in
  ret (bigint_or feeData fallback).

(** The 20% buffer: [gasEstimate + (gasEstimate / BigInt(5))]; bigint
    division truncates. *)
Definition withBuffer (gasEstimate : Z) : Z :=
  gasEstimate + Z.quot gasEstimate 5.

(** The way [joinDao] and [createProposal] rethrow. *)
Definition rethrow_failed {A : Type} (what : string) (generic : string)
           (error : Error) : M A :=
  if truthy (reason error) then
    throw (new_Error (what +:+ reason error))
  else if truthy (data error) then
    throw (new_Error (what +:+ data error))
  else if truthy (message error) then
    throw (new_Error (what +:+ message error))
  else throw (new_Error generic).

(** daoUtils.ts: [joinDao] *)
Definition joinDao (amount : string) : M Tx :=
  connectWithMetamask ;;;
  getContract ;;;
  let! value := lift (parseEther env amount) in
  let! address := getCurrentAddress in
  match present address with
  | Some a =>
    let! isMember := isDaoMember a in
    if isMember then throw (new_Error "You are already a member of the DAO")
    else ret tt
  | None => ret tt
  end ;;;
  try_catch
    (let! gasEstimate := estimate CJoin (Some value) in
     let! gasPrice := try_catch (feeGasPrice (gwei 1)) (fun _ => ret (gwei 1)) in
     let gasLimit := withBuffer gasEstimate in
     send CJoin (mk_TxOpts (Some value) gasPrice gasLimit))
    (rethrow_failed "Failed to join DAO: "
       "Failed to join DAO. Please check your wallet balance and try again.").

(** *** Proposal mirror store (lib/utils/daoProposals.ts)

    The store is a relational table reached through a query client.  A
    query either fails with an error object and changes nothing, or is
    applied to the table. *)

Definition db_call {A : Type} (op : DbOp) (q : World -> A * World) : M (Error + A) :=
  fun w =>
    let w1 := set_tick (S (tick w)) w in
    match db_error env (tick w) with
    | Some e => (Ok (inl e), w1, [Db op])
    | None => let (a, w2) := q w1 in (Ok (inr a), w2, [Db op])
    end.

Definition PGRST116 : Error :=
  mk_Error "PGRST116" "" "" "" "" "" ""
           "JSON object requested, multiple (or no) rows returned" false.

(** [.upsert(row, { onConflict: 'proposal_id' })]: the conflicting row is
    replaced, a new key is inserted. *)
Definition upsert_proposal (row : ProposalRow) (t : list ProposalRow) : list ProposalRow :=
  if existsb (fun r => proposal_id r =? proposal_id row) t
  then map (fun r => if proposal_id r =? proposal_id row then row else r) t
  else t ++ [row].

(** The rows [.eq('proposal_id', pid)] selects. *)
Definition rows_with (pid : Z) (t : list ProposalRow) : list ProposalRow :=
  filter (fun r => proposal_id r = pid) t.

(** The unique constraint on [proposal_id] that [onConflict] relies on. *)
Definition unique_ids (t : list ProposalRow) : Prop := NoDup (map proposal_id t).

(** [.select('*').eq('proposal_id', pid).single()]: exactly one row, or
    error PGRST116. *)
Definition select_proposal (pid : Z) (t : list ProposalRow) : Error + option ProposalRow :=
  match rows_with pid t with
  | [r] => inr (Some r)
  | _ => inl PGRST116
  end.

(** Descending order on [proposal_id]. *)
Definition id_desc (r1 r2 : ProposalRow) : Prop := proposal_id r2 <= proposal_id r1.

#[local] Instance id_desc_dec : RelDecision id_desc.
Proof. intros r1 r2. unfold id_desc. apply _. Defined.

(** [.select('*').order('proposal_id', { ascending: false })] *)
Definition select_proposals (t : list ProposalRow) : list ProposalRow :=
  merge_sort id_desc t.

(** The row [storeProposalInSupabase] upserts; [stamp] is [new Date()]. *)
Definition newProposalRow (proposalId lotSize sharePrice maxPerInvestor : Z)
           (proposalSummary user : string) (deadline : Z) (transactionHash : string)
           (stamp : Z) : ProposalRow :=
  {| proposal_id := proposalId;
     lot_size := lotSize;
     share_price := sharePrice;
     max_per_investor := maxPerInvestor;
     proposal_summary := proposalSummary;
     creator_address := toLowerCase user;
     row_deadline := deadline * 1000;
     transaction_hash := transactionHash;
     yay_votes := Some 0;
     nay_votes := Some 0;
     row_executed := Some false;
     created_at := stamp;
     updated_at := stamp |}.

(** The time values a [Date] can hold: at most 8.64e15 ms either side of
    the epoch.  [toISOString] throws a [RangeError] on any other. *)
Definition validDate (ms : Z) : bool :=
  (- 8640000000000000 <=? ms) && (ms <=? 8640000000000000).

Definition invalidTime : Error :=
  mk_Error "" "" "" "" "" "" "" "Invalid time value" true.

(** daoProposals.ts: [storeProposalInSupabase]; the row is built, and
    [new Date(deadline * 1000).toISOString()] evaluated, before the query
    is issued. *)
Definition storeProposalInSupabase (proposalId lotSize sharePrice maxPerInvestor : Z)
           (proposalSummary user : string) (deadline : Z) (transactionHash : string)
  : M bool :=
  try_catch
    (if negb (validDate (deadline * 1000)) then throw invalidTime
     else
       let! stamp := now_ms in
       let row := newProposalRow proposalId lotSize sharePrice maxPerInvestor
                    proposalSummary user deadline transactionHash stamp in
       let! r := db_call (DbUpsertProposal proposalId)
                   (fun w => (tt, set_dao_proposals (upsert_proposal row (dao_proposals w)) w)) in
       match r with
       | inl _ => ret false
       | inr _ => ret true
       end)
    (fun _ => ret false).

(** The status computed by both mirror reads. *)
Definition rowStatus (now deadline : Z) (executed : bool) : Status :=
  if deadline <=? now then
    (if executed then marketplace else closed)
  else
    (if executed then marketplace else voting).

(** The row-to-[Proposal] transformation shared by both mirror reads. *)
Definition rowToProposal (now : Z) (data : ProposalRow) : Proposal :=
  let deadline := row_deadline data / 1000 in
  {| id := toString (proposal_id data);
     proposalId := proposal_id data;
     lotSize := lot_size data;
     sharePrice := share_price data;
     maxPerInvestor := max_per_investor data;
     proposalSummary := proposal_summary data;
     deadline := deadline;
     user := creator_address data;
     yayVotes := default 0 (yay_votes data);
     nayVotes := default 0 (nay_votes data);
     executed := default false (row_executed data);
     status := rowStatus now deadline (default false (row_executed data));
     createdAt := created_at data;
     votingEndsAt := row_deadline data |}.

(** daoProposals.ts: [getProposalFromSupabase] *)
Definition getProposalFromSupabase (proposalId : Z) : M (option Proposal) :=
  try_catch
    (let! r := db_call (DbSelectProposal proposalId)
                 (fun w => (select_proposal proposalId (dao_proposals w), w)) in
     match r with
     | inl _ => ret None
     | inr (inl error) =>
       if String.eqb (code error) "PGRST116" then ret None else ret None
     | inr (inr None) => ret None
     | inr (inr (Some data)) =>
       let! now := now_s in
       ret (Some (rowToProposal now data))
     end)
    (fun _ => ret None).

(** daoProposals.ts: [getProposalsFromSupabase] *)
Definition getProposalsFromSupabase : M (list Proposal) :=
  try_catch
    (let! r := db_call DbSelectProposals
                 (fun w => (select_proposals (dao_proposals w), w)) in
     match r with
     | inl _ => ret []
     | inr data =>
       let! now := now_s in
       ret (map (rowToProposal now) data)
     end)
    (fun _ => ret []).

Definition set_votes (yay nay stamp : Z) (r : ProposalRow) : ProposalRow :=
  mk_ProposalRow (proposal_id r) (lot_size r) (share_price r) (max_per_investor r)
    (proposal_summary r) (creator_address r) (row_deadline r) (transaction_hash r)
    (Some yay) (Some nay) (row_executed r) (created_at r) stamp.

Definition set_row_executed (e : bool) (stamp : Z) (r : ProposalRow) : ProposalRow :=
  mk_ProposalRow (proposal_id r) (lot_size r) (share_price r) (max_per_investor r)
    (proposal_summary r) (creator_address r) (row_deadline r) (transaction_hash r)
    (yay_votes r) (nay_votes r) (Some e) (created_at r) stamp.

(** [.update(..).eq('proposal_id', pid)] *)
Definition update_where (pid : Z) (f : ProposalRow -> ProposalRow)
           (t : list ProposalRow) : list ProposalRow :=
  map (fun r => if proposal_id r =? pid then f r else r) t.

(** daoProposals.ts: [updateProposalVotes] *)
Definition updateProposalVotes (proposalId yayVotes nayVotes : Z) : M bool :=
  try_catch
    (let! stamp := now_ms in
     let! r := db_call (DbUpdateVotes proposalId)
                 (fun w => (tt, set_dao_proposals
                                  (update_where proposalId (set_votes yayVotes nayVotes stamp)
                                                (dao_proposals w)) w)) in
     match r with
     | inl _ => ret false
     | inr _ => ret true
     end)
    (fun _ => ret false).

(** daoProposals.ts: [updateProposalExecution] *)
Definition updateProposalExecution (proposalId : Z) (executed : bool) : M bool :=
  try_catch
    (let! stamp := now_ms in
     let! r := db_call (DbUpdateExecution proposalId)
                 (fun w => (tt, set_dao_proposals
                                  (update_where proposalId (set_row_executed executed stamp)
                                                (dao_proposals w)) w)) in
     match r with
     | inl _ => ret false
     | inr _ => ret true
     end)
    (fun _ => ret false).

(** *** Membership mirror (lib/utils/daoMembership.ts) *)

Definition upsert_member (row : MemberRow) (t : list MemberRow) : list MemberRow :=
  if existsb (fun r => String.eqb (wallet_address r) (wallet_address row)) t
  then map (fun r => if String.eqb (wallet_address r) (wallet_address row) then row else r) t
  else t ++ [row].

Definition members_with (a : string) (t : list MemberRow) : list MemberRow :=
  filter (fun r => wallet_address r = a) t.

Definition unique_members (t : list MemberRow) : Prop := NoDup (map wallet_address t).

Definition select_member (a : string) (t : list MemberRow) : Error + option MemberRow :=
  match members_with a t with
  | [r] => inr (Some r)
  | _ => inl PGRST116
  end.

(** daoMembership.ts: [getDaoMembership] *)
Definition getDaoMembership (walletAddress : string) : M bool :=
  try_catch
    (let normalizedAddress := toLowerCase walletAddress in
     let! r := db_call (DbSelectMember normalizedAddress)
                 (fun w => (select_member normalizedAddress (dao_members w), w)) in
     match r with
     | inl _ => ret false
     | inr (inl error) =>
       if String.eqb (code error) "PGRST116" then ret false else ret false
     | inr (inr None) => ret false
     | inr (inr (Some data)) => ret (is_member data)
     end)
    (fun _ => ret false).

(** daoMembership.ts: [setDaoMembership] *)
Definition setDaoMembership (walletAddress : string) (isMember : bool) : M bool :=
  try_catch
    (let normalizedAddress := toLowerCase walletAddress in
     let! stamp := now_ms in
     let row := mk_MemberRow normalizedAddress isMember stamp in
     let! r := db_call (DbUpsertMember normalizedAddress isMember)
                 (fun w => (tt, set_dao_members (upsert_member row (dao_members w)) w)) in
     match r with
     | inl _ => ret false
     | inr _ => ret true
     end)
    (fun _ => ret false).

(** *** Write actions (lib/utils/daoUtils.ts) *)

(** The proposal id carried by the first [proposalCreated] log that parses;
    a log whose parse throws, or whose [args] cannot be read, is skipped. *)
Fixpoint proposalIdFromLogs (logs : list Log) : option Z :=
  match logs with
  | [] => None
  | log :: rest =>
    match parsed log with
    | Ok (Some p) =>
      if String.eqb (name p) "proposalCreated" then
        match args p with
        | Some a => Some (bigint_or (arg0 a) (bigint_or (arg_proposalId a) 0))
        | None => proposalIdFromLogs rest
        end
      else proposalIdFromLogs rest
    | _ => proposalIdFromLogs rest
    end
  end.

(** [!proposalId || proposalId === 0] *)
Definition missing_id (proposalId : option Z) : bool :=
  match proposalId with
  | Some n => n =? 0
  | None => true
  end.

(** daoUtils.ts: [createProposal] *)
Definition createProposal (lotSize sharePrice maxPerInvestor : Z)
           (proposalSummary : string) : M Tx :=
  connectWithMetamask ;;;
  getContract ;;;
  let call := CCreateProposal lotSize sharePrice maxPerInvestor proposalSummary in
  try_catch
    (let! gasEstimate := estimate call None in
     let! gasPrice := try_catch (feeGasPrice (gwei 1)) (fun _ => ret (gwei 1)) in
     let gasLimit := withBuffer gasEstimate in
     let! tx := send call (mk_TxOpts None gasPrice gasLimit) in
     let! receipt := await (WaitReceipt (tx_hash tx)) (fun n => wait env n (tx_hash tx)) in
     let fromLogs :=
       match receipt_logs receipt with
       | Some logs => proposalIdFromLogs logs
       | None => None
       end in
     let! proposalId :=
       if missing_id fromLogs then
         try_catch
           (let! totalProposals := await ReadNumProposal (numProposal env) in
            ret (Some totalProposals))
           (fun _ => ret fromLogs)
       else ret fromLogs in
     match proposalId with
     | Some pid =>
       if (negb (pid =? 0) && (0 <? pid) && truthy (receipt_hash receipt))%bool then
         try_catch
           (let! address := getCurrentAddress in
            match present address with
            | Some a =>
              let! now := now_s in
              let deadline := now + 7 * 24 * 60 * 60 in
              let! _ := storeProposalInSupabase pid lotSize sharePrice maxPerInvestor
                          proposalSummary a deadline (receipt_hash receipt) in
              ret tt
            | None => ret tt
            end)
           (fun _ => ret tt)
       else ret tt
     | None => ret tt
     end ;;;
     ret tx)
    (rethrow_failed "Failed to create proposal: "
       "Failed to create proposal. Please check your wallet and try again.").

(** [`Invalid proposalId ${proposalId}. On-chain numProposal is ${maxId}.`];
    [voteProposal] spells [onChain] with a non-breaking hyphen. *)
Definition rangeMessage (onChain : string) (proposalId maxId : Z) : string :=
  "Invalid proposalId " +:+ toString proposalId +:+ ". " +:+ onChain
  +:+ " numProposal is " +:+ toString maxId +:+ ".".

(** The range check both [voteProposal] and [executeProposal] start with. *)
Definition checkProposalId (onChain : string) (proposalId : Z) : M unit :=
  try_catch
    (let! totalProposals := await ReadNumProposal (numProposal env) in
     let maxId := totalProposals in
     if ((proposalId <? 1) || (maxId <? proposalId))%bool then
       throw (new_Error (rangeMessage onChain proposalId maxId))
     else ret tt)
    (fun e =>
       throw (new_Error
                (or_else (reason e)
                   (or_else (message e)
                      "Unable to verify proposal ID on-chain. Check that you are connected to the correct network/contract.")))).

(** The error message [voteProposal] extracts from a failed estimate. *)
Definition estimateErrorMessage (e : Error) : string :=
  or_else (reason e)
    (or_else (shortMessage e)
       (or_else (error_message e)
          (or_else (data_message e)
             (or_else (message e) "")))).

(** daoUtils.ts: [voteProposal] *)
Definition voteProposal (proposalId : Z) (vote : Z) : M Tx :=
  connectWithMetamask ;;;
  getContract ;;;
  getReadOnlyContract ;;;
  let! address := getCurrentAddress in
  match present address with
  | None => throw (new_Error "Wallet not connected")
  | Some address =>
    try_catch
      (checkProposalId "On‑chain" proposalId ;;;
       try_catch
         (let! isMember := isDaoMember address in
          if negb isMember then
            throw (new_Error ("Address " +:+ address +:+
                              " is not a DAO member. Please join the DAO first."))
          else ret tt)
         (fun e =>
            if includes "not a DAO member" (message e) then throw e
            else throw (new_Error ("Unable to verify DAO membership: " +:+
                                   or_else (message e) "Unknown error"))) ;;;
       let! gasEstimate :=
         try_catch
           (estimate (CVoteProposal proposalId vote) None)
           (fun estimateError =>
              let errorMessage := estimateErrorMessage estimateError in
              if (includes "deadline exceeded" errorMessage
                  || includes "deadline" errorMessage)%bool then
                throw (new_Error "Voting deadline has passed for this proposal.")
              else if (includes "already voted" errorMessage
                       || includes "voted" errorMessage)%bool then
                throw (new_Error "You have already voted on this proposal.")
              else if (includes "not a member" errorMessage
                       || includes "onlyMember" errorMessage)%bool then
                throw (new_Error "You are not a DAO member. Please join the DAO first.")
              else
                throw (new_Error
                         ("Vote would fail on-chain. " +:+
                          (if truthy errorMessage then "Reason: " +:+ errorMessage
                           else "Possible reasons: deadline passed, already voted, or not a DAO member.")))) in
       let! gasPrice := try_catch (feeGasPrice (gwei 1)) (fun _ => ret (gwei 1)) in
       let gasLimit := withBuffer gasEstimate in
       send (CVoteProposal proposalId vote) (mk_TxOpts None gasPrice gasLimit))
      (fun error =>
         if (truthy (message error)
             && negb (includes "could not coalesce" (message error)))%bool then
           throw error
         else
           let msg :=
             or_else (reason error)
               (or_else (shortMessage error)
                  (or_else (error_message error)
                     (or_else (data_message error)
                        (or_else (info_message error)
                           (or_else (message error) "Failed to submit vote"))))) in
           let msg :=
             if includes "could not coalesce error" msg then
               "On-chain vote failed. The contract reverted the transaction. "
               +:+ "This usually means: (1) you are not a DAO member with this wallet, "
               +:+ "(2) the voting deadline has passed, or (3) this wallet has already voted on this proposal. "
               +:+ "Please verify your membership status and the proposal's voting period."
             else msg in
           throw (new_Error msg))
  end.

(** daoUtils.ts: [executeProposal] *)
Definition executeProposal (proposalId : Z) : M Tx :=
  connectWithMetamask ;;;
  getContract ;;;
  getReadOnlyContract ;;;
  let! address := getCurrentAddress in
  match present address with
  | None => throw (new_Error "Wallet not connected")
  | Some address =>
    try_catch
      (checkProposalId "On-chain" proposalId ;;;
       let! gasEstimate :=
         try_catch
           (estimate (CExecuteProposal proposalId) None)
           (fun estimateError =>
              let reason :=
                or_else (reason estimateError)
                  (or_else (message estimateError) "Unknown error") in
              if (includes "already executed" reason || includes "executed" reason)%bool then
                throw (new_Error "This proposal has already been executed")
              else if (includes "not a member" reason || includes "onlyMember" reason)%bool then
                throw (new_Error "You must be a DAO member to execute proposals")
              else if includes "deadline" reason then
                throw (new_Error "Voting deadline has not passed yet")
              else throw (new_Error ("Cannot execute proposal: " +:+ reason))) in
       let! gasPrice := feeGasPrice (gwei 20) in
       let gasLimit := withBuffer gasEstimate in
       send (CExecuteProposal proposalId) (mk_TxOpts None gasPrice gasLimit))
      (fun error =>
         let reason := or_else (reason error) (or_else (message error) "Unknown error") in
         let msg :=
           if includes "Internal JSON-RPC error" reason then
             "Contract execution failed. The proposal may not exist on-chain, may already be executed, or there may be a contract issue. Please verify the proposal ID and try again."
           else if (includes "not a member" reason || includes "onlyMember" reason)%bool then
             "You must be a DAO member to execute proposals. Please join the DAO first."
           else if includes "already executed" reason then
             "This proposal has already been executed."
           else "Failed to execute proposal: " +:+ reason in
         throw (new_Error msg))
  end.

(** The estimate with buffer and fallback used by the token actions and
    [buyLot]. *)
Definition estimateOr (c : Call) (fallback : Z) : M Z :=
  try_catch
    (let! gasLimit := estimate c None in
     ret (withBuffer gasLimit))
    (fun _ => ret fallback).

Definition requireEtherlink : M unit :=
  let! isOnEtherlink := checkEtherlinkNetwork in
  if negb isOnEtherlink then
    throw (new_Error "Please switch to Etherlink Shadownet network")
  else ret tt.

(** daoUtils.ts: [mintUSDC] *)
Definition mintUSDC (amount : Z) : M Tx :=
  connectWithMetamask ;;;
  getContract ;;;
  let! address := getCurrentAddress in
  match present address with
  | None => throw (new_Error "Wallet not connected")
  | Some _ =>
    requireEtherlink ;;;
    let! gasPrice := feeGasPrice (gwei 20) in
    let! gasLimit := estimateOr (CMintToSelf amount) 100000 in
    send (CMintToSelf amount) (mk_TxOpts None gasPrice gasLimit)
  end.

(** daoUtils.ts: [checkUSDCBalance] *)
Definition checkUSDCBalance (amount : Z) : M bool :=
  let! address := getCurrentAddress in
  match present address with
  | None => throw (new_Error "Wallet not connected")
  | Some a =>
    getReadOnlyContract ;;;
    let! balance := await (ReadBalanceOf a) (fun n => balanceOf env n a) in
    ret (amount <=? balance)
  end.

(** daoUtils.ts: [approveUSDC]; null when the allowance already suffices. *)
Definition approveUSDC (amount : Z) : M (option Tx) :=
  connectWithMetamask ;;;
  getContract ;;;
  let! address := getCurrentAddress in
  match present address with
  | None => throw (new_Error "Wallet not connected")
  | Some a =>
    requireEtherlink ;;;
    let! currentAllowance :=
      await (ReadAllowance a daoContractAddress)
            (fun n => allowance env n a daoContractAddress) in
    if amount <=? currentAllowance then ret None
    else
      let! gasPrice := feeGasPrice (gwei 20) in
      let! gasLimit := estimateOr (CApprove daoContractAddress amount) 100000 in
      let! tx := send (CApprove daoContractAddress amount)
                      (mk_TxOpts None gasPrice gasLimit) in
      ret (Some tx)
  end.

(** daoUtils.ts: [buyLot] *)
Definition buyLot (amount : Z) : M Tx :=
  connectWithMetamask ;;;
  getContract ;;;
  let! address := getCurrentAddress in
  match present address with
  | None => throw (new_Error "Wallet not connected")
  | Some _ =>
    requireEtherlink ;;;
    let! hasBalance := checkUSDCBalance amount in
    if negb hasBalance then
      throw (new_Error "Insufficient mUSDC balance. Please ensure you have enough tokens.")
    else
      let! approveTx := approveUSDC amount in
      match approveTx with
      | Some tx =>
        let! _ := await (WaitReceipt (tx_hash tx)) (fun n => wait env n (tx_hash tx)) in
        ret tt
      | None => ret tt
      end ;;;
      let! gasPrice := feeGasPrice (gwei 20) in
      let! gasLimit := estimateOr CBuyLot 300000 in
      send CBuyLot (mk_TxOpts None gasPrice gasLimit)
  end.

(** daoUtils.ts: [withdraw]; no estimation, fixed price and limit. *)
Definition withdraw : M Tx :=
  connectWithMetamask ;;;
  getContract ;;;
  send CWithdraw (mk_TxOpts None (gwei 20) 300000).

(** *** Proposal reader (lib/utils/daoUtils.ts) *)

(** [Number(parsed.args[0] || parsed.args.proposalId || 0)] *)
Definition eventProposalId (a : Args) : Z :=
  bigint_or (arg0 a) (bigint_or (arg_proposalId a) 0).

(** The predicate [events.find] is called with. *)
Definition eventMatches (proposalId : Z) (event : Log) : bool :=
  match parsed event with
  | Ok (Some p) =>
    match args p with
    | Some a => eventProposalId a =? proposalId
    | None => false
    end
  | _ => false
  end.

(** daoUtils.ts: [getProposalFromEvents] *)
Definition getProposalFromEvents (proposalId : Z) : M (option Proposal) :=
  try_catch
    (if negb (contract_has_provider env) then ret None
     else
       let! events := await QueryFilter (queryFilter env) in
       match List.find (eventMatches proposalId) events with
       | None => ret None
       | Some proposalEvent =>
         let! parsed := lift (parsed proposalEvent) in
         match parsed with
         | None => ret None
         | Some p =>
           match args p with
           | None => ret None
           | Some a =>
             let user := or_else (arg1 a) (or_else (arg_user a) "") in
             let! block := await (GetBlock (log_blockNumber proposalEvent))
                                 (fun n => getBlock env n (log_blockNumber proposalEvent)) in
             let! now0 := now_s in
             let createdAt :=
               match block with
               | Some b => if block_timestamp b =? 0 then now0 else block_timestamp b
               | None => now0
               end in
             let deadline := createdAt + 7 * 24 * 60 * 60 in
             let! now := now_s in
             let status := if deadline <=? now then marketplace else voting in
             ret (Some {| id := toString proposalId;
                          proposalId := proposalId;
                          lotSize := 0;
                          sharePrice := 0;
                          maxPerInvestor := 0;
                          proposalSummary := "Proposal " +:+ toString proposalId;
                          deadline := deadline;
                          user := user;
                          yayVotes := 0;
                          nayVotes := 0;
                          executed := false;
                          status := status;
                          createdAt := createdAt * 1000;
                          votingEndsAt := deadline * 1000 |})
           end
         end
       end)
    (fun _ => ret None).

(** The status computed by the direct struct read of [getProposal]. *)
Definition structStatus (now deadline : Z) (executed : bool) : Status :=
  if deadline <=? now then
    (if executed then closed else marketplace)
  else voting.

(** daoUtils.ts: [getProposal] *)
Definition getProposal (proposalId : Z) : M (option Proposal) :=
  try_catch
    (getReadOnlyContract ;;;
     try_catch
       (let! proposal := await (ReadIdToProposal proposalId)
                               (fun n => idToProposal env n proposalId) in
        let deadline := s_deadline proposal in
        if deadline =? 0 then ret None
        else
          let! now := now_s in
          ret (Some {| id := toString proposalId;
                       proposalId := proposalId;
                       lotSize := s_lotSize proposal;
                       sharePrice := s_SharePrice proposal;
                       maxPerInvestor := s_maxPerInvestor proposal;
                       proposalSummary := s_proposalSummary proposal;
                       deadline := deadline;
                       user := s_user proposal;
                       yayVotes := s_yayVotes proposal;
                       nayVotes := s_nayVotes proposal;
                       executed := s_executed proposal;
                       status := structStatus now deadline (s_executed proposal);
                       createdAt := (deadline - 7 * 24 * 60 * 60) * 1000;
                       votingEndsAt := deadline * 1000 |}))
       (fun structError => getProposalFromEvents proposalId))
    (fun error =>
       if (String.eqb (code error) "BAD_DATA"
           || includes "could not decode" (message error))%bool then
         try_catch
           (getReadOnlyContract ;;; getProposalFromEvents proposalId)
           (fun _ => ret None)
       else ret None).

(** Descending order on [proposalId], for [proposals.sort]. *)
Definition proposal_desc (a b : Proposal) : Prop := proposalId b <= proposalId a.

#[local] Instance proposal_desc_dec : RelDecision proposal_desc.
Proof. intros a b. unfold proposal_desc. apply _. Defined.

(** The loop [for (let i = 1; i <= totalProposals; i++)] of [getAllProposals];
    [count] is the number of ids left, [i] the next id. *)
Fixpoint collectProposals (count : nat) (i : Z) (proposals : list Proposal)
  : M (list Proposal) :=
  match count with
  | O => ret proposals
  | S count' =>
    let! proposals' :=
      try_catch
        (let! proposal := getProposal i in
         match proposal with
         | Some p => ret (proposals ++ [p])
         | None => ret proposals
         end)
        (fun _ => ret proposals) in
    collectProposals count' (i + 1) proposals'
  end.

(** daoUtils.ts: [getAllProposals] *)
Definition getAllProposals : M (list Proposal) :=
  try_catch
    (let! supabaseProposals := getProposalsFromSupabase in
     match supabaseProposals with
     | _ :: _ => ret supabaseProposals
     | [] =>
       getReadOnlyContract ;;;
       let! totalProposals := await ReadNumProposal (numProposal env) in
       if totalProposals =? 0 then ret []
       else
         let! proposals := collectProposals (Z.to_nat totalProposals) 1 [] in
         ret (merge_sort proposal_desc proposals)
     end)
    (fun _ => ret []).

(** *** Membership flows of the DAO page (app/dao/page.tsx) *)

Definition modify_page (f : Page -> Page) : M unit :=
  modify (fun w => set_page (f (page w)) w).

Definition setIsConnected (b : bool) : M unit :=
  modify_page (fun p => mk_Page b (walletAddress p) (isMember p)
                                (checkingMembership p) (joiningDao p) (loading p) (justJoined p)).
Definition setWalletAddress (a : string) : M unit :=
  modify_page (fun p => mk_Page (isConnected p) a (isMember p)
                                (checkingMembership p) (joiningDao p) (loading p) (justJoined p)).
Definition setIsMember (b : bool) : M unit :=
  modify_page (fun p => mk_Page (isConnected p) (walletAddress p) b
                                (checkingMembership p) (joiningDao p) (loading p) (justJoined p)).
Definition setJoiningDao (b : bool) : M unit :=
  modify_page (fun p => mk_Page (isConnected p) (walletAddress p) (isMember p)
                                (checkingMembership p) b (loading p) (justJoined p)).
Definition setLoading (b : bool) : M unit :=
  modify_page (fun p => mk_Page (isConnected p) (walletAddress p) (isMember p)
                                (checkingMembership p) (joiningDao p) b (justJoined p)).
Definition setJustJoined (b : bool) : M unit :=
  modify_page (fun p => mk_Page (isConnected p) (walletAddress p) (isMember p)
                                (checkingMembership p) (joiningDao p) (loading p) b).

Definition toast (k : ToastKind) (msg : string) : M unit := effect (Toast k msg).

(** [await new Promise(resolve => setTimeout(resolve, ms))] *)
Definition sleep (ms : Z) : M unit := await (Sleep ms) (fun _ => Ok tt).

(** The verification loop of [handleJoinDao]:
    [while (!verified && retries > 0)], yielding [verified]. *)
Fixpoint verifyLoop (retries : nat) (address : string) : M bool :=
  match retries with
  | O => ret false
  | S retries' =>
    sleep 2000 ;;;
    let! verified :=
      try_catch
        (let! memberStatus := isDaoMember address in
         if memberStatus then
           try_catch
             (setJustJoined true ;;;
              setIsMember true ;;;
              let! _ := setDaoMembership address true in
              toast toast_success "Successfully joined the DAO!" ;;;
              ret true)
             (fun _ => ret true)
         else ret false)
        (fun _ => ret false) in
    if verified then ret true else verifyLoop retries' address
  end.

(** The [catch] block of [handleJoinDao]; [address] is the variable the
    block closes over, as it stands when the error is thrown. *)
Definition joinFailed (address : option string) (error : Error) : M unit :=
  let errorMessage :=
    if instanceof_Error error then message error else "Failed to join DAO" in
  if includes "already a member" errorMessage then
    setIsMember true ;;;
    match present address with
    | Some a => let! _ := setDaoMembership a true in ret tt
    | None => ret tt
    end ;;;
    toast toast_info "You are already a member of the DAO"
  else toast toast_error errorMessage.

(** A statement of the [try] block of [handleJoinDao]: when it throws the
    [catch] block runs and the function is over, otherwise [k] goes on. *)
Definition in_try {A : Type} (address : option string) (m : M A) (k : A -> M unit) : M unit :=
  fun w =>
    match m w with
    | (Ok a, w1, t1) =>
      match k a w1 with
      | (r, w2, t2) => (r, w2, t1 ++ t2)
      end
    | (Throw e, w1, t1) =>
      match joinFailed address e w1 with
      | (r, w2, t2) => (r, w2, t1 ++ t2)
      end
    end.

(** page.tsx: [handleJoinDao] *)
Definition handleJoinDao : M unit :=
  finally
    (in_try None (setJoiningDao true ;;; getCurrentAddress) (fun address =>
     in_try address
       (match present address with
        | Some a =>
          let! currentMemberStatus := isDaoMember a in
          if currentMemberStatus then
            setIsMember true ;;;
            let! _ := setDaoMembership a true in
            toast toast_info "You are already a member of the DAO" ;;;
            setJoiningDao false ;;;
            ret true
          else ret false
        | None => ret false
        end) (fun returned =>
     if returned then ret tt else
     in_try address
       (let! tx := joinDao "0.1" in
        toast toast_success "Transaction submitted! Waiting for confirmation..." ;;;
        let! receipt := await (WaitReceipt (tx_hash tx)) (fun n => wait env n (tx_hash tx)) in
        toast toast_success "Transaction confirmed! Verifying membership..." ;;;
        match present address with
        | Some a => ret (Some a)
        | None => getCurrentAddress
        end) (fun address =>
     in_try address
       (match present address with
        | Some a =>
          let! verified := verifyLoop 10 a in
          if negb verified then
            setJustJoined true ;;;
            setIsMember true ;;;
            let! _ := setDaoMembership a true in
            toast toast_success "Successfully joined the DAO! (Membership verification pending)"
          else ret tt
        | None =>
          setJustJoined true ;;;
          setIsMember true ;;;
          toast toast_success "Successfully joined the DAO!"
        end) ret))))
    (setJoiningDao false).

(** The retry loop of [checkWalletAndMembership]: [while (retries > 0)],
    over the membership check it calls. *)
Fixpoint membershipLoopWith (check : string -> M bool) (retries : nat)
         (address : string) (cachedMembership : bool) : M unit :=
  match retries with
  | O => ret tt
  | S retries' =>
    let! done :=
      try_catch
        (let! contractStatus := check address in
         let! _ := setDaoMembership address contractStatus in
         setIsMember contractStatus ;;;
         ret true)
        (fun _ =>
           match retries' with
           | S _ => sleep 1000
           | O =>
             let! w := get in
             if (negb cachedMembership && negb (justJoined (page w)))%bool then
               setIsMember false ;;;
               let! _ := setDaoMembership address false in
               ret tt
             else ret tt
           end ;;;
           ret false) in
    if done then ret tt
    else membershipLoopWith check retries' address cachedMembership
  end.

(** The loop as the page runs it, on [isDaoMember]. *)
Definition membershipLoop : nat -> string -> bool -> M unit :=
  membershipLoopWith isDaoMember.

(** page.tsx: [checkWalletAndMembership], the effect run on mount. *)
Definition checkWalletAndMembership : M unit :=
  finally
    (try_catch
       (setLoading true ;;;
        if hasEthereum env then
          let! accounts := await EthAccounts (eth_accounts env) in
          match accounts with
          | [] => ret tt
          | _ :: _ =>
            let! isOnEtherlink := checkEtherlinkNetwork in
            if negb isOnEtherlink then setLoading false
            else
              initializeProvider ;;;
              let! address := getCurrentAddress in
              match present address with
              | None => ret tt
              | Some address =>
                setIsConnected true ;;;
                setWalletAddress address ;;;
                let! w := get in
                if negb (justJoined (page w)) then
                  let! cachedMembership := getDaoMembership address in
                  when cachedMembership (setIsMember true) ;;;
                  membershipLoop 3 address cachedMembership
                else setJustJoined false
              end
          end
        else ret tt)
       (fun _ => ret tt))
    (setLoading false).

(** A wallet that grants access to account [a] whenever asked. *)
Record WalletConnects (a : string) : Prop := mk_WalletConnects {
  wc_ethereum : hasEthereum env = true;
  wc_request : forall n, eth_requestAccounts env n = Ok tt;
  wc_signer : forall n, getSigner env n = Ok a;
  wc_address : forall n, signer_getAddress env n = Ok a;
  wc_truthy : truthy a = true
}.

End Gateway.

(** *** Observations on traces *)

(** Effects that are a gas estimation, and effects that submit a transaction. *)
Definition is_estimate (e : Effect) : bool :=
  match e with EstimateGas _ _ _ => true | _ => false end.
Definition is_send (e : Effect) : bool :=
  match e with SendTx _ _ => true | _ => false end.
Definition is_error_toast (e : Effect) : bool :=
  match e with Toast toast_error _ => true | _ => false end.

(** An effect that neither estimates gas nor submits a transaction, and a
    computation that only performs such effects. *)
Definition quiet (e : Effect) : bool := negb (is_estimate e || is_send e).
Definition Quiet {A : Type} (m : M A) : Prop :=
  forall w, forallb quiet (effects (m w)) = true.

(** [k] rounds of the verification poll: wait two seconds, read the flag. *)
Fixpoint polls (a : string) (k : nat) : list Effect :=
  match k with
  | O => []
  | S k' => Sleep 2000 :: ReadAddressToUser a :: polls a k'
  end.

(** Whether a reply of the membership read makes [isDaoMember] answer true. *)
Definition saysMember (reply : Reply UserResult) : bool :=
  match reply with
  | Ok r => match memberFlag r with Ok b => b | Throw _ => false end
  | Throw _ => false
  end.


(** The write actions of daoUtils.ts, and the trace of running one. *)
Inductive WriteAction :=
| AJoin (amount : string)
| ACreateProposal (lotSize sharePrice maxPerInvestor : Z) (proposalSummary : string)
| AVote (proposalId vote : Z)
| AExecute (proposalId : Z)
| AMint (amount : Z)
| AApprove (amount : Z)
| ABuyLot (amount : Z)
| AWithdraw.

Definition traceOf (env : Env) (daoContractAddress : string) (act : WriteAction)
           (w : World) : list Effect :=
  match act with
  | AJoin amount => effects (joinDao env amount w)
  | ACreateProposal l p m s => effects (createProposal env l p m s w)
  | AVote pid v => effects (voteProposal env pid v w)
  | AExecute pid => effects (executeProposal env pid w)
  | AMint amount => effects (mintUSDC env amount w)
  | AApprove amount => effects (approveUSDC env daoContractAddress amount w)
  | ABuyLot amount => effects (buyLot env daoContractAddress amount w)
  | AWithdraw => effects (withdraw env w)
  end.

(** A trace that ends with [suffix], with no error toast before it. *)
Definition ends_with (suffix tr : list Effect) : Prop :=
  exists pre, tr = pre ++ suffix /\ existsb is_error_toast pre = false.

(** What [handleJoinDao] does from the confirmation on when no poll
    verifies the membership. *)
Definition unverifiedSuffix (a : string) (h : string) : list Effect :=
  [WaitReceipt h; Toast toast_success "Transaction confirmed! Verifying membership..."]
  ++ polls a 10
  ++ [Db (DbUpsertMember (toLowerCase a) true);
      Toast toast_success "Successfully joined the DAO! (Membership verification pending)"].

(** The row [setDaoMembership] upserts when called in world [w]. *)
Definition memberRow (env : Env) (a : string) (b : bool) (w : World) : MemberRow :=
  mk_MemberRow (toLowerCase a) b (dateNow env (tick w)).

(** Every submitted transaction carries the buffered limit of each
    successful estimate made for the same call. *)
Definition buffered (tr : list Effect) : Prop :=
  forall c o, In (SendTx c o) tr ->
  forall v E, In (EstimateGas c v (Ok E)) tr -> gasLimit o = withBuffer E.

(** Every successful estimate leads to a submission: the trace holds a
    transaction for the same call, with the buffered limit. *)
Definition submitted (tr : list Effect) : Prop :=
  forall c v E, In (EstimateGas c v (Ok E)) tr ->
  exists o, In (SendTx c o) tr /\ gasLimit o = withBuffer E.

End Client.

(** ** Concrete scenarios *)

Module Scenario.

Import Js Client.
Local Open Scope list_scope.
Local Open Scope Z_scope.

Definition alice : string := "0xA11CE0000000000000000000000000000000AbCd".

Definition dao : string := "0xDA0000000000000000000000000000000000DA00".

Definition decodeError : Error :=
  mk_Error "BAD_DATA" "" "" "" "" "" "" "could not decode result data" true.

(** The log of [emit proposalCreated(pid, u)], mined in block [blk]. *)
Definition createdLog (pid : Z) (u : string) (blk : Z) : Log :=
  mk_Log (Ok (Some (mk_ParsedLog "proposalCreated"
                      (Some (mk_Args (Some pid) (Some pid) u u))))) blk.

Definition receipt0 : Receipt := mk_Receipt "0x7e57" (Some []) 12.

(** A wallet holding [alice] on the expected chain, a node that answers
    every call, a store that never fails, and a clock that starts at
    [start] seconds and advances one second per awaited call.  The
    contract object has no [provider] property.  The membership read and
    the struct read are left to the scenario. *)
Definition mkEnv (member : nat -> string -> Reply UserResult)
           (struct : nat -> Z -> Reply ProposalStruct)
           (start : Z) : Env :=
  {| hasEthereum := true;
     contract_has_provider := false;
     parseEther := fun _ => Ok (10 ^ 17);
     eth_accounts := fun _ => Ok [alice];
     eth_chainId := fun _ => Ok 127823;
     eth_requestAccounts := fun _ => Ok tt;
     getSigner := fun _ => Ok alice;
     signer_getAddress := fun _ => Ok alice;
     numProposal := fun _ => Ok 2;
     addressToUser := member;
     idToProposal := struct;
     balanceOf := fun _ _ => Ok 5000000;
     allowance := fun _ _ _ => Ok 0;
     estimateGas := fun _ _ _ => Ok 21004;
     getFeeData := fun _ => Ok (Some (10 ^ 9));
     sendTransaction := fun _ _ _ => Ok (mk_Tx "0x7e57");
     wait := fun _ _ => Ok receipt0;
     queryFilter := fun _ => Ok [createdLog 1 alice 10; createdLog 2 alice 11];
     getBlock := fun _ _ => Ok (Some (mk_Block 1000));
     db_error := fun _ => None;
     dateNow := fun n => (start + Z.of_nat n) * 1000 |}.

(** The struct read as the deployed contract answers it: [idToProposal] is
    not public, the call cannot be decoded. *)
Definition structThrows : nat -> Z -> Reply ProposalStruct :=
  fun _ _ => Throw decodeError.

(** The member read answers with a bare boolean. *)
Definition memberIs (b : bool) : nat -> string -> Reply UserResult :=
  fun _ _ => Ok (RBoolean b).

(** The member read throws on every call. *)
Definition memberThrows : nat -> string -> Reply UserResult :=
  fun _ _ => Throw decodeError.

Definition env_member : Env := mkEnv (memberIs true) structThrows 2000.
Definition env_stranger : Env := mkEnv (memberIs false) structThrows 2000.
Definition env_unreadable : Env := mkEnv memberThrows structThrows 2000.

Definition page0 : Page := mk_Page false "" false false false true false.

Definition world0 : World := mk_World None None 0 [] [] page0.

(** Contract scenario: two members, two proposals. *)
Definition carol : Dao.address := 10%N.
Definition dave : Dao.address := 11%N.

Definition done (st : Dao.State) (x : Dao.Exec Dao.State) : Dao.State :=
  match x with
  | Dao.Done s => s
  | _ => st
  end.

Definition created (st : Dao.State) (x : Dao.Exec (Dao.State * N)) : Dao.State :=
  match x with
  | Dao.Done (s, _) => s
  | _ => st
  end.

Definition st_members : Dao.State :=
  done Dao.init
    (Dao.join (Dao.mk_Msg dave (Dao.ether / 10) 1000)
       (done Dao.init (Dao.join (Dao.mk_Msg carol (Dao.ether / 10) 1000) Dao.init))).

Definition st_two : Dao.State :=
  created Dao.init
    (Dao.createProposal (Dao.mk_Msg carol 0 2000) 10 5 2 "second"
       (created Dao.init
          (Dao.createProposal (Dao.mk_Msg carol 0 1500) 1000 10 5 "first" st_members))).

End Scenario.

(** ** Sequences of contract calls *)

Module DaoSteps.

Import Dao.
Local Open Scope list_scope.
Local Open Scope N_scope.

(** The externally callable functions that change the storage modelled in
    [State].  [buyLot] has an empty body; [withdraw], [receive] and
    [fallback] only move the balance, and the inherited [Ownable] functions
    only the owner, neither of which [State] holds. *)
Inductive Call :=
| CallJoin
| CallCreateProposal (lot price maxPer : N) (summary : string)
| CallVoteProposal (proposalId : N) (vote : Vote)
| CallExecuteProposal (proposalId : N).

(** One transaction: the call [c] made with [m]. *)
Definition step (m : Msg) (c : Call) (st : State) : Exec State :=
  match c with
  | CallJoin => join m st
  | CallCreateProposal lot price maxPer summary =>
    bind (createProposal m lot price maxPer summary st) (fun r => Done (fst r))
  | CallVoteProposal proposalId vote => voteProposal m proposalId vote st
  | CallExecuteProposal proposalId => executeProposal m proposalId st
  end.

(** [st'] is reached from [st] by a sequence of accepted transactions. *)
Inductive steps : State -> State -> Prop :=
| steps_refl st : steps st st
| steps_next st st1 st2 m c :
    steps st st1 -> step m c st1 = Done st2 -> steps st st2.

(** The states of a deployed contract. *)
Definition reachable (st : State) : Prop := steps init st.

(** The recorded voters of a proposal are consistent with its tally. *)
Definition tally_ok (p : Proposal) : Prop :=
  (forall a b, voted p !! a = Some b -> b = true)
  /\ yayVotes p + nayVotes p = N.of_nat (size (voted p)).

(** Proposal ids announced by [proposalCreated] events, in log order. *)
Definition createdInLog (log : list Event) : list N :=
  omap (fun e => match e with
                 | proposalCreated i _ => Some i
                 | _ => None
                 end) log.

Definition is_joinedDao (e : Event) : bool :=
  match e with
  | joinedDao _ => true
  | _ => false
  end.

(** The ids [1 .. n]. *)
Definition ids_upto (n : N) : list N := map N.of_nat (seq 1 (N.to_nat n)).

(** What accepted transactions preserve: members stay members, the
    proposal count, the executed flags, the tallies and the voter sets only
    grow, and the deadline and the terms of an existing proposal are fixed. *)
Definition grows (st st' : State) : Prop :=
  (forall a, isMember (user_at st a) = true -> isMember (user_at st' a) = true)
  /\ numProposal st <= numProposal st'
  /\ membership st' = membership st
  /\ duration st' = duration st
  /\ (forall id,
        (executed (proposal_at st id) = true -> executed (proposal_at st' id) = true)
        /\ yayVotes (proposal_at st id) <= yayVotes (proposal_at st' id)
        /\ nayVotes (proposal_at st id) <= nayVotes (proposal_at st' id)
        /\ (forall a, voted_by (proposal_at st id) a = true ->
                      voted_by (proposal_at st' id) a = true))
  /\ (forall id, id <= numProposal st ->
        deadline (proposal_at st' id) = deadline (proposal_at st id)
        /\ puser (proposal_at st' id) = puser (proposal_at st id)
        /\ lotSize (proposal_at st' id) = lotSize (proposal_at st id)
        /\ SharePrice (proposal_at st' id) = SharePrice (proposal_at st id)
        /\ maxPerInvestor (proposal_at st' id) = maxPerInvestor (proposal_at st id)
        /\ proposalSummary (proposal_at st' id) = proposalSummary (proposal_at st id)).

(** Slots that were never created are blank, slot 0 has no deadline, and
    the fee and the voting period are the deployed constants. *)
Definition unborn (st : State) : Prop :=
  (forall id, numProposal st < id -> proposal_at st id = zero_Proposal)
  /\ deadline (proposal_at st 0) = 0
  /\ membership st = ether / 10
  /\ duration st = 7 * days.

(** The log lists the created ids in order and holds no [joinedDao]. *)
Definition log_ok (st : State) : Prop :=
  createdInLog (events st) = ids_upto (numProposal st)
  /\ forallb (fun e => negb (is_joinedDao e)) (events st) = true.

End DaoSteps.

(** ** More of the client: account changes, listings *)

Module ClientMore.

Import Js Client.
Local Open Scope list_scope.
Local Open Scope Z_scope.

Section Pages.

Variable env : Env.

(** page.tsx: [handleAccountsChanged], the wallet's [accountsChanged]
    listener of the DAO page. *)
Definition handleAccountsChanged (accounts : list string) : M unit :=
  match accounts with
  | [] =>
    setIsConnected false ;;;
    setWalletAddress "" ;;;
    setIsMember false ;;;
    setJustJoined false
  | _ :: _ =>
    let! address := getCurrentAddress env in
    match present address with
    | None => ret tt
    | Some address =>
      setWalletAddress address ;;;
      let! w := get in
      if negb (justJoined (page w)) then
        try_catch
          (let! cachedMembership := getDaoMembership env address in
           when cachedMembership (setIsMember true) ;;;
           let! memberStatus := isDaoMember env address in
           setIsMember memberStatus ;;;
           let! _ := setDaoMembership env address memberStatus in
           ret tt)
          (fun _ =>
             let! cachedMembership := getDaoMembership env address in
             setIsMember cachedMembership)
      else setJustJoined false
    end
  end.

Definition status_eqb (a b : Status) : bool :=
  match a, b with
  | voting, voting | closed, closed | marketplace, marketplace => true
  | _, _ => false
  end.

(** The marketplace page: what [fetchProposals] hands to [setProposals],
    nothing when the read throws. *)
Definition fetchMarketplaceProposals : M (option (list Proposal)) :=
  try_catch
    (let! allProposals := getProposalsFromSupabase env in
     let marketplaceProposals :=
       List.filter (fun proposal => status_eqb (status proposal) marketplace) allProposals in
     ret (Some marketplaceProposals))
    (fun _ => toast toast_error "Failed to load proposals" ;;; ret None).

End Pages.

(** page.tsx: the tab selection, [filteredProposals] and [proposalCounts]. *)
Inductive Tab :=
| TabAll
| TabStatus (s : Status).

Definition matchesSearch (searchQuery : string) (proposal : Proposal) : bool :=
  includes (toLowerCase searchQuery) (toLowerCase (proposalSummary proposal)).

Definition filteredProposals (proposals : list Proposal) (searchQuery : string)
           (activeTab : Tab) : list Proposal :=
  List.filter
    (fun proposal =>
       match activeTab with
       | TabAll => matchesSearch searchQuery proposal
       | TabStatus s => status_eqb (status proposal) s && matchesSearch searchQuery proposal
       end)
    proposals.

Record Counts := mk_Counts {
  count_total : nat;
  count_voting : nat;
  count_closed : nat;
  count_marketplace : nat
}.

Definition countStatus (s : Status) (proposals : list Proposal) : nat :=
  length (List.filter (fun p => status_eqb (status p) s) proposals).

Definition proposalCounts (proposals : list Proposal) : Counts :=
  {| count_total := length proposals;
     count_voting := countStatus voting proposals;
     count_closed := countStatus closed proposals;
     count_marketplace := countStatus marketplace proposals |}.

(** *** Further observations on traces *)

(** Effects that may open a wallet popup. *)
Definition is_popup (e : Effect) : bool :=
  match e with
  | EthRequestAccounts | GetSigner => true
  | _ => false
  end.

(** An effect that needs no approval: no popup, no estimate, no transaction. *)
Definition passive (e : Effect) : bool := negb (is_popup e) && quiet e.

(** A computation all of whose effects satisfy [P]. *)
Definition Only (P : Effect -> bool) {A : Type} (m : M A) : Prop :=
  forall w, forallb P (effects (m w)) = true.

(** A computation that never throws. *)
Definition NoThrow {A : Type} (m : M A) : Prop :=
  forall w, exists a, result (m w) = Ok a.

(** Every submitted transaction was estimated successfully before. *)
Definition estimated (tr : list Effect) : Prop :=
  forall c o, In (SendTx c o) tr -> exists v E, In (EstimateGas c v (Ok E)) tr.

(** The limit the token actions and [buyLot] fall back to. *)
Definition fallbackLimit (c : Call) : Z :=
  match c with
  | CBuyLot => 300000
  | _ => 100000
  end.

(** Every submitted transaction carries the buffered estimate, or the
    fallback limit after an estimate that threw. *)
Definition estimated_or_fallback (tr : list Effect) : Prop :=
  forall c o, In (SendTx c o) tr ->
    (exists E, In (EstimateGas c None (Ok E)) tr /\ gasLimit o = withBuffer E)
    \/ (exists e, In (EstimateGas c None (Throw e)) tr /\ gasLimit o = fallbackLimit c).

(** Replace single replies of an environment. *)
Definition with_estimateGas (f : nat -> Call -> option Z -> Reply Z) (e : Env) : Env :=
  mk_Env (hasEthereum e) (contract_has_provider e) (parseEther e) (eth_accounts e)
         (eth_chainId e) (eth_requestAccounts e) (getSigner e) (signer_getAddress e)
         (numProposal e) (addressToUser e) (idToProposal e) (balanceOf e) (allowance e)
         f (getFeeData e) (sendTransaction e) (wait e) (queryFilter e) (getBlock e)
         (db_error e) (dateNow e).

Definition with_db_error (f : nat -> option Error) (e : Env) : Env :=
  mk_Env (hasEthereum e) (contract_has_provider e) (parseEther e) (eth_accounts e)
         (eth_chainId e) (eth_requestAccounts e) (getSigner e) (signer_getAddress e)
         (numProposal e) (addressToUser e) (idToProposal e) (balanceOf e) (allowance e)
         (estimateGas e) (getFeeData e) (sendTransaction e) (wait e) (queryFilter e)
         (getBlock e) f (dateNow e).

Definition with_allowance (f : nat -> string -> string -> Reply Z) (e : Env) : Env :=
  mk_Env (hasEthereum e) (contract_has_provider e) (parseEther e) (eth_accounts e)
         (eth_chainId e) (eth_requestAccounts e) (getSigner e) (signer_getAddress e)
         (numProposal e) (addressToUser e) (idToProposal e) (balanceOf e) f
         (estimateGas e) (getFeeData e) (sendTransaction e) (wait e) (queryFilter e)
         (getBlock e) (db_error e) (dateNow e).

Definition with_balanceOf (f : nat -> string -> Reply Z) (e : Env) : Env :=
  mk_Env (hasEthereum e) (contract_has_provider e) (parseEther e) (eth_accounts e)
         (eth_chainId e) (eth_requestAccounts e) (getSigner e) (signer_getAddress e)
         (numProposal e) (addressToUser e) (idToProposal e) f (allowance e)
         (estimateGas e) (getFeeData e) (sendTransaction e) (wait e) (queryFilter e)
         (getBlock e) (db_error e) (dateNow e).

Definition with_wait (f : nat -> string -> Reply Receipt) (e : Env) : Env :=
  mk_Env (hasEthereum e) (contract_has_provider e) (parseEther e) (eth_accounts e)
         (eth_chainId e) (eth_requestAccounts e) (getSigner e) (signer_getAddress e)
         (numProposal e) (addressToUser e) (idToProposal e) (balanceOf e) (allowance e)
         (estimateGas e) (getFeeData e) (sendTransaction e) f (queryFilter e)
         (getBlock e) (db_error e) (dateNow e).

Definition with_addressToUser (f : nat -> string -> Reply UserResult) (e : Env) : Env :=
  mk_Env (hasEthereum e) (contract_has_provider e) (parseEther e) (eth_accounts e)
         (eth_chainId e) (eth_requestAccounts e) (getSigner e) (signer_getAddress e)
         (numProposal e) f (idToProposal e) (balanceOf e) (allowance e)
         (estimateGas e) (getFeeData e) (sendTransaction e) (wait e) (queryFilter e)
         (getBlock e) (db_error e) (dateNow e).

End ClientMore.

(** ** Further contract scenarios *)

Module ScenarioMore.

Import Dao.
Local Open Scope N_scope.

(** [dave] has voted for proposal 1 of [st_two]. *)
Definition st_voted : State :=
  Scenario.done init
    (voteProposal (mk_Msg Scenario.dave 0 3000) 1 yay Scenario.st_two).

(** Then [carol] has voted against it. *)
Definition st_voted2 : State :=
  Scenario.done init
    (voteProposal (mk_Msg Scenario.carol 0 3500) 1 nay st_voted).

End ScenarioMore.

(** ** Further client scenarios *)

Module ScenarioClient.

Import Js Client ClientMore.
Local Open Scope list_scope.
Local Open Scope Z_scope.

(** The estimate of [buyLot] throws: the purchase goes out with the
    fallback limit, the approval before it with its buffered estimate. *)
Definition env_buy : Env :=
  with_estimateGas
    (fun _ c _ => match c with
                  | CBuyLot => Throw Scenario.decodeError
                  | _ => Ok 50000
                  end)
    Scenario.env_member.

(** A revert as ethers reports it: the reason string of the [require]. *)
Definition revertError (reason : string) : Error :=
  mk_Error "CALL_EXCEPTION" reason "" "" "" "" "" "execution reverted" true.

(** Every gas estimation reverts with [reason]. *)
Definition env_reverts (reason : string) : Env :=
  with_estimateGas (fun _ _ _ => Throw (revertError reason)) Scenario.env_member.

(** The DAO may already spend 500 tokens of every owner. *)
Definition env_allowed : Env :=
  with_allowance (fun _ _ _ => Ok 500) Scenario.env_member.

(** Two mirrored proposals: the first executed, the second still open
    (deadlines 1000 s and 900000 s). *)
Definition row1 : ProposalRow :=
  mk_ProposalRow 1 1000 10 5 "first" "0xa11ce" 1000000 "0x01" (Some 3) (Some 1)
                 (Some true) 500 600.

Definition row2 : ProposalRow :=
  mk_ProposalRow 2 10 5 2 "second" "0xa11ce" 900000000 "0x02" None None None 700 700.

Definition world_rows : World :=
  mk_World None None 0 [row1; row2] [] Scenario.page0.



(** The store fails every query. *)
Definition storeDown : Error :=
  mk_Error "57P01" "" "" "" "" "" "" "terminating connection" false.

Definition env_db_down : Env :=
  with_db_error (fun _ => Some storeDown) Scenario.env_member.

(** The page right after a join: the flag of [justJoinedRef] is set. *)
Definition world_joined : World :=
  mk_World None None 0 [] [] (mk_Page false "" true false false true true).

(** The mirror remembers [alice] as a member. *)
Definition world_cached : World :=
  mk_World None None 0 []
           [mk_MemberRow (toLowerCase Scenario.alice) true 100] Scenario.page0.

(** The receipt of a creation carries the event of proposal 3. *)
Definition receipt_created : Receipt :=
  mk_Receipt "0x7e57" (Some [Scenario.createdLog 3 Scenario.alice 12]) 12.

Definition env_created : Env :=
  with_wait (fun _ _ => Ok receipt_created) Scenario.env_member.

End ScenarioClient.

(** * Properties *)

(** ** The contract *)

Module DaoProps.

Import Dao.
Local Open Scope list_scope.
Local Open Scope N_scope.

Lemma proposal_at_set_eq st id p : proposal_at (set_proposal st id p) id = p.
Proof. unfold proposal_at, set_proposal; simpl. by rewrite lookup_insert_eq. Qed.

Lemma proposal_at_set_ne st id j p :
  j ≠ id -> proposal_at (set_proposal st id p) j = proposal_at st j.
Proof. intros H. unfold proposal_at, set_proposal; simpl. by rewrite lookup_insert_ne. Qed.

Lemma proposal_at_emit st e j : proposal_at (emit st e) j = proposal_at st j.
Proof. reflexivity. Qed.

(** A call that gets past [onlyMember] carries no value, comes from a
    member, and returns what the body returns. *)
Lemma onlyMember_Done {A} m st (body : Exec A) a :
  onlyMember m st body = Done a ->
  value m = 0 /\ isMember (user_at st (sender m)) = true /\ body = Done a.
Proof.
  unfold onlyMember, bind, require.
  destruct (value m =? 0) eqn:Hv; [|discriminate].
  destruct (isMember (user_at st (sender m))); [|discriminate].
  intros ->. apply N.eqb_eq in Hv. auto.
Qed.

Lemma votesInLog_app log1 log2 id :
  votesInLog (log1 ++ log2) id = votesInLog log1 id ++ votesInLog log2 id.
Proof. unfold votesInLog. apply omap_app. Qed.

Lemma votesInLog_voted i u id :
  votesInLog [proposalVoted i u] id = if i =? id then [u] else [].
Proof. unfold votesInLog. simpl. by destruct (i =? id). Qed.

Lemma voted_by_set_voted p a : voted_by (set_voted p a) a = true.
Proof. unfold voted_by, set_voted; simpl. by rewrite lookup_insert_eq. Qed.

(** C2.  Whenever [executeProposal(id)] is accepted, the proposal named by
    [id] was not executed before the call, and the call sets the executed
    flag of proposal [numProposal] (the highest-numbered one), leaving every
    other proposal, [id] included when it is not the latest, as it was.
    The argument matters only through the pre-check: two ids whose
    proposals have the same executed flag give the same outcome. *)
Theorem executeProposal_marks_latest (m : Msg) (id : N) (st st' : State) :
  executeProposal m id st = Done st' ->
  executed (proposal_at st id) = false
  /\ proposal_at st' (numProposal st) = set_executed (proposal_at st (numProposal st)) true
  /\ executed (proposal_at st' (numProposal st)) = true
  /\ (forall j, j ≠ numProposal st -> proposal_at st' j = proposal_at st j)
  /\ numProposal st' = numProposal st
  /\ (forall id', executed (proposal_at st id') = executed (proposal_at st id) ->
                  executeProposal m id' st = executeProposal m id st).
Proof.
  intros H. unfold executeProposal in H.
  apply onlyMember_Done in H as (Hv & Hm & H).
  unfold bind, require in H.
  destruct (executed (proposal_at st id)) eqn:He; simpl in H; [discriminate|].
  injection H as <-.
  split; [reflexivity|].
  rewrite proposal_at_set_eq.
  repeat split; auto.
  - intros j Hj. by apply proposal_at_set_ne.
  - intros id' Hid. unfold executeProposal. by rewrite Hid, He.
Qed.

(** With two proposals, executing proposal 1 marks proposal 2. *)
Lemma executeProposal_marks_latest_witness :
  let m := mk_Msg Scenario.dave 0 3000 in
  let st' := Scenario.done init (executeProposal m 1 Scenario.st_two) in
  executeProposal m 1 Scenario.st_two = Done st'
  /\ executed (proposal_at st' 2) = true
  /\ executed (proposal_at st' 1) = false.
Proof.
  intros m st'.
  assert (H : executeProposal m 1 Scenario.st_two = Done st') by (vm_compute; reflexivity).
  split; [exact H|].
  destruct (executeProposal_marks_latest m 1 Scenario.st_two st' H) as (_ & _ & He & Hj & _).
  split; [exact He|].
  rewrite (Hj 1) by (vm_compute; discriminate). vm_compute. reflexivity.
Defined.

(** C3.  Every successful [voteProposal(proposalId, vote)] appends exactly
    one event, [proposalVoted(numProposal, msg.sender)]: the id it carries
    is the highest proposal id, not the argument.  The vote itself is
    recorded on [proposalId]; when that is not the latest proposal, a
    replay of the log counts the vote for the latest proposal, whose
    storage the call did not touch, and not for [proposalId]. *)
Theorem voteProposal_event_names_latest (m : Msg) (id : N) (vote : Vote) (st st' : State) :
  voteProposal m id vote st = Done st' ->
  events st' = events st ++ [proposalVoted (numProposal st) (sender m)]
  /\ voted_by (proposal_at st' id) (sender m) = true
  /\ (id ≠ numProposal st ->
      votesInLog (events st') id = votesInLog (events st) id
      /\ votesInLog (events st') (numProposal st)
         = votesInLog (events st) (numProposal st) ++ [sender m]
      /\ proposal_at st' (numProposal st) = proposal_at st (numProposal st)).
Proof.
  intros H. unfold voteProposal in H. apply onlyMember_Done in H as (_ & _ & H).
  cbv zeta in H. unfold bind at 1 2, require in H.
  destruct (timestamp m <? deadline (proposal_at st id)); [|discriminate].
  destruct (negb (voted_by (proposal_at st id) (sender m))); [|discriminate].
  unfold bind at 1 in H.
  match type of H with match ?x with _ => _ end = _ => destruct x as [p1| |] end;
    try discriminate.
  injection H as <-.
  split; [reflexivity|]. split.
  - rewrite proposal_at_emit, proposal_at_set_eq. apply voted_by_set_voted.
  - intros Hne. cbn [emit events set_proposal numProposal].
    rewrite !votesInLog_app, !votesInLog_voted.
    rewrite N.eqb_refl.
    destruct (numProposal st =? id) eqn:E; [apply N.eqb_eq in E; congruence|].
    rewrite app_nil_r. repeat split.
    rewrite proposal_at_emit. by apply proposal_at_set_ne.
Qed.

(** A vote on proposal 1 of 2 is logged as a vote on proposal 2. *)
Lemma voteProposal_event_names_latest_witness :
  let m := mk_Msg Scenario.dave 0 3000 in
  let st' := Scenario.done init (voteProposal m 1 yay Scenario.st_two) in
  voteProposal m 1 yay Scenario.st_two = Done st'
  /\ votesInLog (events st') 1 = []
  /\ votesInLog (events st') 2 = [Scenario.dave]
  /\ yayVotes (proposal_at st' 1) = 1
  /\ yayVotes (proposal_at st' 2) = 0.
Proof.
  intros m st'.
  assert (H : voteProposal m 1 yay Scenario.st_two = Done st') by (vm_compute; reflexivity).
  split; [exact H|].
  destruct (voteProposal_event_names_latest m 1 yay Scenario.st_two st' H) as (_ & _ & Hne).
  destruct Hne as (H1 & H2 & H3); [vm_compute; discriminate|].
  assert (Hn : numProposal Scenario.st_two = 2) by (vm_compute; reflexivity).
  rewrite Hn in H2, H3.
  split; [rewrite H1; vm_compute; reflexivity|].
  split; [rewrite H2; vm_compute; reflexivity|].
  split; [vm_compute; reflexivity|].
  rewrite H3. vm_compute. reflexivity.
Defined.

End DaoProps.

(** ** Strings *)

Module JsProps.

Import Js.
Local Open Scope Z_scope.

Lemma has_char_app c s1 s2 :
  has_char c (s1 +:+ s2) = has_char c s1 || has_char c s2.
Proof.
  induction s1 as [|d s1 IH]; simpl; [reflexivity|].
  rewrite IH. apply orb_assoc.
Qed.

Lemma prefix_has_char c n h :
  String.prefix n h = true -> has_char c n = true -> has_char c h = true.
Proof.
  revert h. induction n as [|d n IH]; intros h Hp Hc; [discriminate|].
  destruct h as [|e h]; [discriminate|]. simpl in Hp, Hc.
  destruct (ascii_dec d e) as [->|]; [|discriminate].
  simpl. apply orb_true_iff in Hc as [Hc|Hc]; rewrite ?Hc; [reflexivity|].
  rewrite (IH h Hp Hc). apply orb_true_r.
Qed.

(** A string that includes [n] contains every character of [n]. *)
Lemma includes_has_char c n h :
  includes n h = true -> has_char c n = true -> has_char c h = true.
Proof.
  induction h as [|e h IH]; simpl; intros Hi Hc.
  - rewrite orb_false_r in Hi. destruct n; discriminate.
  - apply orb_true_iff in Hi as [Hp|Hi].
    + apply (prefix_has_char c n (String e h) Hp Hc).
    + rewrite (IH Hi Hc). apply orb_true_r.
Qed.

Lemma uint_chars c d :
  has_char c (NilEmpty.string_of_uint d) = true -> is_digit_or_sign c = true.
Proof.
  induction d; simpl; try discriminate;
    intros H; apply orb_true_iff in H as [H|H]; auto;
    apply Ascii.eqb_eq in H; subst; reflexivity.
Qed.

Lemma nz_uint_chars c d :
  has_char c (NilZero.string_of_uint d) = true -> is_digit_or_sign c = true.
Proof.
  destruct d; intros H; try exact (uint_chars c _ H).
  simpl in H. rewrite orb_false_r in H. apply Ascii.eqb_eq in H; subst; reflexivity.
Qed.

(** A printed integer consists of digits and at most a sign. *)
Lemma toString_chars c z :
  has_char c (toString z) = true -> is_digit_or_sign c = true.
Proof.
  unfold toString, NilZero.string_of_int.
  destruct (Z.to_int z) as [d|d]; [apply nz_uint_chars|].
  simpl. intros H. apply orb_true_iff in H as [H|H].
  - apply Ascii.eqb_eq in H; subst; reflexivity.
  - exact (nz_uint_chars c d H).
Qed.

Lemma toString_no_letter c z :
  is_digit_or_sign c = false -> has_char c (toString z) = false.
Proof.
  intros H. destruct (has_char c (toString z)) eqn:E; [|reflexivity].
  apply toString_chars in E. congruence.
Qed.

End JsProps.

(** ** The client *)

Module ClientProps.

Import Js Client JsProps.
Local Open Scope list_scope.
Local Open Scope Z_scope.

Ltac unfold_m :=
  unfold bind, try_catch, finally, await, get, modify, ret, throw, lift, effect,
    when, estimate, send, now_s, now_ms, db_call.

(** Simplification that leaves loops, traces and strings folded. *)
Ltac mcbn :=
  cbn -[membershipLoop membershipLoopWith verifyLoop toLowerCase polls
        Z.mul Z.add Z.div toString String.append rangeMessage].

(** *** The range error message *)

(** The message has no letter [e], hence cannot contain "could not coalesce". *)
Lemma rangeMessage_not_coalesce onChain pid maxId :
  has_char "e" onChain = false ->
  includes "could not coalesce" (rangeMessage onChain pid maxId) = false.
Proof.
  intros Ho.
  destruct (includes _ _) eqn:E; [|reflexivity].
  apply (includes_has_char "e") in E; [|reflexivity].
  unfold rangeMessage in E. rewrite !has_char_app in E.
  rewrite !toString_no_letter in E by reflexivity. rewrite Ho in E.
  discriminate E.
Qed.

Lemma rangeMessage_truthy onChain pid maxId :
  truthy (rangeMessage onChain pid maxId) = true.
Proof. reflexivity. Qed.

(** *** The mirror tables *)

Lemma rows_with_absent pid t :
  existsb (fun r => proposal_id r =? pid) t = false -> rows_with pid t = [].
Proof.
  unfold rows_with. induction t as [|r t IH]; simpl; [reflexivity|].
  intros H. apply orb_false_iff in H as [Hr Ht]. apply Z.eqb_neq in Hr.
  rewrite filter_cons. destruct (decide (proposal_id r = pid)); [contradiction|]. auto.
Qed.

Lemma existsb_id_In pid t :
  existsb (fun r => proposal_id r =? pid) t = true <-> In pid (map proposal_id t).
Proof.
  rewrite existsb_exists, in_map_iff. split.
  - intros (r & Hin & He). apply Z.eqb_eq in He. eauto.
  - intros (r & He & Hin). exists r. split; [assumption|]. by apply Z.eqb_eq.
Qed.

(** After an upsert exactly one row carries the upserted id: the new row. *)
Lemma upsert_rows_with row t :
  unique_ids t ->
  rows_with (proposal_id row) (upsert_proposal row t) = [row].
Proof.
  unfold upsert_proposal, unique_ids. intros Hu.
  destruct (existsb _ t) eqn:Hex.
  - induction t as [|r t IH]; [discriminate|].
    simpl in Hu. apply NoDup_cons in Hu as [Hnotin Hu].
    simpl in Hex. simpl. unfold rows_with. rewrite filter_cons.
    destruct (proposal_id r =? proposal_id row) eqn:E.
    + apply Z.eqb_eq in E. rewrite decide_True by reflexivity. f_equal.
      assert (Hab : existsb (fun r0 => proposal_id r0 =? proposal_id row) t = false).
      { destruct (existsb _ t) eqn:E2; [|reflexivity].
        apply existsb_id_In in E2. rewrite <- E in E2.
        exfalso. apply Hnotin. by apply list_elem_of_In. }
      clear -Hab. induction t as [|r' t IH]; [reflexivity|].
      simpl in Hab. apply orb_false_iff in Hab as [H1 H2].
      simpl. rewrite H1. rewrite filter_cons.
      apply Z.eqb_neq in H1. rewrite decide_False by assumption. auto.
    + apply Z.eqb_neq in E. rewrite decide_False by assumption.
      simpl in Hex. apply IH; assumption.
  - unfold rows_with. rewrite filter_app. fold (rows_with (proposal_id row) t).
    rewrite rows_with_absent by assumption.
    simpl. rewrite filter_cons, decide_True by reflexivity. reflexivity.
Qed.

(** Rows with another id are left alone. *)
Lemma upsert_other row t pid :
  pid <> proposal_id row ->
  rows_with pid (upsert_proposal row t) = rows_with pid t.
Proof.
  intros Hne. unfold upsert_proposal, rows_with.
  destruct (existsb _ t).
  - induction t as [|r t IH]; [reflexivity|].
    simpl. rewrite !filter_cons.
    destruct (proposal_id r =? proposal_id row) eqn:E.
    + apply Z.eqb_eq in E.
      rewrite decide_False by congruence. rewrite decide_False by congruence. exact IH.
    + destruct (decide (proposal_id r = pid)); by rewrite IH.
  - rewrite filter_app. simpl. rewrite filter_cons, decide_False by congruence.
    simpl. apply app_nil_r.
Qed.

Lemma upsert_ids row t :
  map proposal_id (map (fun r => if proposal_id r =? proposal_id row then row else r) t)
  = map proposal_id t.
Proof.
  induction t as [|r t IH]; [reflexivity|].
  simpl. rewrite IH. f_equal.
  destruct (proposal_id r =? proposal_id row) eqn:E; [|reflexivity].
  apply Z.eqb_eq in E. congruence.
Qed.

(** An upsert keeps the ids unique. *)
Lemma upsert_unique row t : unique_ids t -> unique_ids (upsert_proposal row t).
Proof.
  unfold unique_ids, upsert_proposal. intros Hu.
  destruct (existsb _ t) eqn:Hex.
  - by rewrite upsert_ids.
  - rewrite map_app. simpl. apply NoDup_app. split; [assumption|]. split.
    + intros x Hx Hx'. apply list_elem_of_singleton in Hx'. subst x.
      apply list_elem_of_In, existsb_id_In in Hx. congruence.
    + apply NoDup_singleton.
Qed.

Lemma upsert_member_In row t : In row (upsert_member row t).
Proof.
  unfold upsert_member. destruct (existsb _ t) eqn:E.
  - apply existsb_exists in E as (r & Hin & Hr).
    apply in_map_iff. exists r. split; [|assumption]. by rewrite Hr.
  - apply in_or_app. right. by left.
Qed.

Lemma upsert_member_same row t r :
  In r (upsert_member row t) -> wallet_address r = wallet_address row -> r = row.
Proof.
  unfold upsert_member. intros Hin Ha. destruct (existsb _ t) eqn:E.
  - apply in_map_iff in Hin as (r0 & Hr & Hin).
    destruct (String.eqb (wallet_address r0) (wallet_address row)) eqn:E0; [congruence|].
    subst r0. apply String.eqb_neq in E0. contradiction.
  - apply in_app_or in Hin as [Hin|[->|[]]]; [|reflexivity].
    exfalso.
    assert (existsb (fun r0 => String.eqb (wallet_address r0) (wallet_address row)) t = true).
    { apply existsb_exists. exists r. split; [assumption|]. by apply String.eqb_eq. }
    congruence.
Qed.

(** *** Traces *)

Lemma ends_with_refl s : ends_with s s.
Proof. exists []. split; reflexivity. Qed.

Lemma ends_with_cons s e tr :
  is_error_toast e = false -> ends_with s tr -> ends_with s (e :: tr).
Proof.
  intros He (pre & -> & Hp). exists (e :: pre). split; [reflexivity|].
  cbn. by rewrite He, Hp.
Qed.

Lemma ends_with_app s t tr :
  existsb is_error_toast t = false -> ends_with s tr -> ends_with s (t ++ tr).
Proof.
  intros He (pre & -> & Hp). exists (t ++ pre). split; [by rewrite app_assoc|].
  by rewrite existsb_app, He, Hp.
Qed.

Ltac ends_with_tac :=
  first [ apply ends_with_refl
        | apply ends_with_cons; [reflexivity | ends_with_tac]
        | apply ends_with_app; [assumption | ends_with_tac] ].

Lemma forallb_quiet_app t1 t2 :
  forallb quiet (t1 ++ t2) = true <-> forallb quiet t1 = true /\ forallb quiet t2 = true.
Proof. rewrite forallb_app. apply andb_true_iff. Qed.

Lemma quiet_not_send t c o : forallb quiet t = true -> In (SendTx c o) t -> False.
Proof.
  intros H Hin. rewrite forallb_forall in H. specialize (H _ Hin). discriminate H.
Qed.

Lemma quiet_not_estimate t c v r :
  forallb quiet t = true -> In (EstimateGas c v r) t -> False.
Proof.
  intros H Hin. rewrite forallb_forall in H. specialize (H _ Hin). discriminate H.
Qed.

Lemma Quiet_run {A} (m : M A) w r w' t :
  Quiet m -> m w = (r, w', t) -> forallb quiet t = true.
Proof. intros H E. specialize (H w). by rewrite E in H. Qed.

Lemma Quiet_ret {A} (a : A) : Quiet (ret a).
Proof. intros w. reflexivity. Qed.

Lemma Quiet_throw {A} e : Quiet (@throw A e).
Proof. intros w. reflexivity. Qed.

Lemma Quiet_get : Quiet get.
Proof. intros w. reflexivity. Qed.

Lemma Quiet_modify f : Quiet (modify f).
Proof. intros w. reflexivity. Qed.

Lemma Quiet_lift {A} (r : Reply A) : Quiet (lift r).
Proof. intros w. reflexivity. Qed.

Lemma Quiet_effect e : quiet e = true -> Quiet (effect e).
Proof. intros H w. cbn. by rewrite H. Qed.

Lemma Quiet_await {A} e (ans : nat -> Reply A) : quiet e = true -> Quiet (await e ans).
Proof. intros H w. cbn. by rewrite H. Qed.

Lemma Quiet_bind {A B} (m : M A) (f : A -> M B) :
  Quiet m -> (forall a, Quiet (f a)) -> Quiet (bind m f).
Proof.
  intros Hm Hf w. specialize (Hm w). unfold bind, effects in *.
  destruct (m w) as [[[a|e] w1] t1]; cbn in *; [|exact Hm].
  specialize (Hf a w1). unfold effects in Hf.
  destruct (f a w1) as [[r w2] t2]; cbn in *.
  apply forallb_quiet_app; auto.
Qed.

Lemma Quiet_try_catch {A} (m : M A) (h : Error -> M A) :
  Quiet m -> (forall e, Quiet (h e)) -> Quiet (try_catch m h).
Proof.
  intros Hm Hh w. specialize (Hm w). unfold try_catch, effects in *.
  destruct (m w) as [[[a|e] w1] t1]; cbn in *; [exact Hm|].
  specialize (Hh e w1). unfold effects in Hh.
  destruct (h e w1) as [[r w2] t2]; cbn in *.
  apply forallb_quiet_app; auto.
Qed.

Lemma Quiet_finally {A} (m : M A) (f : M unit) :
  Quiet m -> Quiet f -> Quiet (finally m f).
Proof.
  intros Hm Hf w. specialize (Hm w). unfold finally, effects in *.
  destruct (m w) as [[r w1] t1]; cbn in *.
  specialize (Hf w1). unfold effects in Hf.
  destruct (f w1) as [[[[]|e] w2] t2]; cbn in *; apply forallb_quiet_app; auto.
Qed.

Create HintDb quiet.

(** Quietness follows the structure of the program. *)
Ltac quiet_step :=
  match goal with
  | |- Quiet (bind _ _) => apply Quiet_bind
  | |- Quiet (try_catch _ _) => apply Quiet_try_catch
  | |- Quiet (finally _ _) => apply Quiet_finally
  | |- Quiet (ret _) => apply Quiet_ret
  | |- Quiet (throw _) => apply Quiet_throw
  | |- Quiet get => apply Quiet_get
  | |- Quiet (modify _) => apply Quiet_modify
  | |- Quiet (lift _) => apply Quiet_lift
  | |- Quiet (await _ _) => apply Quiet_await; reflexivity
  | |- Quiet (effect _) => apply Quiet_effect; reflexivity
  | |- Quiet (match ?x with _ => _ end) => destruct x
  | |- Quiet (let _ := _ in _) => cbv zeta
  | |- forall _, _ => intro
  | |- Quiet _ => solve [auto with quiet]
  end.

Ltac quiet_tac := repeat quiet_step.

Section Gateway.

Variable env : Env.
Variable daoContractAddress : string.

(** *** Helpers never estimate gas nor send a transaction *)

Lemma Quiet_now_ms : Quiet (now_ms env).
Proof. intros w. reflexivity. Qed.

Lemma Quiet_now_s : Quiet (now_s env).
Proof. unfold now_s. pose proof Quiet_now_ms. quiet_tac. Qed.

Lemma Quiet_db_call {A} op (q : World -> A * World) : Quiet (db_call env op q).
Proof.
  intros w. unfold db_call, effects. destruct (db_error env (tick w)); [reflexivity|].
  destruct (q _). reflexivity.
Qed.

#[local] Hint Resolve Quiet_now_ms Quiet_now_s Quiet_db_call : quiet.

Lemma Quiet_checkEtherlinkNetwork : Quiet (checkEtherlinkNetwork env).
Proof. unfold checkEtherlinkNetwork. quiet_tac. Qed.

#[local] Hint Resolve Quiet_checkEtherlinkNetwork : quiet.

Lemma Quiet_initializeProvider : Quiet (initializeProvider env).
Proof. unfold initializeProvider. quiet_tac. Qed.

#[local] Hint Resolve Quiet_initializeProvider : quiet.

Lemma Quiet_connectWithMetamask : Quiet (connectWithMetamask env).
Proof. unfold connectWithMetamask. quiet_tac. Qed.

Lemma Quiet_getContract : Quiet getContract.
Proof. unfold getContract. quiet_tac. Qed.

Lemma Quiet_getReadOnlyContract : Quiet getReadOnlyContract.
Proof. unfold getReadOnlyContract. quiet_tac. Qed.

#[local] Hint Resolve Quiet_connectWithMetamask Quiet_getContract
  Quiet_getReadOnlyContract : quiet.

Lemma Quiet_getCurrentAddress : Quiet (getCurrentAddress env).
Proof. unfold getCurrentAddress. quiet_tac. Qed.

Lemma Quiet_isDaoMember a : Quiet (isDaoMember env a).
Proof. unfold isDaoMember. quiet_tac. Qed.

Lemma Quiet_feeGasPrice d : Quiet (feeGasPrice env d).
Proof. unfold feeGasPrice. quiet_tac. Qed.

Lemma Quiet_requireEtherlink : Quiet (requireEtherlink env).
Proof. unfold requireEtherlink. quiet_tac. Qed.

Lemma Quiet_storeProposalInSupabase a b c d e f g h :
  Quiet (storeProposalInSupabase env a b c d e f g h).
Proof. unfold storeProposalInSupabase. quiet_tac. Qed.

Lemma Quiet_checkProposalId s p : Quiet (checkProposalId env s p).
Proof. unfold checkProposalId. quiet_tac. Qed.

Lemma Quiet_rethrow_failed {A} s g e : Quiet (@rethrow_failed A s g e).
Proof. unfold rethrow_failed. quiet_tac. Qed.

#[local] Hint Resolve Quiet_getCurrentAddress Quiet_isDaoMember Quiet_feeGasPrice
  Quiet_requireEtherlink Quiet_storeProposalInSupabase Quiet_checkProposalId
  Quiet_rethrow_failed : quiet.

Lemma Quiet_checkUSDCBalance a : Quiet (checkUSDCBalance env a).
Proof. unfold checkUSDCBalance. quiet_tac. Qed.

#[local] Hint Resolve Quiet_checkUSDCBalance : quiet.

(** *** Every write action buffers its estimate *)

(** Case analysis on the innermost scrutinee; the run of a helper is
    replaced by its outcome and the fact that its trace is quiet. *)
Ltac split_run :=
  match goal with
  | |- context [match ?x with _ => _ end] =>
    lazymatch x with
    | context [match _ with _ => _ end] => fail
    | _ =>
      lazymatch type of x with
      | (Reply _ * World * list Effect)%type =>
        let r := fresh "r" in let w := fresh "w" in let t := fresh "t" in
        let E := fresh "Erun" in let Q := fresh "Q" in
        destruct x as [[r w] t] eqn:E;
        lazymatch type of E with
        | ?m ?w0 = _ =>
          assert (Q : forallb quiet t = true)
            by (apply (Quiet_run m w0 _ _ _ ltac:(quiet_tac) E));
          clear E
        end
      | _ => destruct x eqn:?
      end
    end
  end.

Ltac in_split H :=
  repeat match type of H with
         | In _ (_ ++ _) => apply in_app_or in H; destruct H as [H|H]
         | In _ (_ :: _) => destruct H as [H|H]; [try discriminate H|]
         | In _ [] => destruct H
         end.

Ltac solve_buffered :=
  let c := fresh "c" in let o := fresh "o" in let Hs := fresh "Hs" in
  let v := fresh "v" in let E := fresh "E" in let He := fresh "He" in
  intros c o Hs v E He;
  in_split Hs;
  try (exfalso; eapply quiet_not_send; [|exact Hs]; eassumption);
  try (injection Hs as <- <-;
       in_split He;
       try (exfalso; eapply quiet_not_estimate; [|exact He]; eassumption);
       try (injection He as; subst; cbn; congruence)).

Ltac buffered_tac :=
  unfold effects; unfold_m; cbn;
  repeat (split_run; cbn);
  solve_buffered.

Lemma joinDao_buffered amount w : buffered (effects (joinDao env amount w)).
Proof. unfold joinDao, present. buffered_tac. Qed.

Lemma createProposal_buffered a b c d w :
  buffered (effects (createProposal env a b c d w)).
Proof. unfold createProposal, present. buffered_tac. Qed.

Lemma voteProposal_buffered a b w : buffered (effects (voteProposal env a b w)).
Proof. unfold voteProposal, present. buffered_tac. Qed.

Lemma executeProposal_buffered a w : buffered (effects (executeProposal env a w)).
Proof. unfold executeProposal, present. buffered_tac. Qed.

Lemma mintUSDC_buffered a w : buffered (effects (mintUSDC env a w)).
Proof. unfold mintUSDC, estimateOr, present. buffered_tac. Qed.

Lemma approveUSDC_buffered a w :
  buffered (effects (approveUSDC env daoContractAddress a w)).
Proof. unfold approveUSDC, estimateOr, present. buffered_tac. Qed.

Lemma buyLot_buffered a w : buffered (effects (buyLot env daoContractAddress a w)).
Proof. unfold buyLot, approveUSDC, estimateOr, present. buffered_tac. Qed.

Lemma withdraw_buffered w : buffered (effects (withdraw env w)).
Proof. unfold withdraw, present. buffered_tac. Qed.

(** On a non-negative estimate the truncating bigint division is the floor. *)
Lemma withBuffer_floor E : 0 <= E -> withBuffer E = E + E / 5.
Proof. intros H. unfold withBuffer. rewrite Z.quot_div_nonneg by lia. reflexivity. Qed.

(** *** Every successful estimate is submitted *)

Ltac find_send :=
  repeat first [ left; reflexivity
               | apply in_or_app; left; solve [find_send]
               | apply in_or_app; right
               | right ].

Ltac solve_submitted :=
  let c := fresh "c" in let v := fresh "v" in let E := fresh "E" in
  let He := fresh "He" in
  intros c v E He;
  in_split He;
  try (exfalso; eapply quiet_not_estimate; [|exact He]; eassumption);
  try (injection He as <- <- <-;
       eexists; split; [solve [find_send]|reflexivity]).

Ltac submitted_tac :=
  unfold effects; unfold_m; cbn;
  repeat (split_run; cbn);
  solve_submitted.

Lemma joinDao_submitted amount w : submitted (effects (joinDao env amount w)).
Proof. unfold joinDao, present. submitted_tac. Qed.

Lemma createProposal_submitted a b c d w :
  submitted (effects (createProposal env a b c d w)).
Proof. unfold createProposal, present. submitted_tac. Qed.

Lemma voteProposal_submitted a b w : submitted (effects (voteProposal env a b w)).
Proof. unfold voteProposal, present. submitted_tac. Qed.

(** [executeProposal] reads the fee data without a fallback: when that read
    throws after the estimate, nothing is submitted. *)
Lemma executeProposal_submitted a w :
  (forall k, exists f, getFeeData env k = Ok f) ->
  submitted (effects (executeProposal env a w)).
Proof.
  intros Hfee. unfold executeProposal, present.
  unfold effects; unfold_m; cbn; repeat (split_run; cbn).
  all: try match goal with
           | H : getFeeData env ?k = Throw _ |- _ =>
             exfalso; destruct (Hfee k) as (f & Hf); rewrite Hf in H; discriminate H
           end.
  all: solve_submitted.
Qed.

Lemma mintUSDC_submitted a w : submitted (effects (mintUSDC env a w)).
Proof. unfold mintUSDC, estimateOr, present. submitted_tac. Qed.

Lemma approveUSDC_submitted a w :
  submitted (effects (approveUSDC env daoContractAddress a w)).
Proof. unfold approveUSDC, estimateOr, present. submitted_tac. Qed.

Lemma buyLot_submitted a w : submitted (effects (buyLot env daoContractAddress a w)).
Proof. unfold buyLot, approveUSDC, estimateOr, present. submitted_tac. Qed.

Lemma withdraw_submitted w : submitted (effects (withdraw env w)).
Proof. unfold withdraw, present. submitted_tac. Qed.

(** C9.  In every run of every write action (join, createProposal, vote,
    execute, mint, approve, buyLot, withdraw), a gas estimation that
    succeeds with estimate [E] is followed by a submission: the run holds a
    transaction for the estimated call whose gas limit is
    [E + floor(E / 5)], and every transaction it holds for that call
    carries that limit, a function of [E] alone.  [executeProposal] reads
    the fee data between the estimate and the submission with no fallback,
    so for it the fee data must be readable; the other actions need
    nothing. *)
Theorem gas_limit_buffered (act : WriteAction) (w : World)
        (c : Call) (v : option Z) (E : Z) :
  In (EstimateGas c v (Ok E)) (traceOf env daoContractAddress act w) ->
  0 <= E ->
  (forall pid, act = AExecute pid -> forall k, exists f, getFeeData env k = Ok f) ->
  (exists o, In (SendTx c o) (traceOf env daoContractAddress act w)
             /\ gasLimit o = E + E / 5)
  /\ (forall o, In (SendTx c o) (traceOf env daoContractAddress act w) ->
       gasLimit o = E + E / 5).
Proof.
  intros He HE Hfee. rewrite <- withBuffer_floor by assumption. split.
  - assert (H : submitted (traceOf env daoContractAddress act w)).
    { destruct act; cbn [traceOf];
        auto using joinDao_submitted, createProposal_submitted, voteProposal_submitted,
          mintUSDC_submitted, approveUSDC_submitted, buyLot_submitted, withdraw_submitted.
      apply executeProposal_submitted. exact (Hfee _ eq_refl). }
    exact (H c v E He).
  - assert (H : buffered (traceOf env daoContractAddress act w)).
    { destruct act; cbn [traceOf];
        auto using joinDao_buffered, createProposal_buffered, voteProposal_buffered,
          executeProposal_buffered, mintUSDC_buffered, approveUSDC_buffered,
          buyLot_buffered, withdraw_buffered. }
    intros o Hs. exact (H c o Hs v E He).
Qed.

(** *** Running the helpers *)

Lemma tick_ensure_provider w : tick (ensure_provider w) = tick w.
Proof. unfold ensure_provider. by destruct (provider w). Qed.

(** [isDaoMember] never throws: it performs one read and answers what the
    reply says, false when the read throws or cannot be decoded. *)
Lemma isDaoMember_run a w :
  isDaoMember env a w =
    (Ok (saysMember (addressToUser env (tick w) a)),
     set_tick (S (tick w)) (ensure_provider w), [ReadAddressToUser a]).
Proof.
  unfold isDaoMember, getReadOnlyContract. unfold_m. cbn.
  rewrite tick_ensure_provider. unfold saysMember.
  destruct (addressToUser env (tick w) a) as [r|e]; cbn.
  - destruct (memberFlag r); cbn; [reflexivity|].
    by destruct (_ || _)%bool.
  - by destruct (_ || _)%bool.
Qed.

Lemma setDaoMembership_run a b w :
  setDaoMembership env a b w =
    match db_error env (tick w) with
    | Some _ => (Ok false, set_tick (S (tick w)) w,
                 [Db (DbUpsertMember (toLowerCase a) b)])
    | None => (Ok true,
               set_dao_members (upsert_member (memberRow env a b w) (dao_members w))
                 (set_tick (S (tick w)) w),
               [Db (DbUpsertMember (toLowerCase a) b)])
    end.
Proof.
  unfold setDaoMembership. unfold_m. cbn.
  destruct (db_error env (tick w)); reflexivity.
Qed.

Lemma getDaoMembership_run a w :
  exists b, getDaoMembership env a w =
    (Ok b, set_tick (S (tick w)) w, [Db (DbSelectMember (toLowerCase a))]).
Proof.
  unfold getDaoMembership. unfold_m. cbn.
  destruct (db_error env (tick w)); cbn; [eauto|].
  destruct (select_member _ _) as [e|[r|]]; cbn; eauto.
  destruct (String.eqb _ _); eauto.
Qed.

(** Without a record for the address the cache read answers false. *)
Lemma getDaoMembership_absent a w :
  members_with (toLowerCase a) (dao_members w) = [] ->
  result (getDaoMembership env a w) = Ok false.
Proof.
  intros Habs. unfold getDaoMembership, result. unfold_m. cbn.
  destruct (db_error env (tick w)); cbn; [reflexivity|].
  unfold select_member. rewrite Habs. reflexivity.
Qed.

Lemma checkEtherlinkNetwork_run w :
  hasEthereum env = true ->
  exists b, checkEtherlinkNetwork env w = (Ok b, set_tick (S (tick w)) w, [EthChainId]).
Proof.
  intros He. unfold checkEtherlinkNetwork. rewrite He. unfold_m. cbn.
  destruct (eth_chainId env (tick w)); cbn; eauto.
Qed.

Lemma connectWithMetamask_run a w :
  WalletConnects env a ->
  connectWithMetamask env w =
    (Ok (Some a),
     set_signer (Some a)
       (set_tick (S (S (S (tick w)))) (set_provider (Some BrowserProvider) w)),
     [EthChainId; EthRequestAccounts; GetSigner]).
Proof.
  intros [He Hr Hs Ha Ht]. unfold connectWithMetamask. rewrite He. unfold_m. cbn.
  match goal with |- context [checkEtherlinkNetwork env ?w0] =>
    destruct (checkEtherlinkNetwork_run w0 He) as (b & ->) end.
  cbn. rewrite Hr, Hs. reflexivity.
Qed.

Lemma getCurrentAddress_signer a s w :
  WalletConnects env a -> signer w = Some s ->
  getCurrentAddress env w = (Ok (Some a), set_tick (S (tick w)) w, [SignerGetAddress]).
Proof.
  intros [He Hr Hs Ha Ht] Hsig.
  unfold getCurrentAddress. rewrite He. unfold_m. mcbn. rewrite Hsig. mcbn.
  rewrite Ha. reflexivity.
Qed.

Lemma getCurrentAddress_run a rest w :
  WalletConnects env a ->
  (forall n, eth_accounts env n = Ok (a :: rest)) ->
  exists w' tr,
    getCurrentAddress env w = (Ok (Some a), w', tr)
    /\ existsb is_error_toast tr = false.
Proof.
  intros [He Hr Hs Ha Ht] Hacc.
  unfold getCurrentAddress, initializeProvider. rewrite He. unfold_m. mcbn.
  destruct (signer w); mcbn.
  - rewrite Ha. mcbn. eauto.
  - rewrite Hacc. mcbn. destruct (provider w); mcbn; [eauto|].
    rewrite Hacc. mcbn.
    match goal with |- context [checkEtherlinkNetwork env ?w0] =>
      destruct (checkEtherlinkNetwork_run w0 He) as (b & ->) end.
    mcbn. eauto.
Qed.

(** *** Join *)

(** C8.  When the wallet connects as [a] and the contract says [a] is a
    member, [joinDao] throws "You are already a member of the DAO" right
    after the membership read: its trace holds no gas estimation and no
    transaction. *)
Theorem joinDao_already_member (a amount : string) (v : Z) (w : World) :
  WalletConnects env a ->
  parseEther env amount = Ok v ->
  (forall n, saysMember (addressToUser env n a) = true) ->
  result (joinDao env amount w)
    = Throw (new_Error "You are already a member of the DAO")
  /\ effects (joinDao env amount w)
     = [EthChainId; EthRequestAccounts; GetSigner; SignerGetAddress; ReadAddressToUser a]
  /\ existsb is_estimate (effects (joinDao env amount w)) = false
  /\ existsb is_send (effects (joinDao env amount w)) = false.
Proof.
  intros Hw Hp Hm. pose proof Hw as [He Hr Hs Ha Ht].
  assert (Hrun : exists w', joinDao env amount w =
    (Throw (new_Error "You are already a member of the DAO"), w',
     [EthChainId; EthRequestAccounts; GetSigner; SignerGetAddress; ReadAddressToUser a])).
  { unfold joinDao. unfold bind at 1. rewrite (connectWithMetamask_run a w Hw).
    unfold getContract. unfold_m. mcbn. rewrite Hp. mcbn.
    erewrite getCurrentAddress_signer by (try exact Hw; reflexivity).
    mcbn. unfold present. rewrite Ht. mcbn.
    rewrite isDaoMember_run. mcbn. rewrite Hm. mcbn. eauto. }
  destruct Hrun as (w' & ->). repeat split.
Qed.

(** The shape of every run of the verification loop: at most [retries]
    polls, each two seconds after the previous step, and nothing else
    unless a poll verifies the membership. *)
Lemma verifyLoop_shape (a : string) (retries : nat) (w : World) :
  exists k, (k <= retries)%nat /\
    ((result (verifyLoop env retries a w) = Ok false
      /\ effects (verifyLoop env retries a w) = polls a retries)
     \/ (result (verifyLoop env retries a w) = Ok true
         /\ effects (verifyLoop env retries a w)
            = polls a k ++ [Db (DbUpsertMember (toLowerCase a) true);
                            Toast toast_success "Successfully joined the DAO!"])).
Proof.
  revert w. induction retries as [|r IH]; intros w.
  - exists 0%nat. split; [lia|]. left. split; reflexivity.
  - cbn [verifyLoop]. unfold sleep. unfold_m. mcbn.
    rewrite isDaoMember_run. mcbn.
    destruct (saysMember _); mcbn.
    + unfold setJustJoined, setIsMember, modify_page, toast. unfold_m. mcbn.
      rewrite setDaoMembership_run.
      exists 1%nat. split; [lia|]. right.
      destruct (db_error env _); mcbn; (split; reflexivity).
    + match goal with |- context [verifyLoop env r a ?w0] =>
        destruct (IH w0) as (k & Hk & H) end.
      unfold result, effects in *.
      destruct (verifyLoop env r a _) as [[res w1] t1]. cbn in *.
      destruct H as [[-> ->]|(-> & ->)].
      * exists (S r). split; [lia|]. left. split; reflexivity.
      * exists (S k). split; [lia|]. right. split; reflexivity.
Qed.

Lemma verifyLoop_unverified (a : string) :
  (forall n, saysMember (addressToUser env n a) = false) ->
  forall retries w, exists w',
    verifyLoop env retries a w = (Ok false, w', polls a retries).
Proof.
  intros Hno. induction retries as [|r IH]; intros w.
  - exists w. reflexivity.
  - cbn [verifyLoop]. unfold sleep. unfold_m. mcbn.
    rewrite isDaoMember_run. mcbn. rewrite Hno. mcbn.
    match goal with |- context [verifyLoop env r a ?w0] =>
      destruct (IH w0) as (w1 & ->) end.
    mcbn. eauto.
Qed.

(** C6.  The verification loop of [handleJoinDao] polls the membership at
    most 10 times, two seconds before each poll.  When the join transaction
    is confirmed and no poll reports membership, [handleJoinDao] ends
    normally: after the confirmation it makes exactly 10 polls, upserts the
    membership record with [is_member = true], and raises the success toast
    that says the verification is pending; no error toast is raised. *)
Theorem join_verification_bounded_optimistic
        (a : string) (rest : list string) (v E : Z) (tx : Tx)
        (receipt : Receipt) (w : World) :
  WalletConnects env a ->
  (forall n, eth_accounts env n = Ok (a :: rest)) ->
  (forall n, saysMember (addressToUser env n a) = false) ->
  parseEther env "0.1" = Ok v ->
  (forall n, estimateGas env n CJoin (Some v) = Ok E) ->
  (forall n o, sendTransaction env n CJoin o = Ok tx) ->
  (forall n, wait env n (tx_hash tx) = Ok receipt) ->
  (forall n, db_error env n = None) ->
  (forall w0, exists k, (k <= 10)%nat /\
     (effects (verifyLoop env 10 a w0) = polls a 10
      \/ effects (verifyLoop env 10 a w0)
         = polls a k ++ [Db (DbUpsertMember (toLowerCase a) true);
                         Toast toast_success "Successfully joined the DAO!"]))
  /\ result (handleJoinDao env w) = Ok tt
  /\ ends_with (unverifiedSuffix a (tx_hash tx)) (effects (handleJoinDao env w))
  /\ existsb is_error_toast (effects (handleJoinDao env w)) = false
  /\ (exists stamp, In (mk_MemberRow (toLowerCase a) true stamp)
                       (dao_members (final (handleJoinDao env w))))
  /\ (forall r, In r (dao_members (final (handleJoinDao env w))) ->
                wallet_address r = toLowerCase a -> is_member r = true)
  /\ isMember (page (final (handleJoinDao env w))) = true.
Proof.
  intros Hw Hacc Hno Hp Hest Hsend Hwait Hdb.
  split.
  { intros w0. destruct (verifyLoop_shape a 10 w0) as (k & Hk & [[_ H]|[_ H]]); eauto. }
  pose proof Hw as [He Hr Hs Ha Ht].
  unfold handleJoinDao, in_try, finally, joinDao, setJoiningDao, modify_page,
    setJustJoined, setIsMember, toast, result, final, effects.
  unfold_m. mcbn.
  match goal with |- context [getCurrentAddress env ?w0] =>
    destruct (getCurrentAddress_run a rest w0 Hw Hacc) as (w1 & t1 & -> & Ht1) end.
  mcbn. unfold present at 1. rewrite Ht. mcbn.
  rewrite isDaoMember_run. mcbn. rewrite Hno. mcbn.
  rewrite (connectWithMetamask_run a _ Hw). mcbn.
  unfold getContract. unfold_m. mcbn. rewrite Hp. mcbn.
  erewrite getCurrentAddress_signer by (try exact Hw; reflexivity).
  mcbn. unfold present at 1. rewrite Ht. mcbn.
  rewrite isDaoMember_run. mcbn. rewrite Hno. mcbn.
  rewrite Hest. mcbn.
  destruct (getFeeData env _) as [fee|efee]; mcbn; rewrite Hsend; mcbn; rewrite Hwait; mcbn.
  all: unfold present; rewrite ?Ht; mcbn.
  all: match goal with |- context [verifyLoop _ _ _ ?w0] =>
    destruct (verifyLoop_unverified _ Hno 10%nat w0) as (w2 & ->) end.
  all: mcbn; rewrite setDaoMembership_run, Hdb; mcbn.
  all: split; [reflexivity|]; split;
    [unfold unverifiedSuffix; mcbn; rewrite ?app_nil_r; ends_with_tac|].
  all: split; [rewrite !existsb_app, Ht1; reflexivity|].
  all: split; [eexists; apply upsert_member_In|]; split; [|reflexivity].
  all: intros r Hin Hr'; apply upsert_member_same in Hin; [|exact Hr']; by subst r.
Qed.

(** *** Membership *)

Lemma membershipLoop_read_throws (a : string) (cached : bool) (w : World) :
  (forall n, exists e, addressToUser env n a = Throw e) ->
  exists w',
    membershipLoop env 3 a cached w =
      (Ok tt, w', [ReadAddressToUser a; Db (DbUpsertMember (toLowerCase a) false)])
    /\ isMember (page w') = false.
Proof.
  intros Hthrow. unfold membershipLoop. cbn [membershipLoopWith].
  unfold setIsMember, modify_page. unfold_m.
  rewrite isDaoMember_run.
  destruct (Hthrow (tick w)) as (e & ->). mcbn.
  rewrite setDaoMembership_run. mcbn.
  destruct (db_error env (S (tick w))); mcbn; eexists; split; reflexivity.
Qed.

(** The retry path of the loop: when the membership check itself throws on
    each of the three attempts and the cache held no membership, the loop
    waits a second between attempts and then sets [isMember] to false. *)
Lemma membershipLoopWith_check_throws (check : string -> M bool) (a : string) (w : World) :
  (forall w1, exists e w2 t, check a w1 = (Throw e, w2, t) /\ page w2 = page w1) ->
  justJoined (page w) = false ->
  result (membershipLoopWith env check 3 a false w) = Ok tt
  /\ isMember (page (final (membershipLoopWith env check 3 a false w))) = false
  /\ existsb (fun e => match e with Sleep 1000 => true | _ => false end)
             (effects (membershipLoopWith env check 3 a false w)) = true.
Proof.
  intros Hcheck Hj. cbn [membershipLoopWith].
  unfold setIsMember, modify_page, sleep, result, final, effects. unfold_m.
  destruct (Hcheck w) as (e1 & w1 & t1 & -> & Hp1). mcbn.
  match goal with |- context [check a ?w0] =>
    destruct (Hcheck w0) as (e2 & w2 & t2 & -> & Hp2) end.
  mcbn.
  match goal with |- context [check a ?w0] =>
    destruct (Hcheck w0) as (e3 & w3 & t3 & -> & Hp3) end.
  mcbn. cbn in Hp2, Hp3.
  rewrite Hp3, Hp2, Hp1, Hj. mcbn.
  rewrite setDaoMembership_run. mcbn.
  destruct (db_error env (tick w3)); mcbn; (split; [reflexivity|]); (split; [reflexivity|]).
  all: rewrite !existsb_app; mcbn; rewrite !orb_true_r; reflexivity.
Qed.

(** The page flow ends with [isMember = false] when the read throws,
    whatever the cache holds and whether or not the store answers. *)
Lemma checkWallet_read_throws (a : string) (rest : list string) (w : World) :
  hasEthereum env = true ->
  (forall n, eth_accounts env n = Ok (a :: rest)) ->
  (forall n, eth_chainId env n = Ok 127823) ->
  truthy a = true ->
  justJoined (page w) = false ->
  (forall n, exists e, addressToUser env n a = Throw e) ->
  exists w',
    checkWalletAndMembership env w =
      (Ok tt, w',
       [EthAccounts; EthChainId; EthAccounts; EthChainId; EthAccounts;
        Db (DbSelectMember (toLowerCase a)); ReadAddressToUser a;
        Db (DbUpsertMember (toLowerCase a) false)])
    /\ isMember (page w') = false.
Proof.
  intros He Hacc Hchain Ht Hj Hthrow.
  unfold checkWalletAndMembership, checkEtherlinkNetwork, initializeProvider,
    getCurrentAddress, checkEtherlinkNetwork, setLoading, setIsConnected,
    setWalletAddress, setIsMember, modify_page.
  rewrite He. unfold_m. mcbn. rewrite !Hacc, !Hchain. mcbn.
  rewrite !Hacc, !Hchain. mcbn. rewrite !Hacc. mcbn. unfold present. rewrite Ht. mcbn.
  rewrite Hj. mcbn.
  match goal with |- context [getDaoMembership env a ?w0] =>
    destruct (getDaoMembership_run a w0) as (b & ->) end.
  mcbn.
  destruct b; mcbn.
  all: match goal with |- context [membershipLoop _ _ _ ?c ?w0] =>
    destruct (membershipLoop_read_throws a c w0 Hthrow) as (w1 & -> & Hm) end; mcbn;
  eexists; split; try reflexivity; mcbn; exact Hm.
Qed.

(** C4.  If the contract's membership read throws whenever it is tried and
    the mirror holds no record for the address, the membership check
    [isDaoMember] answers false, and the page's membership flow (for a
    connected wallet on the expected chain) ends with [isMember = false].
    The retry loop of that flow is fail-closed on its own account: were the
    check to throw on all three attempts, with no cached membership, it
    would still end with [isMember = false]. *)
Theorem membership_fail_closed (a : string) (rest : list string) (w : World) :
  (forall n, exists e, addressToUser env n a = Throw e) ->
  members_with (toLowerCase a) (dao_members w) = [] ->
  hasEthereum env = true ->
  (forall n, eth_accounts env n = Ok (a :: rest)) ->
  (forall n, eth_chainId env n = Ok 127823) ->
  truthy a = true ->
  justJoined (page w) = false ->
  result (isDaoMember env a w) = Ok false
  /\ result (getDaoMembership env a w) = Ok false
  /\ result (checkWalletAndMembership env w) = Ok tt
  /\ isMember (page (final (checkWalletAndMembership env w))) = false
  /\ (forall check,
        (forall w1, exists e w2 t, check a w1 = (Throw e, w2, t) /\ page w2 = page w1) ->
        isMember (page (final (membershipLoopWith env check 3 a false w))) = false).
Proof.
  intros Hthrow Habs He Hacc Hchain Ht Hj. split; [|split; [|split; [|split]]].
  - rewrite isDaoMember_run. unfold result; cbn.
    destruct (Hthrow (tick w)) as (e & ->). reflexivity.
  - apply getDaoMembership_absent. exact Habs.
  - destruct (checkWallet_read_throws a rest w He Hacc Hchain Ht Hj Hthrow)
      as (w' & -> & Hm). reflexivity.
  - destruct (checkWallet_read_throws a rest w He Hacc Hchain Ht Hj Hthrow)
      as (w' & -> & Hm). exact Hm.
  - intros check Hcheck.
    apply (membershipLoopWith_check_throws check a w Hcheck Hj).
Qed.

(** *** Vote *)

Lemma voteProposal_out_of_range (a : string) (n pid vote : Z) (w : World) :
  WalletConnects env a ->
  (forall k, numProposal env k = Ok n) ->
  pid < 1 \/ n < pid ->
  exists w',
    voteProposal env pid vote w =
      (Throw (new_Error (rangeMessage "On‑chain" pid n)), w',
       [EthChainId; EthRequestAccounts; GetSigner; SignerGetAddress; ReadNumProposal]).
Proof.
  intros Hw Hn Hrange. pose proof Hw as [He Hr Hs Ha Ht].
  assert (Hb : ((pid <? 1) || (n <? pid))%bool = true).
  { apply orb_true_iff. destruct Hrange; [left|right]; apply Z.ltb_lt; assumption. }
  pose proof (rangeMessage_not_coalesce "On‑chain" pid n eq_refl) as Hc.
  unfold voteProposal. unfold bind at 1. rewrite (connectWithMetamask_run a w Hw).
  unfold getContract, getReadOnlyContract, checkProposalId. unfold_m. mcbn.
  erewrite getCurrentAddress_signer by (try exact Hw; reflexivity).
  mcbn. unfold present. rewrite Ht. mcbn. rewrite Hn. mcbn. rewrite Hb. mcbn.
  unfold or_else at 1. cbn [reason new_Error truthy]. unfold or_else at 1.
  cbn [message new_Error]. rewrite rangeMessage_truthy, Hc. mcbn.
  eexists. reflexivity.
Qed.

(** C7.  With a connected wallet and a readable [numProposal() = n],
    [voteProposal(0, _)] and [voteProposal(n + 1, _)] both throw the range
    error "Invalid proposalId .. numProposal is n." right after reading
    [numProposal]: no gas estimation and no transaction is issued. *)
Theorem vote_range_error_before_estimate (a : string) (n pid vote : Z) (w : World) :
  WalletConnects env a ->
  (forall k, numProposal env k = Ok n) ->
  pid = 0 \/ pid = n + 1 ->
  result (voteProposal env pid vote w)
    = Throw (new_Error (rangeMessage "On‑chain" pid n))
  /\ effects (voteProposal env pid vote w)
     = [EthChainId; EthRequestAccounts; GetSigner; SignerGetAddress; ReadNumProposal]
  /\ existsb is_estimate (effects (voteProposal env pid vote w)) = false
  /\ existsb is_send (effects (voteProposal env pid vote w)) = false.
Proof.
  intros Hw Hn Hpid.
  destruct (voteProposal_out_of_range a n pid vote w Hw Hn) as (w' & ->); [lia|].
  repeat split.
Qed.

(** *** Proposal mirror *)

Lemma storeProposalInSupabase_run pid l p m s u d h w :
  validDate (d * 1000) = true ->
  db_error env (tick w) = None ->
  storeProposalInSupabase env pid l p m s u d h w =
    (Ok true,
     set_dao_proposals
       (upsert_proposal (newProposalRow pid l p m s u d h (dateNow env (tick w)))
                        (dao_proposals w))
       (set_tick (S (tick w)) w),
     [Db (DbUpsertProposal pid)]).
Proof.
  intros Hd Hdb. unfold storeProposalInSupabase. rewrite Hd. unfold_m. mcbn.
  rewrite Hdb. reflexivity.
Qed.

(** Beyond the range of [Date] nothing is stored and no query is issued. *)
Lemma storeProposalInSupabase_invalid pid l p m s u d h w :
  validDate (d * 1000) = false ->
  storeProposalInSupabase env pid l p m s u d h w = (Ok false, w, []).
Proof.
  intros Hd. unfold storeProposalInSupabase. rewrite Hd. reflexivity.
Qed.

Lemma validDate_seconds d :
  - 8640000000000 <= d <= 8640000000000 -> validDate (d * 1000) = true.
Proof.
  intros H. unfold validDate. apply andb_true_iff. split; apply Z.leb_le; lia.
Qed.

(** C10.  Storing a proposal twice under the same [proposalId] (deadlines
    within the range of [Date], the table keeping its unique ids, the store
    answering) leaves exactly one row for that id, and every column of it
    is the second call's: terms, summary, creator in lower case, deadline,
    transaction hash, zero tallies, not executed, and the second call's
    time stamp.  Rows of other ids are untouched, and [.single()] then
    returns that row. *)
Theorem upsert_twice_one_record
        (pid l1 p1 m1 : Z) (s1 u1 : string) (d1 : Z) (h1 : string)
        (l2 p2 m2 : Z) (s2 u2 : string) (d2 : Z) (h2 : string) (w : World) :
  unique_ids (dao_proposals w) ->
  (forall n, db_error env n = None) ->
  - 8640000000000 <= d1 <= 8640000000000 ->
  - 8640000000000 <= d2 <= 8640000000000 ->
  let first := storeProposalInSupabase env pid l1 p1 m1 s1 u1 d1 h1 w in
  let second := storeProposalInSupabase env pid l2 p2 m2 s2 u2 d2 h2 (final first) in
  let stamp := dateNow env (S (tick w)) in
  let latest :=
    {| proposal_id := pid;
       lot_size := l2;
       share_price := p2;
       max_per_investor := m2;
       proposal_summary := s2;
       creator_address := toLowerCase u2;
       row_deadline := d2 * 1000;
       transaction_hash := h2;
       yay_votes := Some 0;
       nay_votes := Some 0;
       row_executed := Some false;
       created_at := stamp;
       updated_at := stamp |} in
  result first = Ok true
  /\ result second = Ok true
  /\ rows_with pid (dao_proposals (final second)) = [latest]
  /\ select_proposal pid (dao_proposals (final second)) = inr (Some latest)
  /\ unique_ids (dao_proposals (final second))
  /\ (forall other, other <> pid ->
       rows_with other (dao_proposals (final second)) = rows_with other (dao_proposals w)).
Proof.
  intros Hu Hdb Hd1 Hd2 first second stamp latest. subst first second stamp latest.
  apply validDate_seconds in Hd1, Hd2.
  unfold result, final.
  rewrite (storeProposalInSupabase_run pid l1 p1 m1 s1 u1 d1 h1 w Hd1 (Hdb _)).
  cbn [fst snd].
  rewrite storeProposalInSupabase_run by (try exact Hd2; apply Hdb).
  cbn [fst snd dao_proposals set_dao_proposals set_tick tick].
  set (row1 := newProposalRow pid l1 p1 m1 s1 u1 d1 h1 _).
  change (mk_ProposalRow pid l2 p2 m2 s2 (toLowerCase u2) (d2 * 1000) h2 (Some 0) (Some 0)
            (Some false) (dateNow env (S (tick w))) (dateNow env (S (tick w))))
    with (newProposalRow pid l2 p2 m2 s2 u2 d2 h2 (dateNow env (S (tick w)))).
  set (row2 := newProposalRow pid l2 p2 m2 s2 u2 d2 h2 _).
  assert (Hu1 : unique_ids (upsert_proposal row1 (dao_proposals w)))
    by (apply upsert_unique; exact Hu).
  assert (Hrows : rows_with pid (upsert_proposal row2 (upsert_proposal row1 (dao_proposals w)))
                  = [row2]) by (apply (upsert_rows_with row2); exact Hu1).
  repeat split; auto.
  - unfold select_proposal. by rewrite Hrows.
  - apply upsert_unique; exact Hu1.
  - intros other Hne.
    rewrite (upsert_other row2) by exact Hne. apply (upsert_other row1). exact Hne.
Qed.





(** *** Proposal reader *)

Lemma eventMatches_args pid ev :
  eventMatches pid ev = true ->
  exists p a, parsed ev = Ok (Some p) /\ args p = Some a /\ eventProposalId a = pid.
Proof.
  unfold eventMatches. destruct (parsed ev) as [[p|]|]; try discriminate.
  destruct (args p) as [a|] eqn:Ha; try discriminate.
  intros H. apply Z.eqb_eq in H. exists p, a. auto.
Qed.

(** What the reconstruction is written to compute, were [contract.provider]
    defined (as it was on an ethers v5 contract object). *)
Lemma getProposalFromEvents_found (pid ts : Z) (events : list Log) (ev : Log) (w : World) :
  contract_has_provider env = true ->
  queryFilter env (tick w) = Ok events ->
  List.find (eventMatches pid) events = Some ev ->
  getBlock env (S (tick w)) (log_blockNumber ev) = Ok (Some (mk_Block ts)) ->
  ts <> 0 ->
  exists p,
    getProposalFromEvents env pid w =
      (Ok (Some p), set_tick (S (S (tick w))) w, [QueryFilter; GetBlock (log_blockNumber ev)])
    /\ proposalId p = pid
    /\ yayVotes p = 0 /\ nayVotes p = 0 /\ executed p = false
    /\ deadline p = ts + 7 * 24 * 3600.
Proof.
  intros Hprov Hq Hfind Hblock Hts.
  destruct (find_some _ _ Hfind) as [_ Hm].
  destruct (eventMatches_args pid ev Hm) as (p & a & Hp & Ha & Hid).
  unfold getProposalFromEvents. rewrite Hprov. unfold_m. mcbn.
  rewrite Hq. mcbn. rewrite Hfind. mcbn. rewrite Hp. mcbn. rewrite Ha. mcbn.
  rewrite Hblock. mcbn.
  apply Z.eqb_neq in Hts. rewrite Hts.
  eexists. split; [reflexivity|]. mcbn. repeat split.
Qed.

(** Without [contract.provider] the reconstruction stops at its first
    guard, before any log query. *)
Lemma getProposalFromEvents_without_provider (pid : Z) (w : World) :
  contract_has_provider env = false ->
  getProposalFromEvents env pid w = (Ok None, w, []).
Proof. intros Hprov. unfold getProposalFromEvents. rewrite Hprov. reflexivity. Qed.

(** The same for [getProposal] when the struct read throws: one read, then
    null. *)
Lemma getProposal_without_provider (pid : Z) (w : World) :
  contract_has_provider env = false ->
  (exists e, idToProposal env (tick w) pid = Throw e) ->
  getProposal env pid w
  = (Ok None, set_tick (S (tick w)) (ensure_provider w), [ReadIdToProposal pid]).
Proof.
  intros Hprov (e & Hthrow).
  unfold getProposal, getReadOnlyContract. unfold_m. mcbn.
  rewrite tick_ensure_provider, Hthrow. mcbn.
  rewrite getProposalFromEvents_without_provider by exact Hprov. reflexivity.
Qed.

(** C5.  The reconstruction from the event log is never reached.  The
    contract object of ethers v6 has no [provider] property, so when the
    struct read throws, [getProposal] returns null after that one read,
    without querying the log: whatever [proposalCreated] events the log
    holds for the id, no proposal is rebuilt from them. *)
Theorem getProposal_events_unreachable (pid : Z) (w : World) :
  contract_has_provider env = false ->
  (forall n, exists e, idToProposal env n pid = Throw e) ->
  result (getProposal env pid w) = Ok None
  /\ effects (getProposal env pid w) = [ReadIdToProposal pid]
  /\ result (getProposalFromEvents env pid w) = Ok None
  /\ effects (getProposalFromEvents env pid w) = [].
Proof.
  intros Hprov Hthrow.
  rewrite getProposal_without_provider by (try exact Hprov; apply Hthrow).
  rewrite getProposalFromEvents_without_provider by exact Hprov.
  repeat split.
Qed.

End Gateway.

(** *** Status derivation on the four read paths *)

(** Where the struct read of [getProposal] departs from the specification:
    a proposal past its deadline gets the two outcomes swapped, and an
    executed proposal before its deadline stays [voting]. *)
Lemma structStatus_swapped now deadline executed :
  deadline <= now ->
  structStatus now deadline executed
  = if executed then closed else marketplace.
Proof.
  intros H. unfold structStatus. apply Z.leb_le in H. by rewrite H.
Qed.

Lemma structStatus_executed_early now deadline :
  now < deadline -> structStatus now deadline true = voting.
Proof.
  intros H. unfold structStatus. apply Z.leb_gt in H. by rewrite H.
Qed.



(** *** The scenarios meet the hypotheses *)

Lemma scenario_wallet member struct start :
  WalletConnects (Scenario.mkEnv member struct start) Scenario.alice.
Proof. constructor; intros; reflexivity. Defined.

Lemma membership_fail_closed_witness :
  (forall n, exists e, addressToUser Scenario.env_unreadable n Scenario.alice = Throw e)
  /\ members_with (toLowerCase Scenario.alice) (dao_members Scenario.world0) = []
  /\ result (isDaoMember Scenario.env_unreadable Scenario.alice Scenario.world0) = Ok false
  /\ result (checkWalletAndMembership Scenario.env_unreadable Scenario.world0) = Ok tt
  /\ isMember (page (final (checkWalletAndMembership Scenario.env_unreadable
                                                     Scenario.world0))) = false.
Proof.
  assert (H : forall n, exists e,
             addressToUser Scenario.env_unreadable n Scenario.alice = Throw e)
    by (intros n; eexists; reflexivity).
  split; [exact H|]. split; [reflexivity|].
  destruct (membership_fail_closed Scenario.env_unreadable Scenario.alice []
              Scenario.world0 H eq_refl eq_refl (fun _ => eq_refl) (fun _ => eq_refl)
              eq_refl eq_refl) as (H1 & _ & H2 & H3 & _).
  split; [exact H1|]. split; [exact H2|exact H3].
Defined.

(** The log holds the creation of proposal 1, the mirror is empty, the
    struct read cannot be decoded: null. *)
Lemma getProposal_events_unreachable_witness :
  List.find (eventMatches 1) [Scenario.createdLog 1 Scenario.alice 10;
                              Scenario.createdLog 2 Scenario.alice 11]
  = Some (Scenario.createdLog 1 Scenario.alice 10)
  /\ queryFilter Scenario.env_member 1
     = Ok [Scenario.createdLog 1 Scenario.alice 10; Scenario.createdLog 2 Scenario.alice 11]
  /\ dao_proposals Scenario.world0 = []
  /\ idToProposal Scenario.env_member 0 1 = Throw Scenario.decodeError
  /\ result (getProposal Scenario.env_member 1 Scenario.world0) = Ok None
  /\ effects (getProposal Scenario.env_member 1 Scenario.world0) = [ReadIdToProposal 1].
Proof.
  split; [reflexivity|]. split; [reflexivity|]. split; [reflexivity|].
  split; [reflexivity|].
  destruct (getProposal_events_unreachable Scenario.env_member 1 Scenario.world0 eq_refl
              (fun _ => ex_intro _ Scenario.decodeError eq_refl)) as (H1 & H2 & _).
  split; [exact H1|exact H2].
Defined.


Lemma join_verification_bounded_optimistic_witness :
  (forall n, saysMember (addressToUser Scenario.env_stranger n Scenario.alice) = false)
  /\ result (handleJoinDao Scenario.env_stranger Scenario.world0) = Ok tt
  /\ ends_with (unverifiedSuffix Scenario.alice "0x7e57")
               (effects (handleJoinDao Scenario.env_stranger Scenario.world0))
  /\ isMember (page (final (handleJoinDao Scenario.env_stranger Scenario.world0))) = true.
Proof.
  split; [intros n; reflexivity|].
  destruct (join_verification_bounded_optimistic Scenario.env_stranger Scenario.alice []
              (10 ^ 17) 21004 (mk_Tx "0x7e57") Scenario.receipt0 Scenario.world0)
    as (_ & Hres & Hends & _ & _ & _ & Hmember);
    first [apply scenario_wallet | reflexivity | intros; reflexivity | idtac].
  split; [exact Hres|]. split; [exact Hends|exact Hmember].
Defined.

Lemma vote_range_error_before_estimate_witness :
  (forall k, numProposal Scenario.env_member k = Ok 2)
  /\ result (voteProposal Scenario.env_member 0 0 Scenario.world0)
     = Throw (new_Error (rangeMessage "On‑chain" 0 2))
  /\ result (voteProposal Scenario.env_member 3 0 Scenario.world0)
     = Throw (new_Error (rangeMessage "On‑chain" 3 2))
  /\ existsb is_estimate (effects (voteProposal Scenario.env_member 3 0 Scenario.world0))
     = false.
Proof.
  split; [intros k; reflexivity|].
  destruct (vote_range_error_before_estimate Scenario.env_member Scenario.alice 2 0 0
              Scenario.world0 (scenario_wallet _ _ _) (fun _ => eq_refl) (or_introl eq_refl))
    as (H0 & _).
  destruct (vote_range_error_before_estimate Scenario.env_member Scenario.alice 2 3 0
              Scenario.world0 (scenario_wallet _ _ _) (fun _ => eq_refl) (or_intror eq_refl))
    as (H3 & _ & He & _).
  split; [exact H0|]. split; [exact H3|exact He].
Defined.

Lemma joinDao_already_member_witness :
  (forall n, saysMember (addressToUser Scenario.env_member n Scenario.alice) = true)
  /\ result (joinDao Scenario.env_member "0.1" Scenario.world0)
     = Throw (new_Error "You are already a member of the DAO")
  /\ existsb is_estimate (effects (joinDao Scenario.env_member "0.1" Scenario.world0)) = false
  /\ existsb is_send (effects (joinDao Scenario.env_member "0.1" Scenario.world0)) = false.
Proof.
  split; [intros n; reflexivity|].
  destruct (joinDao_already_member Scenario.env_member Scenario.alice "0.1" (10 ^ 17)
              Scenario.world0 (scenario_wallet _ _ _) eq_refl (fun _ => eq_refl))
    as (H1 & _ & H2 & H3).
  split; [exact H1|]. split; [exact H2|exact H3].
Defined.

Lemma gas_limit_buffered_witness :
  let join := traceOf Scenario.env_stranger Scenario.dao (AJoin "0.1") Scenario.world0 in
  let exec := traceOf Scenario.env_member Scenario.dao (AExecute 1) Scenario.world0 in
  In (EstimateGas CJoin (Some (10 ^ 17)) (Ok 21004)) join
  /\ In (EstimateGas (CExecuteProposal 1) None (Ok 21004)) exec
  /\ (forall k, exists f, getFeeData Scenario.env_member k = Ok f)
  /\ (exists o, In (SendTx CJoin o) join /\ gasLimit o = 25204)
  /\ (exists o, In (SendTx (CExecuteProposal 1) o) exec /\ gasLimit o = 25204).
Proof.
  intros join exec.
  assert (Hj : In (EstimateGas CJoin (Some (10 ^ 17)) (Ok 21004)) join)
    by (cbv; repeat (first [left; reflexivity | right])).
  assert (Hx : In (EstimateGas (CExecuteProposal 1) None (Ok 21004)) exec)
    by (cbv; repeat (first [left; reflexivity | right])).
  assert (Hfee : forall k, exists f, getFeeData Scenario.env_member k = Ok f)
    by (intros k; eexists; reflexivity).
  split; [exact Hj|]. split; [exact Hx|]. split; [exact Hfee|]. split.
  - exact (proj1 (gas_limit_buffered Scenario.env_stranger Scenario.dao (AJoin "0.1")
                    Scenario.world0 CJoin (Some (10 ^ 17)) 21004 Hj ltac:(discriminate)
                    ltac:(intros pid Hp; discriminate Hp))).
  - exact (proj1 (gas_limit_buffered Scenario.env_member Scenario.dao (AExecute 1)
                    Scenario.world0 (CExecuteProposal 1) None 21004 Hx ltac:(discriminate)
                    (fun _ _ => Hfee))).
Defined.

Lemma upsert_twice_one_record_witness :
  let first := storeProposalInSupabase Scenario.env_member 1 1000 10 5 "Test"
                 Scenario.alice 606800 "0x7e57" Scenario.world0 in
  let second := storeProposalInSupabase Scenario.env_member 1 900 9 4 "Test, revised"
                  "0xB0B" 700000 "0xbeef" (final first) in
  unique_ids (dao_proposals Scenario.world0)
  /\ length (dao_proposals (final second)) = 1%nat
  /\ rows_with 1 (dao_proposals (final second))
     = [mk_ProposalRow 1 900 9 4 "Test, revised" "0xb0b" 700000000 "0xbeef"
                       (Some 0) (Some 0) (Some false) 2001000 2001000].
Proof.
  intros first second.
  assert (Hu : unique_ids (dao_proposals Scenario.world0)) by apply NoDup_nil_2.
  split; [exact Hu|]. split; [reflexivity|].
  destruct (upsert_twice_one_record Scenario.env_member 1 1000 10 5 "Test" Scenario.alice
              606800 "0x7e57" 900 9 4 "Test, revised" "0xB0B" 700000 "0xbeef"
              Scenario.world0 Hu (fun _ => eq_refl) ltac:(lia) ltac:(lia))
    as (_ & _ & Hrows & _).
  exact Hrows.
Defined.

End ClientProps.

(** ** The contract over sequences of transactions *)

Module DaoExtra.
Import Dao DaoSteps ScenarioMore DaoProps.
Local Open Scope list_scope.
Local Open Scope N_scope.

Lemma bind_Done {A B} (x : Exec A) (f : A -> Exec B) b :
  bind x f = Done b -> exists a, x = Done a /\ f a = Done b.
Proof. destruct x; simpl; try discriminate. eauto. Qed.

Lemma require_Done c r u : require c r = Done u -> c = true.
Proof. unfold require. destruct c; [reflexivity|discriminate]. Qed.

Lemma incr_Done n n' : incr n = Done n' -> n' = n + 1.
Proof. unfold incr. destruct (n <? uint_max); [|discriminate]. by intros [= <-]. Qed.

(** What an accepted [join] does. *)
Lemma join_Done m st st' :
  join m st = Done st' ->
  value m = membership st
  /\ st' = set_users st (<[sender m := mk_user true]> (addressToUser st)).
Proof.
  unfold join. intros H. apply bind_Done in H as ([] & Hr & H).
  apply require_Done, N.eqb_eq in Hr. by injection H as <-.
Qed.

(** What an accepted [createProposal] does. *)
Lemma createProposal_Done m lot price maxPer summary st st' n :
  createProposal m lot price maxPer summary st = Done (st', n) ->
  isMember (user_at st (sender m)) = true
  /\ n = numProposal st + 1
  /\ numProposal st' = n
  /\ addressToUser st' = addressToUser st
  /\ membership st' = membership st /\ duration st' = duration st
  /\ events st' = events st ++ [proposalCreated n (sender m)]
  /\ (forall j, j ≠ n -> proposal_at st' j = proposal_at st j)
  /\ proposal_at st' n =
     mk_Proposal (yayVotes (proposal_at st n)) (nayVotes (proposal_at st n))
                 (timestamp m + duration st) (sender m) lot price maxPer summary
                 (executed (proposal_at st n)) (voted (proposal_at st n)).
Proof.
  unfold createProposal. intros H. apply onlyMember_Done in H as (_ & Hm & H).
  apply bind_Done in H as (k & Hk & H). apply incr_Done in Hk.
  cbv zeta in H. apply bind_Done in H as (dl & Hdl & H).
  cbn [duration set_numProposal] in Hdl.
  destruct (timestamp m + duration st <=? uint_max); [|discriminate].
  injection Hdl as <-. injection H as <- <-.
  split; [exact Hm|]. subst k.
  repeat split.
  - intros j Hj. rewrite proposal_at_emit, proposal_at_set_ne by exact Hj. reflexivity.
  - rewrite proposal_at_emit, proposal_at_set_eq. reflexivity.
Qed.

(** What an accepted [voteProposal] does. *)
Lemma voteProposal_Done m id vote st st' :
  voteProposal m id vote st = Done st' ->
  isMember (user_at st (sender m)) = true
  /\ timestamp m < deadline (proposal_at st id)
  /\ voted_by (proposal_at st id) (sender m) = false
  /\ numProposal st' = numProposal st
  /\ addressToUser st' = addressToUser st
  /\ membership st' = membership st /\ duration st' = duration st
  /\ (forall j, j ≠ id -> proposal_at st' j = proposal_at st j)
  /\ proposal_at st' id =
     set_voted (match vote with
                | yay => set_yayVotes (proposal_at st id) (yayVotes (proposal_at st id) + 1)
                | nay => set_nayVotes (proposal_at st id) (nayVotes (proposal_at st id) + 1)
                end) (sender m).
Proof.
  unfold voteProposal. intros H. apply onlyMember_Done in H as (_ & Hm & H).
  cbv zeta in H.
  apply bind_Done in H as ([] & Hd & H). apply require_Done, N.ltb_lt in Hd.
  apply bind_Done in H as ([] & Hv & H). apply require_Done, negb_true_iff in Hv.
  apply bind_Done in H as (p1 & Hp & H). injection H as <-.
  split; [exact Hm|]. split; [exact Hd|]. split; [exact Hv|].
  repeat split.
  - intros j Hj. rewrite proposal_at_emit, proposal_at_set_ne by exact Hj. reflexivity.
  - rewrite proposal_at_emit, proposal_at_set_eq. f_equal.
    destruct vote; apply bind_Done in Hp as (k & Hk & Hp); apply incr_Done in Hk;
      injection Hp as <-; by subst k.
Qed.

(** What an accepted [executeProposal] does. *)
Lemma executeProposal_Done m id st st' :
  executeProposal m id st = Done st' ->
  isMember (user_at st (sender m)) = true
  /\ executed (proposal_at st id) = false
  /\ st' = set_proposal st (numProposal st)
             (set_executed (proposal_at st (numProposal st)) true).
Proof.
  unfold executeProposal. intros H. apply onlyMember_Done in H as (_ & Hm & H).
  apply bind_Done in H as ([] & He & H). apply require_Done, negb_true_iff in He.
  by injection H as <-.
Qed.


Lemma step_Done_cases m c st st' :
  step m c st = Done st' ->
  match c with
  | CallJoin => join m st = Done st'
  | CallCreateProposal lot price maxPer summary =>
    exists n, createProposal m lot price maxPer summary st = Done (st', n)
  | CallVoteProposal id vote => voteProposal m id vote st = Done st'
  | CallExecuteProposal id => executeProposal m id st = Done st'
  end.
Proof.
  destruct c; simpl; auto.
  intros H. apply bind_Done in H as ([s n] & H1 & H2). injection H2 as <-. eauto.
Qed.

Lemma user_at_set_users st a b :
  isMember (user_at st a) = true ->
  isMember (user_at (set_users st (<[b := mk_user true]> (addressToUser st))) a) = true.
Proof.
  unfold user_at. cbn [addressToUser set_users]. intros H.
  destruct (decide (a = b)) as [->|Hne].
  - by rewrite lookup_insert_eq.
  - by rewrite lookup_insert_ne.
Qed.

Lemma tally_ok_zero : tally_ok zero_Proposal.
Proof.
  split; [|reflexivity]. intros a b H. cbn in H. by rewrite lookup_empty in H.
Qed.

Lemma tally_ok_vote p a vote :
  tally_ok p -> voted_by p a = false ->
  tally_ok (set_voted (match vote with
                       | yay => set_yayVotes p (yayVotes p + 1)
                       | nay => set_nayVotes p (nayVotes p + 1)
                       end) a).
Proof.
  intros [Hall Hsum] Hv.
  assert (Hnone : voted p !! a = None).
  { unfold voted_by in Hv. destruct (voted p !! a) as [b|] eqn:E; [|reflexivity].
    rewrite (Hall a b E) in Hv. discriminate. }
  split.
  - intros a' b. destruct vote; cbn [voted set_voted set_yayVotes set_nayVotes];
      (destruct (decide (a' = a)) as [->|Hne];
       [rewrite lookup_insert_eq; congruence|rewrite lookup_insert_ne by congruence; apply Hall]).
  - destruct vote; cbn [voted yayVotes nayVotes set_voted set_yayVotes set_nayVotes];
      rewrite map_size_insert_None by exact Hnone; lia.
Qed.

(** One accepted transaction keeps every tally consistent. *)
Lemma step_tally m c st st' :
  step m c st = Done st' ->
  (forall id, tally_ok (proposal_at st id)) ->
  forall id, tally_ok (proposal_at st' id).
Proof.
  intros H Hinv id. apply step_Done_cases in H. destruct c.
  - apply join_Done in H as (_ & ->). apply Hinv.
  - destruct H as (n & H). apply createProposal_Done in H
      as (_ & _ & _ & _ & _ & _ & _ & Hother & Hnew).
    destruct (decide (id = n)) as [->|Hne]; [|rewrite Hother by exact Hne; apply Hinv].
    rewrite Hnew. exact (Hinv n).
  - apply voteProposal_Done in H as (_ & _ & Hv & _ & _ & _ & _ & Hother & Hnew).
    destruct (decide (id = proposalId)) as [->|Hne]; [|rewrite Hother by exact Hne; apply Hinv].
    rewrite Hnew. apply tally_ok_vote; [apply Hinv|exact Hv].
  - apply executeProposal_Done in H as (_ & _ & ->).
    destruct (decide (id = numProposal st)) as [->|Hne].
    + rewrite proposal_at_set_eq. exact (Hinv (numProposal st)).
    + rewrite proposal_at_set_ne by exact Hne. apply Hinv.
Qed.

Lemma steps_tally st st' :
  steps st st' ->
  (forall id, tally_ok (proposal_at st id)) ->
  forall id, tally_ok (proposal_at st' id).
Proof.
  induction 1 as [|st st1 st2 m c _ IH Hstep]; intros Hinv; [exact Hinv|].
  exact (step_tally m c st1 st2 Hstep (IH Hinv)).
Qed.

(** X1.  In every state the deployed contract can reach, and for every
    proposal id, the tallies agree with the voter set: each recorded voter
    is recorded as [true], and [yayVotes + nayVotes] is the number of
    recorded voters. *)
Theorem reachable_tally st id : reachable st -> tally_ok (proposal_at st id).
Proof.
  intros H. revert id. apply (steps_tally init st H).
  intros id. apply tally_ok_zero.
Qed.


Lemma grows_refl st : grows st st.
Proof. unfold grows. repeat split; auto; lia. Qed.

Lemma grows_trans st1 st2 st3 : grows st1 st2 -> grows st2 st3 -> grows st1 st3.
Proof.
  intros (Hm1 & Hn1 & Hf1 & Hd1 & Hp1 & Ht1) (Hm2 & Hn2 & Hf2 & Hd2 & Hp2 & Ht2).
  unfold grows. split; [auto|]. split; [lia|]. split; [congruence|]. split; [congruence|].
  split.
  - intros id. destruct (Hp1 id) as (He1 & Hy1 & Hna1 & Hv1).
    destruct (Hp2 id) as (He2 & Hy2 & Hna2 & Hv2).
    repeat split; auto; lia.
  - intros id Hid. destruct (Ht1 id Hid) as (? & ? & ? & ? & ? & ?).
    destruct (Ht2 id ltac:(lia)) as (? & ? & ? & ? & ? & ?).
    repeat split; congruence.
Qed.

Lemma voted_by_set_voted_mono p a b :
  voted_by p a = true -> voted_by (set_voted p b) a = true.
Proof.
  unfold voted_by, set_voted; cbn [voted]. intros H.
  destruct (decide (a = b)) as [->|Hne];
    [by rewrite lookup_insert_eq|by rewrite lookup_insert_ne].
Qed.

Lemma step_grows m c st st' : step m c st = Done st' -> grows st st'.
Proof.
  intros H. apply step_Done_cases in H. destruct c.
  - apply join_Done in H as (_ & ->). unfold grows.
    split; [intros a; apply user_at_set_users|].
    repeat split; auto; cbn; lia.
  - destruct H as (n & H). apply createProposal_Done in H
      as (_ & Hn & Hn' & Hu & Hf & Hd & _ & Hother & Hnew).
    unfold grows. split; [intros a; unfold user_at; by rewrite Hu|].
    split; [lia|]. split; [exact Hf|]. split; [exact Hd|]. split.
    + intros id. destruct (decide (id = n)) as [->|Hne].
      * rewrite Hnew. cbn. repeat split; auto; lia.
      * rewrite Hother by exact Hne. repeat split; auto; lia.
    + intros id Hid. rewrite Hother by lia. repeat split.
  - apply voteProposal_Done in H as (_ & _ & _ & Hn & Hu & Hf & Hd & Hother & Hnew).
    unfold grows. split; [intros a; unfold user_at; by rewrite Hu|].
    split; [lia|]. split; [exact Hf|]. split; [exact Hd|]. split.
    + intros id. destruct (decide (id = proposalId)) as [->|Hne].
      * rewrite Hnew. destruct vote; cbn [executed yayVotes nayVotes set_voted
          set_yayVotes set_nayVotes]; (repeat split; auto; try lia);
          intros a Ha; apply voted_by_set_voted_mono; exact Ha.
      * rewrite Hother by exact Hne. repeat split; auto; lia.
    + intros id Hid. destruct (decide (id = proposalId)) as [->|Hne].
      * rewrite Hnew. destruct vote; repeat split.
      * rewrite Hother by exact Hne. repeat split.
  - apply executeProposal_Done in H as (_ & _ & ->).
    unfold grows. split; [auto|]. split; [cbn; lia|]. split; [reflexivity|].
    split; [reflexivity|]. split.
    + intros id. destruct (decide (id = numProposal st)) as [->|Hne].
      * rewrite proposal_at_set_eq. cbn. repeat split; auto; lia.
      * rewrite proposal_at_set_ne by exact Hne. repeat split; auto; lia.
    + intros id Hid. destruct (decide (id = numProposal st)) as [->|Hne].
      * rewrite proposal_at_set_eq. repeat split.
      * rewrite proposal_at_set_ne by exact Hne. repeat split.
Qed.

Lemma steps_preserve st st' : steps st st' -> grows st st'.
Proof.
  induction 1 as [|st st1 st2 m c _ IH Hstep]; [apply grows_refl|].
  exact (grows_trans st st1 st2 IH (step_grows m c st1 st2 Hstep)).
Qed.

(** X5.  Accepted transactions never take anything back: across any
    sequence of them members stay members, [numProposal] does not decrease,
    the fee and the voting period stay as they are, an executed flag is
    never reset, tallies and voter sets only grow, and the deadline,
    proposer and terms of every proposal id up to [numProposal] are fixed. *)
Theorem steps_grow (st st' : State) : steps st st' -> grows st st'.
Proof. exact (steps_preserve st st'). Qed.

(** X2.  No address votes twice on a proposal: once [voteProposal] has been
    accepted for a sender and an id, no later call by that sender on that
    id is accepted, whatever else has been accepted in between and
    whichever way the second vote goes. *)
Theorem no_second_vote (m m' : Msg) (id : N) (vote vote' : Vote) (st st1 st2 st3 : State) :
  voteProposal m id vote st = Done st1 ->
  steps st1 st2 ->
  sender m' = sender m ->
  voteProposal m' id vote' st2 <> Done st3.
Proof.
  intros Hvote Hsteps Hs Hagain.
  apply voteProposal_Done in Hvote as (_ & _ & _ & _ & _ & _ & _ & _ & Hnew).
  apply voteProposal_Done in Hagain as (_ & _ & Hv & _).
  apply steps_preserve in Hsteps as (_ & _ & _ & _ & Hp & _).
  destruct (Hp id) as (_ & _ & _ & Hmono).
  rewrite Hs in Hv. rewrite Hmono in Hv; [discriminate|].
  rewrite Hnew. apply voted_by_set_voted.
Qed.

Lemma step_unborn m c st st' : step m c st = Done st' -> unborn st -> unborn st'.
Proof.
  intros H (Hfresh & H0 & Hf & Hd). apply step_Done_cases in H. destruct c.
  - apply join_Done in H as (_ & ->). repeat split; auto.
  - destruct H as (n & H). apply createProposal_Done in H
      as (_ & Hn & Hn' & _ & Hf' & Hd' & _ & Hother & _).
    split; [|split; [|split; congruence]].
    + intros id Hid. rewrite Hother by lia. apply Hfresh. lia.
    + rewrite Hother by lia. exact H0.
  - apply voteProposal_Done in H as (_ & Hdl & _ & Hn & _ & Hf' & Hd' & Hother & _).
    assert (Hid : proposalId <> 0 /\ proposalId <= numProposal st).
    { split.
      - intros ->. rewrite H0 in Hdl. lia.
      - destruct (N.le_gt_cases proposalId (numProposal st)) as [|Hgt]; [assumption|].
        rewrite (Hfresh _ Hgt) in Hdl. cbn in Hdl. lia. }
    split; [|split; [|split; congruence]].
    + intros id Hgt. rewrite Hother by lia. apply Hfresh. lia.
    + rewrite Hother by (intros E; apply (proj1 Hid); congruence). exact H0.
  - apply executeProposal_Done in H as (_ & _ & ->).
    split; [|split; [|split; assumption]].
    + intros id Hgt. cbn [numProposal set_proposal] in Hgt.
      rewrite proposal_at_set_ne by lia. apply Hfresh. exact Hgt.
    + destruct (decide (0 = numProposal st)) as [E|Hne].
      * rewrite E at 1. rewrite proposal_at_set_eq. cbn. rewrite <- E. exact H0.
      * rewrite proposal_at_set_ne by exact Hne. exact H0.
Qed.

Lemma steps_unborn st st' : steps st st' -> unborn st -> unborn st'.
Proof.
  induction 1 as [|st st1 st2 m c _ IH Hstep]; [auto|].
  intros Hinit. exact (step_unborn m c st1 st2 Hstep (IH Hinit)).
Qed.

Lemma reachable_unborn st : reachable st -> unborn st.
Proof.
  intros H. apply (steps_unborn init st H). repeat split.
Qed.

(** X3.  In a reachable state a member's vote on an id that was never
    created (0, or above [numProposal]) reverts with "deadline exceeded":
    the blank slot has deadline 0. *)
Theorem vote_on_unborn_reverts (m : Msg) (id : N) (vote : Vote) (st : State) :
  reachable st ->
  id = 0 \/ numProposal st < id ->
  value m = 0 ->
  isMember (user_at st (sender m)) = true ->
  voteProposal m id vote st = Revert "deadline exceeded".
Proof.
  intros Hr Hid Hv Hm. destruct (reachable_unborn st Hr) as (Hfresh & H0 & _).
  assert (Hd : deadline (proposal_at st id) = 0).
  { destruct Hid as [->|Hgt]; [exact H0|]. by rewrite (Hfresh _ Hgt). }
  unfold voteProposal, onlyMember. rewrite Hv, Hm. cbn. rewrite Hd.
  destruct (timestamp m <? 0) eqn:E; [apply N.ltb_lt in E; lia|reflexivity].
Qed.

(** X4.  In a reachable state an accepted [createProposal] returns
    [numProposal + 1], stores it as the new [numProposal], logs one
    [proposalCreated] with that id, and fills a slot that starts with zero
    votes, no voters, not executed, and a deadline exactly 604800 seconds
    (7 days) after the block timestamp; every other slot is untouched. *)
Theorem createProposal_fresh (m : Msg) (lot price maxPer : N) (summary : string)
        (st st' : State) (n : N) :
  reachable st ->
  createProposal m lot price maxPer summary st = Done (st', n) ->
  n = numProposal st + 1
  /\ numProposal st' = n
  /\ events st' = events st ++ [proposalCreated n (sender m)]
  /\ proposal_at st' n =
     mk_Proposal 0 0 (timestamp m + 604800) (sender m) lot price maxPer summary false ∅
  /\ (forall j, j <> n -> proposal_at st' j = proposal_at st j).
Proof.
  intros Hr H. destruct (reachable_unborn st Hr) as (Hfresh & _ & _ & Hd).
  apply createProposal_Done in H as (_ & Hn & Hn' & _ & _ & _ & He & Hother & Hnew).
  split; [exact Hn|]. split; [exact Hn'|]. split; [exact He|]. split; [|exact Hother].
  rewrite Hnew, (Hfresh n) by lia. rewrite Hd. reflexivity.
Qed.

(** X6.  Access control over one accepted transaction.  If the sender was
    not a member before it, the transaction is [join] and carried exactly
    the fee.  If it turned an executed flag on, the call was
    [executeProposal] and the flag is that of the latest proposal. *)
Theorem step_access (m : Msg) (c : Call) (st st' : State) :
  step m c st = Done st' ->
  (isMember (user_at st (sender m)) = false ->
   c = CallJoin /\ value m = membership st)
  /\ (forall j, executed (proposal_at st j) = false ->
                executed (proposal_at st' j) = true ->
                j = numProposal st /\ exists id, c = CallExecuteProposal id).
Proof.
  intros H. apply step_Done_cases in H. destruct c.
  - apply join_Done in H as (Hv & ->). split; [auto|].
    intros j H0 H1. change (proposal_at (set_users st _) j) with (proposal_at st j) in H1.
    congruence.
  - destruct H as (n & H). apply createProposal_Done in H
      as (Hm & _ & _ & _ & _ & _ & _ & Hother & Hnew).
    split; [congruence|]. intros j H0 H1.
    destruct (decide (j = n)) as [->|Hne].
    + rewrite Hnew in H1. cbn in H1. congruence.
    + rewrite Hother in H1 by exact Hne. congruence.
  - apply voteProposal_Done in H as (Hm & _ & _ & _ & _ & _ & _ & Hother & Hnew).
    split; [congruence|]. intros j H0 H1.
    destruct (decide (j = proposalId)) as [->|Hne].
    + rewrite Hnew in H1. destruct vote; cbn in H1; congruence.
    + rewrite Hother in H1 by exact Hne. congruence.
  - apply executeProposal_Done in H as (Hm & _ & ->).
    split; [congruence|]. intros j H0 H1.
    destruct (decide (j = numProposal st)) as [->|Hne]; [eauto|].
    rewrite proposal_at_set_ne in H1 by exact Hne. congruence.
Qed.


Lemma createdInLog_app l1 l2 :
  createdInLog (l1 ++ l2) = createdInLog l1 ++ createdInLog l2.
Proof. unfold createdInLog. apply omap_app. Qed.

Lemma ids_upto_succ n : ids_upto (n + 1) = ids_upto n ++ [n + 1].
Proof.
  unfold ids_upto. replace (N.to_nat (n + 1)) with (S (N.to_nat n)) by lia.
  rewrite seq_S, map_app. cbn [map]. do 2 f_equal. lia.
Qed.

Lemma voteProposal_events m id vote st st' :
  voteProposal m id vote st = Done st' ->
  events st' = events st ++ [proposalVoted (numProposal st) (sender m)].
Proof.
  unfold voteProposal. intros H. apply onlyMember_Done in H as (_ & _ & H).
  cbv zeta in H.
  apply bind_Done in H as ([] & _ & H). apply bind_Done in H as ([] & _ & H).
  apply bind_Done in H as (p1 & _ & H). by injection H as <-.
Qed.

Lemma step_log_ok m c st st' : step m c st = Done st' -> log_ok st -> log_ok st'.
Proof.
  intros H [Hc Hj]. pose proof H as H'. apply step_Done_cases in H. destruct c.
  - apply join_Done in H as (_ & ->). split; assumption.
  - destruct H as (n & H). apply createProposal_Done in H
      as (_ & Hn & Hn' & _ & _ & _ & He & _). rewrite Hn in *.
    split.
    + rewrite He, Hn', createdInLog_app, Hc, ids_upto_succ. reflexivity.
    + rewrite He, forallb_app, Hj. reflexivity.
  - pose proof (voteProposal_events _ _ _ _ _ H) as He.
    apply voteProposal_Done in H as (_ & _ & _ & Hn & _). split.
    + rewrite He, Hn, createdInLog_app, Hc. cbn. apply app_nil_r.
    + rewrite He, forallb_app, Hj. reflexivity.
  - apply executeProposal_Done in H as (_ & _ & ->). split; assumption.
Qed.

Lemma steps_log_ok st st' : steps st st' -> log_ok st -> log_ok st'.
Proof.
  induction 1 as [|st st1 st2 m c _ IH Hstep]; [auto|].
  intros Hinit. exact (step_log_ok m c st1 st2 Hstep (IH Hinit)).
Qed.

(** X7.  In a reachable state the [proposalCreated] events of the log
    announce exactly the ids [1 .. numProposal], in order, and the log
    holds no [joinedDao] event: [join] emits nothing. *)
Theorem reachable_log (st : State) :
  reachable st ->
  createdInLog (events st) = ids_upto (numProposal st)
  /\ forall a, joinedDao a ∉ events st.
Proof.
  intros H. destruct (steps_log_ok init st H) as [Hc Hj]; [split; reflexivity|].
  split; [exact Hc|]. intros a Hin.
  rewrite forallb_forall in Hj. apply list_elem_of_In in Hin.
  specialize (Hj _ Hin). discriminate.
Qed.

Lemma reachable_st_members : reachable Scenario.st_members.
Proof.
  unfold reachable.
  apply (steps_next _
           (Scenario.done init (join (mk_Msg Scenario.carol (ether / 10) 1000) init))
           _ (mk_Msg Scenario.dave (ether / 10) 1000) CallJoin);
    [|vm_compute; reflexivity].
  apply (steps_next _ init _ (mk_Msg Scenario.carol (ether / 10) 1000) CallJoin);
    [apply steps_refl|vm_compute; reflexivity].
Qed.

Lemma reachable_st_two : reachable Scenario.st_two.
Proof.
  unfold reachable.
  apply (steps_next _
           (Scenario.created init
              (createProposal (mk_Msg Scenario.carol 0 1500) 1000 10 5 "first"
                 Scenario.st_members))
           _ (mk_Msg Scenario.carol 0 2000) (CallCreateProposal 10 5 2 "second"));
    [|vm_compute; reflexivity].
  apply (steps_next _ Scenario.st_members _ (mk_Msg Scenario.carol 0 1500)
           (CallCreateProposal 1000 10 5 "first"));
    [apply reachable_st_members|vm_compute; reflexivity].
Qed.

Lemma steps_st_voted : steps Scenario.st_two st_voted.
Proof.
  apply (steps_next _ Scenario.st_two _ (mk_Msg Scenario.dave 0 3000)
           (CallVoteProposal 1 yay));
    [apply steps_refl|vm_compute; reflexivity].
Qed.

Lemma steps_st_voted2 : steps st_voted st_voted2.
Proof.
  apply (steps_next _ st_voted _ (mk_Msg Scenario.carol 0 3500)
           (CallVoteProposal 1 nay));
    [apply steps_refl|vm_compute; reflexivity].
Qed.

Lemma steps_trans st1 st2 st3 : steps st1 st2 -> steps st2 st3 -> steps st1 st3.
Proof.
  intros H12 H23. induction H23 as [|st st' st'' m c _ IH Hstep]; [exact H12|].
  exact (steps_next _ _ _ m c (IH H12) Hstep).
Qed.

Lemma reachable_st_voted2 : reachable st_voted2.
Proof.
  exact (steps_trans _ _ _ (steps_trans _ _ _ reachable_st_two steps_st_voted)
           steps_st_voted2).
Qed.

Lemma reachable_tally_witness :
  reachable st_voted2
  /\ tally_ok (proposal_at st_voted2 1)
  /\ yayVotes (proposal_at st_voted2 1) + nayVotes (proposal_at st_voted2 1) = 2.
Proof.
  split; [exact reachable_st_voted2|].
  split; [exact (reachable_tally st_voted2 1 reachable_st_voted2)|].
  vm_compute. reflexivity.
Defined.

Lemma no_second_vote_witness :
  let m := mk_Msg Scenario.dave 0 3000 in
  let m' := mk_Msg Scenario.dave 0 4000 in
  voteProposal m 1 yay Scenario.st_two = Done st_voted
  /\ steps st_voted st_voted2
  /\ sender m' = sender m
  /\ voteProposal m' 1 nay st_voted2 <> Done st_voted2.
Proof.
  intros m m'.
  assert (H : voteProposal m 1 yay Scenario.st_two = Done st_voted)
    by (vm_compute; reflexivity).
  split; [exact H|]. split; [exact steps_st_voted2|]. split; [reflexivity|].
  exact (no_second_vote m m' 1 yay nay Scenario.st_two st_voted st_voted2 st_voted2
           H steps_st_voted2 eq_refl).
Defined.

Lemma vote_on_unborn_reverts_witness :
  let m := mk_Msg Scenario.dave 0 3000 in
  reachable Scenario.st_two
  /\ numProposal Scenario.st_two < 3
  /\ voteProposal m 3 yay Scenario.st_two = Revert "deadline exceeded"
  /\ voteProposal m 0 nay Scenario.st_two = Revert "deadline exceeded".
Proof.
  intros m. split; [exact reachable_st_two|].
  assert (Hlt : numProposal Scenario.st_two < 3) by (vm_compute; reflexivity).
  split; [exact Hlt|]. split.
  - apply (vote_on_unborn_reverts m 3 yay Scenario.st_two reachable_st_two);
      [right; exact Hlt|reflexivity|vm_compute; reflexivity].
  - apply (vote_on_unborn_reverts m 0 nay Scenario.st_two reachable_st_two);
      [left; reflexivity|reflexivity|vm_compute; reflexivity].
Defined.

Lemma createProposal_fresh_witness :
  let m := mk_Msg Scenario.carol 0 4000 in
  let r := createProposal m 7 3 1 "third" st_voted2 in
  reachable st_voted2
  /\ r = Done (Scenario.created init r, 3)
  /\ deadline (proposal_at (Scenario.created init r) 3) = 608800
  /\ yayVotes (proposal_at (Scenario.created init r) 3) = 0
  /\ proposal_at (Scenario.created init r) 1 = proposal_at st_voted2 1.
Proof.
  intros m r. split; [exact reachable_st_voted2|].
  assert (H : r = Done (Scenario.created init r, 3)) by (vm_compute; reflexivity).
  split; [exact H|].
  destruct (createProposal_fresh m 7 3 1 "third" st_voted2 _ 3 reachable_st_voted2 H)
    as (_ & _ & _ & Hnew & Hother).
  rewrite Hnew. split; [reflexivity|]. split; [reflexivity|].
  apply Hother. discriminate.
Defined.

Lemma steps_grow_witness :
  steps Scenario.st_two st_voted2 /\ grows Scenario.st_two st_voted2.
Proof.
  assert (H : steps Scenario.st_two st_voted2)
    by exact (steps_trans _ _ _ steps_st_voted steps_st_voted2).
  split; [exact H|exact (steps_grow _ _ H)].
Defined.

Lemma step_access_witness :
  let m := mk_Msg Scenario.carol 0 5000 in
  let st' := Scenario.done init (executeProposal m 1 st_voted2) in
  step m (CallExecuteProposal 1) st_voted2 = Done st'
  /\ executed (proposal_at st_voted2 2) = false
  /\ executed (proposal_at st' 2) = true
  /\ forall j, executed (proposal_at st_voted2 j) = false ->
               executed (proposal_at st' j) = true -> j = 2.
Proof.
  intros m st'.
  assert (H : step m (CallExecuteProposal 1) st_voted2 = Done st')
    by (vm_compute; reflexivity).
  split; [exact H|]. split; [vm_compute; reflexivity|].
  split; [vm_compute; reflexivity|].
  intros j H0 H1.
  destruct (step_access m (CallExecuteProposal 1) st_voted2 st' H) as (_ & Hx).
  destruct (Hx j H0 H1) as (-> & _). vm_compute. reflexivity.
Defined.

Lemma reachable_log_witness :
  reachable st_voted2
  /\ createdInLog (events st_voted2) = [1; 2]
  /\ joinedDao Scenario.carol ∉ events st_voted2.
Proof.
  split; [exact reachable_st_voted2|].
  destruct (reachable_log st_voted2 reachable_st_voted2) as (Hc & Hj).
  split; [rewrite Hc; vm_compute; reflexivity|apply Hj].
Defined.

End DaoExtra.

(** ** Traces of the client: approvals, failures, transactions *)

Module ClientTraces.

Import Js Client ClientMore ScenarioClient JsProps ClientProps.
Local Open Scope list_scope.
Local Open Scope Z_scope.

(** *** Computations whose effects all satisfy a predicate *)

Lemma Only_app (P : Effect -> bool) t1 t2 :
  forallb P t1 = true -> forallb P t2 = true -> forallb P (t1 ++ t2) = true.
Proof. intros H1 H2. by rewrite forallb_app, H1, H2. Qed.

Lemma Only_run {A} P (m : M A) w r w' t :
  Only P m -> m w = (r, w', t) -> forallb P t = true.
Proof. intros H E. specialize (H w). by rewrite E in H. Qed.

Lemma Only_ret {A} P (a : A) : Only P (ret a).
Proof. intros w. reflexivity. Qed.

Lemma Only_throw {A} P e : Only P (@throw A e).
Proof. intros w. reflexivity. Qed.

Lemma Only_get P : Only P get.
Proof. intros w. reflexivity. Qed.

Lemma Only_modify P f : Only P (modify f).
Proof. intros w. reflexivity. Qed.

Lemma Only_lift {A} P (r : Reply A) : Only P (lift r).
Proof. intros w. reflexivity. Qed.

Lemma Only_effect (P : Effect -> bool) e : P e = true -> Only P (effect e).
Proof. intros H w. cbn. by rewrite H. Qed.

Lemma Only_await {A} (P : Effect -> bool) e (ans : nat -> Reply A) :
  P e = true -> Only P (await e ans).
Proof. intros H w. cbn. by rewrite H. Qed.

Lemma Only_bind {A B} P (m : M A) (f : A -> M B) :
  Only P m -> (forall a, Only P (f a)) -> Only P (bind m f).
Proof.
  intros Hm Hf w. specialize (Hm w). unfold bind, effects in *.
  destruct (m w) as [[[a|e] w1] t1]; cbn in *; [|exact Hm].
  specialize (Hf a w1). unfold effects in Hf.
  destruct (f a w1) as [[r w2] t2]; cbn in *.
  by apply Only_app.
Qed.

Lemma Only_try_catch {A} P (m : M A) (h : Error -> M A) :
  Only P m -> (forall e, Only P (h e)) -> Only P (try_catch m h).
Proof.
  intros Hm Hh w. specialize (Hm w). unfold try_catch, effects in *.
  destruct (m w) as [[[a|e] w1] t1]; cbn in *; [exact Hm|].
  specialize (Hh e w1). unfold effects in Hh.
  destruct (h e w1) as [[r w2] t2]; cbn in *.
  by apply Only_app.
Qed.

Lemma Only_finally {A} P (m : M A) (f : M unit) :
  Only P m -> Only P f -> Only P (finally m f).
Proof.
  intros Hm Hf w. specialize (Hm w). unfold finally, effects in *.
  destruct (m w) as [[r w1] t1]; cbn in *.
  specialize (Hf w1). unfold effects in Hf.
  destruct (f w1) as [[[[]|e] w2] t2]; cbn in *; by apply Only_app.
Qed.

Lemma Only_when P b m : Only P m -> Only P (when b m).
Proof. destruct b; [auto|]. intros _. apply Only_ret. Qed.

Lemma Only_in_try {A} P env a (m : M A) k :
  Only P m -> (forall e, Only P (joinFailed env a e)) -> (forall x, Only P (k x)) ->
  Only P (in_try env a m k).
Proof.
  intros Hm Hj Hk w. specialize (Hm w). unfold in_try, effects in *.
  destruct (m w) as [[[x|e] w1] t1]; cbn in *.
  - specialize (Hk x w1). unfold effects in Hk.
    destruct (k x w1) as [[r w2] t2]; cbn in *. by apply Only_app.
  - specialize (Hj e w1). unfold effects in Hj.
    destruct (joinFailed env a e w1) as [[r w2] t2]; cbn in *. by apply Only_app.
Qed.

Create HintDb only.

Ltac only_step :=
  match goal with
  | |- Only _ (bind _ _) => apply Only_bind
  | |- Only _ (try_catch _ _) => apply Only_try_catch
  | |- Only _ (finally _ _) => apply Only_finally
  | |- Only _ (in_try _ _ _ _) => apply Only_in_try
  | |- Only _ (when _ _) => apply Only_when
  | |- Only _ (ret _) => apply Only_ret
  | |- Only _ (throw _) => apply Only_throw
  | |- Only _ get => apply Only_get
  | |- Only _ (modify _) => apply Only_modify
  | |- Only _ (modify_page _) => apply Only_modify
  | |- Only _ (lift _) => apply Only_lift
  | |- Only _ (await _ _) => apply Only_await; reflexivity
  | |- Only _ (effect _) => apply Only_effect; reflexivity
  | |- Only _ (toast _ _) => apply Only_effect; reflexivity
  | |- Only _ (match ?x with _ => _ end) => destruct x
  | |- Only _ (let _ := _ in _) => cbv zeta
  | |- forall _, _ => intro
  | |- Only _ _ => solve [auto with only]
  end.

Ltac only_tac := repeat only_step.

(** *** Computations that never throw *)

Lemma NoThrow_ret {A} (a : A) : NoThrow (ret a).
Proof. intros w. by exists a. Qed.

Lemma NoThrow_modify f : NoThrow (modify f).
Proof. intros w. by exists tt. Qed.

Lemma NoThrow_effect e : NoThrow (effect e).
Proof. intros w. by exists tt. Qed.

Lemma NoThrow_get : NoThrow get.
Proof. intros w. by exists w. Qed.

Lemma NoThrow_bind {A B} (m : M A) (f : A -> M B) :
  NoThrow m -> (forall a, NoThrow (f a)) -> NoThrow (bind m f).
Proof.
  intros Hm Hf w. destruct (Hm w) as (a & Ha). unfold bind, result in *.
  destruct (m w) as [[r w1] t1]; cbn in *. subst r.
  destruct (Hf a w1) as (b & Hb). unfold result in Hb.
  destruct (f a w1) as [[r w2] t2]; cbn in *. eauto.
Qed.

Lemma NoThrow_try_catch {A} (m : M A) (h : Error -> M A) :
  (forall e, NoThrow (h e)) -> NoThrow (try_catch m h).
Proof.
  intros Hh w. unfold try_catch, result.
  destruct (m w) as [[[a|e] w1] t1]; cbn; [eauto|].
  destruct (Hh e w1) as (b & Hb). unfold result in Hb.
  destruct (h e w1) as [[r w2] t2]; cbn in *. eauto.
Qed.

Lemma NoThrow_finally {A} (m : M A) (f : M unit) :
  NoThrow m -> NoThrow f -> NoThrow (finally m f).
Proof.
  intros Hm Hf w. destruct (Hm w) as (a & Ha). unfold finally, result in *.
  destruct (m w) as [[r w1] t1]; cbn in *. subst r.
  destruct (Hf w1) as ([] & Hb). unfold result in Hb.
  destruct (f w1) as [[r w2] t2]; cbn in *. subst r. eauto.
Qed.

Lemma NoThrow_when b m : NoThrow m -> NoThrow (when b m).
Proof. destruct b; [auto|]. intros _. apply NoThrow_ret. Qed.

Lemma NoThrow_in_try {A} env a (m : M A) k :
  (forall e, NoThrow (joinFailed env a e)) -> (forall x, NoThrow (k x)) ->
  NoThrow (in_try env a m k).
Proof.
  intros Hj Hk w. unfold in_try, result.
  destruct (m w) as [[[x|e] w1] t1]; cbn.
  - destruct (Hk x w1) as (b & Hb). unfold result in Hb.
    destruct (k x w1) as [[r w2] t2]; cbn in *. eauto.
  - destruct (Hj e w1) as (b & Hb). unfold result in Hb.
    destruct (joinFailed env a e w1) as [[r w2] t2]; cbn in *. eauto.
Qed.

Create HintDb nothrow.

Ltac nothrow_step :=
  match goal with
  | |- NoThrow (try_catch _ _) => apply NoThrow_try_catch
  | |- NoThrow (bind _ _) => apply NoThrow_bind
  | |- NoThrow (finally _ _) => apply NoThrow_finally
  | |- NoThrow (in_try _ _ _ _) => apply NoThrow_in_try
  | |- NoThrow (when _ _) => apply NoThrow_when
  | |- NoThrow (ret _) => apply NoThrow_ret
  | |- NoThrow get => apply NoThrow_get
  | |- NoThrow (modify _) => apply NoThrow_modify
  | |- NoThrow (modify_page _) => apply NoThrow_modify
  | |- NoThrow (effect _) => apply NoThrow_effect
  | |- NoThrow (toast _ _) => apply NoThrow_effect
  | |- NoThrow (match ?x with _ => _ end) => destruct x
  | |- NoThrow (let _ := _ in _) => cbv zeta
  | |- forall _, _ => intro
  | |- NoThrow _ => solve [auto with nothrow]
  end.

Ltac nothrow_tac := repeat nothrow_step.

(** *** Case analysis on runs *)

#[export] Hint Resolve Quiet_now_ms Quiet_now_s Quiet_db_call
  Quiet_checkEtherlinkNetwork Quiet_initializeProvider Quiet_connectWithMetamask
  Quiet_getContract Quiet_getReadOnlyContract Quiet_getCurrentAddress
  Quiet_isDaoMember Quiet_feeGasPrice Quiet_requireEtherlink
  Quiet_storeProposalInSupabase Quiet_checkProposalId Quiet_rethrow_failed
  Quiet_checkUSDCBalance : quiet.

(** Case analysis on the innermost scrutinee; the run of a helper is
    replaced by its outcome and the fact that its trace is quiet. *)
Ltac split_run :=
  match goal with
  | |- context [match ?x with _ => _ end] =>
    lazymatch x with
    | context [match _ with _ => _ end] => fail
    | _ =>
      lazymatch type of x with
      | (Reply _ * World * list Effect)%type =>
        let r := fresh "r" in let w := fresh "w" in let t := fresh "t" in
        let E := fresh "Erun" in let Q := fresh "Q" in
        destruct x as [[r w] t] eqn:E;
        lazymatch type of E with
        | ?m ?w0 = _ =>
          assert (Q : forallb quiet t = true)
            by (apply (Quiet_run m w0 _ _ _ ltac:(quiet_tac) E));
          clear E
        end
      | _ => destruct x eqn:?
      end
    end
  end.

Ltac in_split H :=
  repeat match type of H with
         | In _ (_ ++ _) => apply in_app_or in H; destruct H as [H|H]
         | In _ (_ :: _) => destruct H as [H|H]; [try discriminate H|]
         | In _ [] => destruct H
         end.

Ltac run_cases := unfold effects; unfold_m; cbn; repeat (split_run; cbn).

Ltac no_send H := exfalso; eapply quiet_not_send; [|exact H]; eassumption.

Ltac find_in :=
  repeat first [ left; reflexivity
               | apply in_or_app; left; solve [find_in]
               | apply in_or_app; right
               | right ].

Section Gateway.

Variable env : Env.
Variable daoContractAddress : string.

Lemma Only_now_ms P : Only P (now_ms env).
Proof. intros w. reflexivity. Qed.

Lemma Only_now_s P : Only P (now_s env).
Proof. unfold now_s. pose proof (Only_now_ms P). only_tac. Qed.

Lemma Only_db_call {A} op (q : World -> A * World) : Only passive (db_call env op q).
Proof.
  intros w. unfold db_call, effects. destruct (db_error env (tick w)); [reflexivity|].
  destruct (q _). reflexivity.
Qed.

#[local] Hint Resolve Only_now_ms Only_now_s Only_db_call : only.

Lemma passive_checkEtherlinkNetwork : Only passive (checkEtherlinkNetwork env).
Proof. unfold checkEtherlinkNetwork. only_tac. Qed.

#[local] Hint Resolve passive_checkEtherlinkNetwork : only.

Lemma passive_initializeProvider : Only passive (initializeProvider env).
Proof. unfold initializeProvider. only_tac. Qed.

#[local] Hint Resolve passive_initializeProvider : only.

Lemma passive_getReadOnlyContract : Only passive getReadOnlyContract.
Proof. unfold getReadOnlyContract. only_tac. Qed.

#[local] Hint Resolve passive_getReadOnlyContract : only.

Lemma passive_getCurrentAddress : Only passive (getCurrentAddress env).
Proof. unfold getCurrentAddress. only_tac. Qed.

Lemma passive_isDaoMember a : Only passive (isDaoMember env a).
Proof. unfold isDaoMember. only_tac. Qed.

Lemma passive_getDaoMembership a : Only passive (getDaoMembership env a).
Proof. unfold getDaoMembership. only_tac. Qed.

Lemma passive_setDaoMembership a b : Only passive (setDaoMembership env a b).
Proof. unfold setDaoMembership. only_tac. Qed.

Lemma passive_getProposalsFromSupabase : Only passive (getProposalsFromSupabase env).
Proof. unfold getProposalsFromSupabase. only_tac. Qed.

Lemma passive_getProposalFromSupabase pid : Only passive (getProposalFromSupabase env pid).
Proof. unfold getProposalFromSupabase. only_tac. Qed.

Lemma passive_getProposalFromEvents pid : Only passive (getProposalFromEvents env pid).
Proof. unfold getProposalFromEvents. only_tac. Qed.

#[local] Hint Resolve passive_getCurrentAddress passive_isDaoMember
  passive_getDaoMembership passive_setDaoMembership
  passive_getProposalsFromSupabase passive_getProposalFromSupabase
  passive_getProposalFromEvents : only.

Lemma passive_getProposal pid : Only passive (getProposal env pid).
Proof. unfold getProposal. only_tac. Qed.

#[local] Hint Resolve passive_getProposal : only.

Lemma passive_collectProposals count i acc :
  Only passive (collectProposals env count i acc).
Proof.
  revert i acc. induction count as [|count IH]; intros i acc; cbn [collectProposals].
  - only_tac.
  - apply Only_bind; [only_tac|]. intros a. apply IH.
Qed.

#[local] Hint Resolve passive_collectProposals : only.

Lemma passive_getAllProposals : Only passive (getAllProposals env).
Proof. unfold getAllProposals. only_tac. Qed.

Lemma passive_checkUSDCBalance a : Only passive (checkUSDCBalance env a).
Proof. unfold checkUSDCBalance. only_tac. Qed.

Lemma passive_sleep ms : Only passive (sleep ms).
Proof. unfold sleep. only_tac. Qed.

#[local] Hint Resolve passive_sleep : only.

Lemma passive_membershipLoop n a c : Only passive (membershipLoop env n a c).
Proof.
  unfold membershipLoop. induction n as [|n IH]; cbn [membershipLoopWith].
  - only_tac.
  - apply Only_bind; [|intros []; [only_tac|apply IH]].
    unfold setIsMember. only_tac.
Qed.

#[local] Hint Resolve passive_membershipLoop : only.

Lemma passive_checkWalletAndMembership : Only passive (checkWalletAndMembership env).
Proof.
  unfold checkWalletAndMembership, setLoading, setIsConnected, setWalletAddress,
    setIsMember, setJustJoined.
  only_tac.
Qed.

Lemma passive_handleAccountsChanged accounts :
  Only passive (handleAccountsChanged env accounts).
Proof.
  unfold handleAccountsChanged, setLoading, setIsConnected, setWalletAddress,
    setIsMember, setJustJoined.
  only_tac.
Qed.


(** X8.  Reading and page load need no approval.  The readers of
    daoUtils.ts ([getProposal], [getAllProposals], [isDaoMember],
    [getCurrentAddress], [checkUSDCBalance]), the page's effect on mount
    ([checkWalletAndMembership]) and its account-change listener
    ([handleAccountsChanged]) never request accounts or a signer (the calls
    that open a wallet popup), never estimate gas and never submit a
    transaction, whatever the environment answers. *)
Theorem reads_and_page_load_need_no_approval
        (pid amount : Z) (a : string) (accounts : list string) :
  Only passive (getProposal env pid)
  /\ Only passive (getAllProposals env)
  /\ Only passive (isDaoMember env a)
  /\ Only passive (getCurrentAddress env)
  /\ Only passive (checkUSDCBalance env amount)
  /\ Only passive (checkWalletAndMembership env)
  /\ Only passive (handleAccountsChanged env accounts).
Proof.
  repeat split.
  - apply passive_getProposal.
  - apply passive_getAllProposals.
  - apply passive_isDaoMember.
  - apply passive_getCurrentAddress.
  - apply passive_checkUSDCBalance.
  - apply passive_checkWalletAndMembership.
  - apply passive_handleAccountsChanged.
Qed.

(** *** What never throws *)

Lemma NoThrow_isDaoMember a : NoThrow (isDaoMember env a).
Proof. unfold isDaoMember. nothrow_tac. Qed.

Lemma NoThrow_getDaoMembership a : NoThrow (getDaoMembership env a).
Proof. unfold getDaoMembership. nothrow_tac. Qed.

Lemma NoThrow_setDaoMembership a b : NoThrow (setDaoMembership env a b).
Proof. unfold setDaoMembership. nothrow_tac. Qed.

Lemma NoThrow_getProposalsFromSupabase : NoThrow (getProposalsFromSupabase env).
Proof. unfold getProposalsFromSupabase. nothrow_tac. Qed.

Lemma NoThrow_getProposalFromSupabase pid : NoThrow (getProposalFromSupabase env pid).
Proof. unfold getProposalFromSupabase. nothrow_tac. Qed.

Lemma NoThrow_storeProposalInSupabase a b c d e f g h :
  NoThrow (storeProposalInSupabase env a b c d e f g h).
Proof. unfold storeProposalInSupabase. nothrow_tac. Qed.

Lemma NoThrow_updateProposalVotes a b c : NoThrow (updateProposalVotes env a b c).
Proof. unfold updateProposalVotes. nothrow_tac. Qed.

Lemma NoThrow_updateProposalExecution a b : NoThrow (updateProposalExecution env a b).
Proof. unfold updateProposalExecution. nothrow_tac. Qed.

Lemma NoThrow_getProposalFromEvents pid : NoThrow (getProposalFromEvents env pid).
Proof. unfold getProposalFromEvents. nothrow_tac. Qed.

Lemma NoThrow_getProposal pid : NoThrow (getProposal env pid).
Proof. unfold getProposal. nothrow_tac. Qed.

Lemma NoThrow_getAllProposals : NoThrow (getAllProposals env).
Proof. unfold getAllProposals. nothrow_tac. Qed.

Lemma NoThrow_checkEtherlinkNetwork : NoThrow (checkEtherlinkNetwork env).
Proof. unfold checkEtherlinkNetwork. nothrow_tac. Qed.

#[local] Hint Resolve NoThrow_isDaoMember NoThrow_getDaoMembership
  NoThrow_setDaoMembership NoThrow_checkEtherlinkNetwork : nothrow.

Lemma NoThrow_initializeProvider : NoThrow (initializeProvider env).
Proof. unfold initializeProvider. nothrow_tac. Qed.

#[local] Hint Resolve NoThrow_initializeProvider : nothrow.

Lemma NoThrow_getCurrentAddress : NoThrow (getCurrentAddress env).
Proof. unfold getCurrentAddress. nothrow_tac. Qed.

Lemma NoThrow_joinFailed a e : NoThrow (joinFailed env a e).
Proof. unfold joinFailed, setIsMember. nothrow_tac. Qed.

#[local] Hint Resolve NoThrow_joinFailed : nothrow.

Lemma NoThrow_handleJoinDao : NoThrow (handleJoinDao env).
Proof. unfold handleJoinDao, setJoiningDao. nothrow_tac. Qed.

Lemma NoThrow_checkWalletAndMembership : NoThrow (checkWalletAndMembership env).
Proof. unfold checkWalletAndMembership, setLoading. nothrow_tac. Qed.

Lemma finally_final {A} (m : M A) (f : Page -> Page) (w : World) :
  page (final (finally m (modify_page f) w)) = f (page (final (m w))).
Proof.
  unfold finally, modify_page, modify, final. destruct (m w) as [[r w1] t1]. reflexivity.
Qed.

(** X9.  Failures are absorbed.  The mirror functions, the readers and
    the two page handlers never throw: every failure of the store, the
    wallet or the node ends in a value ([false], [null], an empty list) or
    in a toast.  Moreover [handleJoinDao] always leaves [joiningDao] false
    and [checkWalletAndMembership] always leaves [loading] false. *)
Theorem failures_are_absorbed
        (pid l p m d y n : Z) (s u h a : string) (b : bool) (w : World) :
  NoThrow (storeProposalInSupabase env pid l p m s u d h)
  /\ NoThrow (getProposalFromSupabase env pid)
  /\ NoThrow (getProposalsFromSupabase env)
  /\ NoThrow (updateProposalVotes env pid y n)
  /\ NoThrow (updateProposalExecution env pid b)
  /\ NoThrow (getDaoMembership env a)
  /\ NoThrow (setDaoMembership env a b)
  /\ NoThrow (isDaoMember env a)
  /\ NoThrow (getCurrentAddress env)
  /\ NoThrow (getProposal env pid)
  /\ NoThrow (getAllProposals env)
  /\ NoThrow (handleJoinDao env)
  /\ NoThrow (checkWalletAndMembership env)
  /\ joiningDao (page (final (handleJoinDao env w))) = false
  /\ loading (page (final (checkWalletAndMembership env w))) = false.
Proof.
  repeat split.
  - apply NoThrow_storeProposalInSupabase.
  - apply NoThrow_getProposalFromSupabase.
  - apply NoThrow_getProposalsFromSupabase.
  - apply NoThrow_updateProposalVotes.
  - apply NoThrow_updateProposalExecution.
  - apply NoThrow_getDaoMembership.
  - apply NoThrow_setDaoMembership.
  - apply NoThrow_isDaoMember.
  - apply NoThrow_getCurrentAddress.
  - apply NoThrow_getProposal.
  - apply NoThrow_getAllProposals.
  - apply NoThrow_handleJoinDao.
  - apply NoThrow_checkWalletAndMembership.
  - unfold handleJoinDao, setJoiningDao. by rewrite finally_final.
  - unfold checkWalletAndMembership, setLoading at 3. by rewrite finally_final.
Qed.

(** *** Transactions and their estimates *)

Ltac solve_estimated :=
  let c := fresh "c" in let o := fresh "o" in let Hs := fresh "Hs" in
  intros c o Hs; in_split Hs; try no_send Hs;
  injection Hs as <- <-; do 2 eexists; solve [find_in].

Lemma joinDao_estimated amount w : estimated (effects (joinDao env amount w)).
Proof. unfold joinDao, present. run_cases; solve_estimated. Qed.

Lemma createProposal_estimated a b c d w :
  estimated (effects (createProposal env a b c d w)).
Proof. unfold createProposal, present. run_cases; solve_estimated. Qed.

Lemma voteProposal_estimated a b w : estimated (effects (voteProposal env a b w)).
Proof. unfold voteProposal, present. run_cases; solve_estimated. Qed.

Lemma executeProposal_estimated a w : estimated (effects (executeProposal env a w)).
Proof. unfold executeProposal, present. run_cases; solve_estimated. Qed.


(** X10.  [joinDao], [createProposal], [voteProposal] and
    [executeProposal] submit a transaction only for a call whose gas
    estimation succeeded in the same run: a failed estimate is never
    followed by a submission. *)
Theorem governance_sends_are_estimated (amount : string) (l p m pid vote : Z)
        (summary : string) (w : World) :
  estimated (effects (joinDao env amount w))
  /\ estimated (effects (createProposal env l p m summary w))
  /\ estimated (effects (voteProposal env pid vote w))
  /\ estimated (effects (executeProposal env pid w)).
Proof.
  repeat split.
  - apply joinDao_estimated.
  - apply createProposal_estimated.
  - apply voteProposal_estimated.
  - apply executeProposal_estimated.
Qed.

Ltac solve_fallback :=
  let c := fresh "c" in let o := fresh "o" in let Hs := fresh "Hs" in
  intros c o Hs; in_split Hs; try no_send Hs;
  injection Hs as <- <-;
  first [ left; eexists; split; [solve [find_in]|reflexivity]
        | right; eexists; split; [solve [find_in]|reflexivity] ].

Lemma mintUSDC_fallback a w : estimated_or_fallback (effects (mintUSDC env a w)).
Proof. unfold mintUSDC, estimateOr, present. run_cases; solve_fallback. Qed.

Lemma approveUSDC_fallback a w :
  estimated_or_fallback (effects (approveUSDC env daoContractAddress a w)).
Proof. unfold approveUSDC, estimateOr, present. run_cases; solve_fallback. Qed.

Lemma buyLot_fallback a w :
  estimated_or_fallback (effects (buyLot env daoContractAddress a w)).
Proof. unfold buyLot, approveUSDC, estimateOr, present. run_cases; solve_fallback. Qed.

Lemma withdraw_fixed (w : World) :
  (forall c v r, ~ In (EstimateGas c v r) (effects (withdraw env w)))
  /\ forall c o, In (SendTx c o) (effects (withdraw env w)) ->
       c = CWithdraw /\ o = mk_TxOpts None (20 * 10 ^ 9) 300000.
Proof.
  unfold withdraw. run_cases.
  all: split;
    [ intros c' v' r' H; in_split H; eapply quiet_not_estimate; [|exact H]; eassumption
    | intros c' o' Hs; in_split Hs; try no_send Hs;
      injection Hs as <- <-; split; reflexivity ].
Qed.

(** X11.  The write actions that do not insist on an estimate.  [mintUSDC],
    [approveUSDC] and [buyLot] submit each transaction either with the
    buffered limit of a successful estimate of that call, or, after an
    estimate of that call that threw, with the fallback limit (300000 for
    [buyLot], 100000 for the token calls).  [withdraw] never estimates; the
    only transaction it can submit is [withdraw()] with gas price 20 gwei
    and gas limit 300000. *)
Theorem token_sends_estimate_or_fall_back (amount : Z) (w : World) :
  estimated_or_fallback (effects (mintUSDC env amount w))
  /\ estimated_or_fallback (effects (approveUSDC env daoContractAddress amount w))
  /\ estimated_or_fallback (effects (buyLot env daoContractAddress amount w))
  /\ (forall c v r, ~ In (EstimateGas c v r) (effects (withdraw env w)))
  /\ (forall c o, In (SendTx c o) (effects (withdraw env w)) ->
       c = CWithdraw /\ o = mk_TxOpts None (20 * 10 ^ 9) 300000).
Proof.
  split; [apply mintUSDC_fallback|]. split; [apply approveUSDC_fallback|].
  split; [apply buyLot_fallback|]. apply withdraw_fixed.
Qed.

Lemma bigint_or_nonzero x fallback : fallback <> 0 -> bigint_or x fallback <> 0.
Proof.
  intros Hf. unfold bigint_or. destruct x as [v|]; [|exact Hf].
  destruct (v =? 0) eqn:E; [exact Hf|]. by apply Z.eqb_neq.
Qed.

Ltac solve_price :=
  let c := fresh "c" in let o := fresh "o" in let Hs := fresh "Hs" in
  intros c o Hs; in_split Hs; try no_send Hs;
  injection Hs as <- <-; cbn;
  first [ apply bigint_or_nonzero; discriminate | discriminate ].

(** X12.  No write action ever submits a transaction with gas price 0: a
    missing or zero price in the fee data is replaced by the default (1 or
    20 gwei). *)
Theorem gas_price_never_zero (act : WriteAction) (w : World) (c : Call) (o : TxOpts) :
  In (SendTx c o) (traceOf env daoContractAddress act w) -> gasPrice o <> 0.
Proof.
  revert c o. destruct act; unfold traceOf.
  - unfold joinDao, present. run_cases; solve_price.
  - unfold createProposal, present. run_cases; solve_price.
  - unfold voteProposal, present. run_cases; solve_price.
  - unfold executeProposal, present. run_cases; solve_price.
  - unfold mintUSDC, estimateOr, present. run_cases; solve_price.
  - unfold approveUSDC, estimateOr, present. run_cases; solve_price.
  - unfold buyLot, approveUSDC, estimateOr, present. run_cases; solve_price.
  - unfold withdraw, present. run_cases; solve_price.
Qed.

(** *** Range check of [executeProposal] *)

Lemma rangeMessage_excludes (c : ascii) (needle onChain : string) (pid maxId : Z) :
  is_digit_or_sign c = false ->
  has_char c "Invalid proposalId . numProposal is ." = false ->
  has_char c onChain = false ->
  has_char c needle = true ->
  includes needle (rangeMessage onChain pid maxId) = false.
Proof.
  intros Hd Hfix Ho Hn.
  destruct (includes _ _) eqn:E; [|reflexivity].
  apply (includes_has_char c) in E; [|exact Hn].
  unfold rangeMessage in E. rewrite !has_char_app in E.
  rewrite !toString_no_letter in E by exact Hd. rewrite Ho in E.
  destruct c as [[] [] [] [] [] [] [] []]; cbn in Hfix, E; congruence.
Qed.

Lemma executeProposal_out_of_range (a : string) (n pid : Z) (w : World) :
  WalletConnects env a ->
  (forall k, numProposal env k = Ok n) ->
  pid < 1 \/ n < pid ->
  exists w',
    executeProposal env pid w =
      (Throw (new_Error ("Failed to execute proposal: " +:+ rangeMessage "On-chain" pid n)),
       w',
       [EthChainId; EthRequestAccounts; GetSigner; SignerGetAddress; ReadNumProposal]).
Proof.
  intros Hw Hn Hrange. pose proof Hw as [He Hr Hs Ha Ht].
  assert (Hb : ((pid <? 1) || (n <? pid))%bool = true).
  { apply orb_true_iff. destruct Hrange; [left|right]; apply Z.ltb_lt; assumption. }
  pose proof (rangeMessage_excludes "J" "Internal JSON-RPC error" "On-chain" pid n
                eq_refl eq_refl eq_refl eq_refl) as H1.
  pose proof (rangeMessage_excludes "b" "not a member" "On-chain" pid n
                eq_refl eq_refl eq_refl eq_refl) as H2.
  pose proof (rangeMessage_excludes "y" "onlyMember" "On-chain" pid n
                eq_refl eq_refl eq_refl eq_refl) as H3.
  pose proof (rangeMessage_excludes "y" "already executed" "On-chain" pid n
                eq_refl eq_refl eq_refl eq_refl) as H4.
  unfold executeProposal. unfold bind at 1. rewrite (connectWithMetamask_run env a w Hw).
  unfold getContract, getReadOnlyContract, checkProposalId. unfold_m. mcbn.
  erewrite getCurrentAddress_signer by (try exact Hw; reflexivity).
  mcbn. unfold present. rewrite Ht. mcbn. rewrite Hn. mcbn. rewrite Hb. mcbn.
  unfold or_else. cbn [reason message new_Error truthy].
  rewrite !rangeMessage_truthy. rewrite H1, H2, H3, H4. mcbn.
  eexists. reflexivity.
Qed.

(** X13.  With a connected wallet and a readable [numProposal() = n],
    [executeProposal] on an id below 1 or above [n] throws
    "Failed to execute proposal: Invalid proposalId .. On-chain numProposal
    is n." right after reading [numProposal]: no gas estimation, no
    transaction.  (Unlike [voteProposal], which rethrows the range error
    unchanged, [executeProposal] prefixes it.) *)
Theorem execute_range_error_before_estimate (a : string) (n pid : Z) (w : World) :
  WalletConnects env a ->
  (forall k, numProposal env k = Ok n) ->
  pid < 1 \/ n < pid ->
  result (executeProposal env pid w)
    = Throw (new_Error ("Failed to execute proposal: " +:+ rangeMessage "On-chain" pid n))
  /\ effects (executeProposal env pid w)
     = [EthChainId; EthRequestAccounts; GetSigner; SignerGetAddress; ReadNumProposal].
Proof.
  intros Hw Hn Hpid.
  destruct (executeProposal_out_of_range a n pid w Hw Hn Hpid) as (w' & ->).
  split; reflexivity.
Qed.

End Gateway.

#[export] Hint Resolve Only_now_ms Only_now_s Only_db_call passive_checkEtherlinkNetwork
  passive_initializeProvider passive_getReadOnlyContract passive_getCurrentAddress
  passive_isDaoMember passive_getDaoMembership passive_setDaoMembership : only.

#[export] Hint Resolve NoThrow_isDaoMember NoThrow_getDaoMembership
  NoThrow_setDaoMembership NoThrow_checkEtherlinkNetwork NoThrow_getCurrentAddress
  : nothrow.

(** A stranger joins: the one transaction of the run, estimated at 21004. *)
Lemma scenario_join_sends :
  In (SendTx CJoin (mk_TxOpts (Some (10 ^ 17)) (10 ^ 9) 25204))
     (effects (joinDao Scenario.env_stranger "0.1" Scenario.world0)).
Proof. vm_compute. repeat first [left; reflexivity | right]. Qed.

Lemma governance_sends_are_estimated_witness :
  exists v E,
    In (EstimateGas CJoin v (Ok E))
       (effects (joinDao Scenario.env_stranger "0.1" Scenario.world0)).
Proof.
  destruct (governance_sends_are_estimated Scenario.env_stranger "0.1" 0 0 0 0 0 ""
              Scenario.world0) as (H & _).
  exact (H _ _ scenario_join_sends).
Defined.

Lemma gas_price_never_zero_witness :
  let o := mk_TxOpts (Some (10 ^ 17)) (10 ^ 9) 25204 in
  In (SendTx CJoin o)
     (traceOf Scenario.env_stranger Scenario.dao (AJoin "0.1") Scenario.world0)
  /\ gasPrice o <> 0.
Proof.
  intros o. split; [exact scenario_join_sends|].
  exact (gas_price_never_zero Scenario.env_stranger Scenario.dao (AJoin "0.1")
           Scenario.world0 CJoin o scenario_join_sends).
Defined.

Lemma scenario_buy_sends :
  In (SendTx CBuyLot (mk_TxOpts None (10 ^ 9) 300000))
     (effects (buyLot env_buy Scenario.dao 100 Scenario.world0))
  /\ In (SendTx (CApprove Scenario.dao 100) (mk_TxOpts None (10 ^ 9) 60000))
       (effects (buyLot env_buy Scenario.dao 100 Scenario.world0)).
Proof. split; vm_compute; repeat first [left; reflexivity | right]. Qed.

Lemma token_sends_estimate_or_fall_back_witness :
  let tr := effects (buyLot env_buy Scenario.dao 100 Scenario.world0) in
  In (SendTx CBuyLot (mk_TxOpts None (10 ^ 9) 300000)) tr
  /\ ((exists E, In (EstimateGas CBuyLot None (Ok E)) tr /\ 300000 = withBuffer E)
      \/ (exists e, In (EstimateGas CBuyLot None (Throw e)) tr /\ 300000 = 300000))
  /\ exists E, In (EstimateGas (CApprove Scenario.dao 100) None (Ok E)) tr
               /\ withBuffer E = 60000.
Proof.
  intros tr.
  destruct (token_sends_estimate_or_fall_back env_buy Scenario.dao 100 Scenario.world0)
    as (_ & _ & H & _).
  destruct scenario_buy_sends as (Hb & Ha).
  split; [exact Hb|]. split; [exact (H _ _ Hb)|].
  destruct (H _ _ Ha) as [(E & He & Hl)|(e & _ & Hl)]; [eauto|discriminate Hl].
Defined.

Lemma execute_range_error_before_estimate_witness :
  WalletConnects Scenario.env_member Scenario.alice
  /\ result (executeProposal Scenario.env_member 3 Scenario.world0)
     = Throw (new_Error
                "Failed to execute proposal: Invalid proposalId 3. On-chain numProposal is 2.")
  /\ effects (executeProposal Scenario.env_member 3 Scenario.world0)
     = [EthChainId; EthRequestAccounts; GetSigner; SignerGetAddress; ReadNumProposal].
Proof.
  pose proof (scenario_wallet (Scenario.memberIs true) Scenario.structThrows 2000) as Hw.
  split; [exact Hw|].
  apply (execute_range_error_before_estimate Scenario.env_member Scenario.alice 2 3
           Scenario.world0 Hw).
  - reflexivity.
  - right. reflexivity.
Defined.

End ClientTraces.

(** ** Failures of the write actions *)

Module ClientErrors.

Import Js Client ClientMore ScenarioClient JsProps ClientProps ClientTraces.
Local Open Scope list_scope.
Local Open Scope Z_scope.

(** The reasons the contract's [voteProposal] reverts with. *)
Lemma Dao_voteProposal_reasons m id vote st r :
  Dao.voteProposal m id vote st = Dao.Revert r ->
  r = "" \/ r = "not a member of pool" \/ r = "deadline exceeded" \/ r = "already voted".
Proof.
  unfold Dao.voteProposal, Dao.onlyMember, Dao.bind, Dao.require.
  destruct (_ =? _)%N; [|intros [= <-]; auto].
  destruct (Dao.isMember _); [|intros [= <-]; auto].
  cbv zeta.
  destruct (_ <? _)%N; [|intros [= <-]; auto].
  destruct (negb _); [|intros [= <-]; auto].
  destruct vote; unfold Dao.incr; destruct (_ <? _)%N; discriminate.
Qed.

(** The reasons the contract's [executeProposal] reverts with. *)
Lemma Dao_executeProposal_reasons m id st r :
  Dao.executeProposal m id st = Dao.Revert r ->
  r = "" \/ r = "not a member of pool" \/ r = "proposal already executed".
Proof.
  unfold Dao.executeProposal, Dao.onlyMember, Dao.bind, Dao.require.
  destruct (_ =? _)%N; [|intros [= <-]; auto].
  destruct (Dao.isMember _); [|intros [= <-]; auto].
  destruct (negb _); [discriminate|intros [= <-]; auto].
Qed.

Section Gateway.

Variable env : Env.

(** [voteProposal] up to the gas estimation, which throws [e]. *)
Lemma voteProposal_estimate_throws (a : string) (n pid vote : Z) (e : Error) (w : World) :
  WalletConnects env a ->
  (forall k, numProposal env k = Ok n) ->
  1 <= pid <= n ->
  (forall k, saysMember (addressToUser env k a) = true) ->
  (forall k, estimateGas env k (CVoteProposal pid vote) None = Throw e) ->
  forall msg,
    (if (includes "deadline exceeded" (estimateErrorMessage e)
         || includes "deadline" (estimateErrorMessage e))%bool
     then "Voting deadline has passed for this proposal."
     else if (includes "already voted" (estimateErrorMessage e)
              || includes "voted" (estimateErrorMessage e))%bool
     then "You have already voted on this proposal."
     else if (includes "not a member" (estimateErrorMessage e)
              || includes "onlyMember" (estimateErrorMessage e))%bool
     then "You are not a DAO member. Please join the DAO first."
     else "") = msg ->
    msg <> "" ->
    exists w',
      voteProposal env pid vote w =
        (Throw (new_Error msg), w',
         [EthChainId; EthRequestAccounts; GetSigner; SignerGetAddress; ReadNumProposal;
          ReadAddressToUser a; EstimateGas (CVoteProposal pid vote) None (Throw e)]).
Proof.
  intros Hw Hn Hrange Hm He msg Hmsg Hne. pose proof Hw as [Heth Hr Hs Ha Ht].
  assert (Hb : ((pid <? 1) || (n <? pid))%bool = false).
  { apply orb_false_iff. split; apply Z.ltb_ge; lia. }
  unfold voteProposal. unfold bind at 1. rewrite (connectWithMetamask_run env a w Hw).
  unfold getContract, getReadOnlyContract, checkProposalId. unfold_m. mcbn.
  erewrite getCurrentAddress_signer by (try exact Hw; reflexivity).
  mcbn. unfold present. rewrite Ht. mcbn. rewrite Hn. mcbn. rewrite Hb. mcbn.
  rewrite isDaoMember_run. mcbn. rewrite Hm. mcbn. rewrite He. mcbn.
  destruct (_ || _)%bool in Hmsg |- *;
    [|destruct (_ || _)%bool in Hmsg |- *;
      [|destruct (_ || _)%bool in Hmsg |- *; [|congruence]]];
    subst msg; mcbn; eexists; reflexivity.
Qed.

(** X14.  The revert reasons of the contract's [voteProposal] reach the
    user as the client's own messages.  When the wallet is connected, the
    id is in range, the membership read says member, and the gas
    estimation throws an error whose [reason] is a (non-empty) reason the
    contract's [voteProposal] reverts with, the client's [voteProposal]
    submits nothing and throws: "Voting deadline has passed for this
    proposal." for "deadline exceeded", "You have already voted on this
    proposal." for "already voted", "You are not a DAO member. Please join
    the DAO first." for "not a member of pool". *)
Theorem vote_revert_reason_reported
        (m : Dao.Msg) (id : N) (v : Dao.Vote) (st : Dao.State) (r : string)
        (a : string) (n pid vote : Z) (e : Error) (w : World) :
  Dao.voteProposal m id v st = Dao.Revert r ->
  r <> "" ->
  reason e = r ->
  WalletConnects env a ->
  (forall k, numProposal env k = Ok n) ->
  1 <= pid <= n ->
  (forall k, saysMember (addressToUser env k a) = true) ->
  (forall k, estimateGas env k (CVoteProposal pid vote) None = Throw e) ->
  existsb is_send (effects (voteProposal env pid vote w)) = false
  /\ exists msg,
      result (voteProposal env pid vote w) = Throw (new_Error msg)
      /\ ((r = "deadline exceeded"
           /\ msg = "Voting deadline has passed for this proposal.")
          \/ (r = "already voted"
              /\ msg = "You have already voted on this proposal.")
          \/ (r = "not a member of pool"
              /\ msg = "You are not a DAO member. Please join the DAO first.")).
Proof.
  intros Hrev Hne Hreason Hw Hn Hrange Hm He.
  apply Dao_voteProposal_reasons in Hrev.
  assert (Hmsg : estimateErrorMessage e = r).
  { unfold estimateErrorMessage, or_else. rewrite Hreason.
    destruct r; [congruence|reflexivity]. }
  pose proof (voteProposal_estimate_throws a n pid vote e w Hw Hn Hrange Hm He) as Hrun.
  rewrite Hmsg in Hrun.
  destruct Hrev as [-> | [-> | [-> | ->] ] ]; [congruence| | |];
    destruct (Hrun _ eq_refl ltac:(discriminate)) as (w' & ->);
    (split; [reflexivity|]); eexists; (split; [reflexivity|]); auto.
Qed.


(** [executeProposal] up to the gas estimation, which throws [e]. *)
Lemma executeProposal_estimate_throws (a : string) (n pid : Z) (e : Error) (w : World) :
  WalletConnects env a ->
  (forall k, numProposal env k = Ok n) ->
  1 <= pid <= n ->
  (forall k, estimateGas env k (CExecuteProposal pid) None = Throw e) ->
  forall msg,
    (let reason := or_else (reason e) (or_else (message e) "Unknown error") in
     if (includes "already executed" reason || includes "executed" reason)%bool
     then "This proposal has already been executed"
     else if (includes "not a member" reason || includes "onlyMember" reason)%bool
     then "You must be a DAO member to execute proposals"
     else "") = msg ->
    msg <> "" ->
    exists w',
      executeProposal env pid w =
        (Throw (new_Error ("Failed to execute proposal: " +:+ msg)), w',
         [EthChainId; EthRequestAccounts; GetSigner; SignerGetAddress; ReadNumProposal;
          EstimateGas (CExecuteProposal pid) None (Throw e)]).
Proof.
  intros Hw Hn Hrange He msg Hmsg Hne. pose proof Hw as [Heth Hr Hs Ha Ht].
  assert (Hb : ((pid <? 1) || (n <? pid))%bool = false).
  { apply orb_false_iff. split; apply Z.ltb_ge; lia. }
  unfold executeProposal. unfold bind at 1. rewrite (connectWithMetamask_run env a w Hw).
  unfold getContract, getReadOnlyContract, checkProposalId. unfold_m. mcbn.
  erewrite getCurrentAddress_signer by (try exact Hw; reflexivity).
  mcbn. unfold present. rewrite Ht. mcbn. rewrite Hn. mcbn. rewrite Hb. mcbn.
  rewrite He. mcbn. cbv zeta in Hmsg.
  destruct (_ || _)%bool in Hmsg |- *;
    [|destruct (_ || _)%bool in Hmsg |- *; [|congruence]];
    subst msg; mcbn; eexists; reflexivity.
Qed.

(** X15.  The revert reasons of the contract's [executeProposal] as the
    client's [executeProposal] reports them after a failed estimate: the
    message of the inner handler, prefixed by the outer one with "Failed to
    execute proposal: "; nothing is submitted. *)
Theorem execute_revert_reason_reported
        (m : Dao.Msg) (id : N) (st : Dao.State) (r : string)
        (a : string) (n pid : Z) (e : Error) (w : World) :
  Dao.executeProposal m id st = Dao.Revert r ->
  r <> "" ->
  reason e = r ->
  WalletConnects env a ->
  (forall k, numProposal env k = Ok n) ->
  1 <= pid <= n ->
  (forall k, estimateGas env k (CExecuteProposal pid) None = Throw e) ->
  existsb is_send (effects (executeProposal env pid w)) = false
  /\ exists msg,
      result (executeProposal env pid w) = Throw (new_Error msg)
      /\ ((r = "proposal already executed"
           /\ msg = "Failed to execute proposal: This proposal has already been executed")
          \/ (r = "not a member of pool"
              /\ msg = "Failed to execute proposal: You must be a DAO member to execute proposals")).
Proof.
  intros Hrev Hne Hreason Hw Hn Hrange He.
  apply Dao_executeProposal_reasons in Hrev.
  assert (Hmsg : or_else (reason e) (or_else (message e) "Unknown error") = r).
  { unfold or_else at 1. rewrite Hreason. destruct r; [congruence|reflexivity]. }
  pose proof (executeProposal_estimate_throws a n pid e w Hw Hn Hrange He) as Hrun.
  cbv zeta in Hrun. rewrite Hmsg in Hrun.
  destruct Hrev as [-> | [-> | ->] ]; [congruence| |];
    destruct (Hrun _ eq_refl ltac:(discriminate)) as (w' & ->);
    (split; [reflexivity|]); eexists; (split; [reflexivity|]); auto.
Qed.


(** *** Purchases *)

Ltac quiet_trace :=
  rewrite ?forallb_app; cbn;
  repeat match goal with Q : forallb quiet _ = true |- _ => rewrite Q; clear Q end;
  reflexivity.

Variable daoContractAddress : string.

(** X16.  When every balance the token reports is below [amount], [buyLot]
    fails without estimating or submitting anything: neither the approval
    nor the purchase goes out. *)
Theorem buyLot_needs_balance (amount : Z) (w : World) :
  (forall k a b, balanceOf env k a = Ok b -> b < amount) ->
  forallb quiet (effects (buyLot env daoContractAddress amount w)) = true
  /\ forall tx, result (buyLot env daoContractAddress amount w) <> Ok tx.
Proof.
  intros Hbal.
  unfold buyLot, checkUSDCBalance, approveUSDC, estimateOr, present, result.
  run_cases;
    try match goal with
        | Hb : balanceOf env _ _ = Ok ?b, Hle : negb (amount <=? ?b) = false |- _ =>
          exfalso; apply Hbal in Hb; apply negb_false_iff, Z.leb_le in Hle; lia
        end.
  all: split; [quiet_trace|discriminate].
Qed.

(** X17.  When every allowance the token reports covers [amount],
    [approveUSDC] estimates and submits nothing, and never returns a
    transaction. *)
Theorem approveUSDC_skips_when_allowed (amount : Z) (w : World) :
  (forall k o s x, allowance env k o s = Ok x -> amount <= x) ->
  forallb quiet (effects (approveUSDC env daoContractAddress amount w)) = true
  /\ forall tx, result (approveUSDC env daoContractAddress amount w) <> Ok (Some tx).
Proof.
  intros Hal.
  unfold approveUSDC, estimateOr, present, result.
  run_cases;
    try match goal with
        | Ha : allowance env _ _ _ = Ok ?x, Hle : (amount <=? ?x) = false |- _ =>
          exfalso; apply Hal in Ha; apply Z.leb_gt in Hle; lia
        end.
  all: split; [quiet_trace|discriminate].
Qed.

End Gateway.

Lemma scenario_wallet_reverts r : WalletConnects (env_reverts r) Scenario.alice.
Proof. constructor; intros; reflexivity. Qed.

Lemma vote_revert_reason_reported_witness :
  let m := Dao.mk_Msg Scenario.dave 0 4000 in
  Dao.voteProposal m 1 Dao.nay ScenarioMore.st_voted = Dao.Revert "already voted"
  /\ result (voteProposal (env_reverts "already voted") 1 1 Scenario.world0)
     = Throw (new_Error "You have already voted on this proposal.")
  /\ existsb is_send (effects (voteProposal (env_reverts "already voted") 1 1
                                 Scenario.world0)) = false.
Proof.
  intros m.
  assert (Hrev : Dao.voteProposal m 1 Dao.nay ScenarioMore.st_voted
                 = Dao.Revert "already voted") by (vm_compute; reflexivity).
  split; [exact Hrev|].
  destruct (vote_revert_reason_reported (env_reverts "already voted")
              m 1%N Dao.nay ScenarioMore.st_voted "already voted" Scenario.alice 2 1 1
              (revertError "already voted") Scenario.world0 Hrev)
    as (Hs & msg & Hr & Hcases).
  - discriminate.
  - reflexivity.
  - apply scenario_wallet_reverts.
  - reflexivity.
  - lia.
  - reflexivity.
  - reflexivity.
  - split; [|exact Hs]. rewrite Hr.
    destruct Hcases as [(H & _)|[(_ & ->)|(H & _)]]; [discriminate H|reflexivity|discriminate H].
Defined.

Lemma execute_revert_reason_reported_witness :
  let m := Dao.mk_Msg 99%N 0 4000 in
  Dao.executeProposal m 1 Scenario.st_two = Dao.Revert "not a member of pool"
  /\ result (executeProposal (env_reverts "not a member of pool") 1 Scenario.world0)
     = Throw (new_Error
                "Failed to execute proposal: You must be a DAO member to execute proposals")
  /\ existsb is_send (effects (executeProposal (env_reverts "not a member of pool") 1
                                 Scenario.world0)) = false.
Proof.
  intros m.
  assert (Hrev : Dao.executeProposal m 1 Scenario.st_two
                 = Dao.Revert "not a member of pool") by (vm_compute; reflexivity).
  split; [exact Hrev|].
  destruct (execute_revert_reason_reported (env_reverts "not a member of pool")
              m 1%N Scenario.st_two "not a member of pool" Scenario.alice 2 1
              (revertError "not a member of pool") Scenario.world0 Hrev)
    as (Hs & msg & Hr & Hcases).
  - discriminate.
  - reflexivity.
  - apply scenario_wallet_reverts.
  - reflexivity.
  - lia.
  - reflexivity.
  - split; [|exact Hs]. rewrite Hr.
    destruct Hcases as [(H & _)|(_ & ->)]; [discriminate H|reflexivity].
Defined.

Lemma buyLot_needs_balance_witness :
  (forall k a b, balanceOf Scenario.env_member k a = Ok b -> b < 6000000)
  /\ forallb quiet (effects (buyLot Scenario.env_member Scenario.dao 6000000
                               Scenario.world0)) = true
  /\ result (buyLot Scenario.env_member Scenario.dao 6000000 Scenario.world0)
     = Throw (new_Error "Insufficient mUSDC balance. Please ensure you have enough tokens.").
Proof.
  assert (H : forall k a b, balanceOf Scenario.env_member k a = Ok b -> b < 6000000).
  { intros k a b [= <-]. reflexivity. }
  split; [exact H|].
  split; [|vm_compute; reflexivity].
  apply (buyLot_needs_balance Scenario.env_member Scenario.dao 6000000 Scenario.world0 H).
Defined.

Lemma approveUSDC_skips_when_allowed_witness :
  (forall k o s x, allowance env_allowed k o s = Ok x -> 100 <= x)
  /\ forallb quiet (effects (approveUSDC env_allowed Scenario.dao 100
                               Scenario.world0)) = true
  /\ result (approveUSDC env_allowed Scenario.dao 100 Scenario.world0) = Ok None.
Proof.
  assert (H : forall k o s x, allowance env_allowed k o s = Ok x -> 100 <= x).
  { intros k o s x [= <-]. lia. }
  split; [exact H|].
  split; [|vm_compute; reflexivity].
  apply (approveUSDC_skips_when_allowed env_allowed Scenario.dao 100 Scenario.world0 H).
Defined.

End ClientErrors.

(** ** The mirror store and the listings *)

Module ClientMirror.

Import Js Client ClientMore ScenarioClient JsProps ClientProps ClientTraces.
Local Open Scope list_scope.
Local Open Scope Z_scope.

(** *** Updates of the proposal table *)

Lemma update_where_rows pid f t :
  (forall r, proposal_id (f r) = proposal_id r) ->
  rows_with pid (update_where pid f t) = map f (rows_with pid t).
Proof.
  intros Hf. unfold rows_with, update_where.
  induction t as [|r t IH]; [reflexivity|].
  cbn [map]. rewrite !filter_cons.
  destruct (proposal_id r =? pid) eqn:E.
  - apply Z.eqb_eq in E. rewrite !decide_True by (rewrite ?Hf; exact E).
    cbn [map]. by rewrite IH.
  - apply Z.eqb_neq in E. rewrite !decide_False by exact E. exact IH.
Qed.

Lemma update_where_other pid q f t :
  (forall r, proposal_id (f r) = proposal_id r) ->
  q <> pid ->
  rows_with q (update_where pid f t) = rows_with q t.
Proof.
  intros Hf Hne. unfold rows_with, update_where.
  induction t as [|r t IH]; [reflexivity|].
  cbn [map]. rewrite !filter_cons.
  destruct (proposal_id r =? pid) eqn:E.
  - apply Z.eqb_eq in E.
    rewrite !decide_False by (rewrite ?Hf; congruence). exact IH.
  - destruct (decide (proposal_id r = q)); by rewrite IH.
Qed.

Lemma update_where_absent pid f t :
  rows_with pid t = [] -> update_where pid f t = t.
Proof.
  unfold rows_with, update_where. induction t as [|r t IH]; [reflexivity|].
  rewrite filter_cons. destruct (decide (proposal_id r = pid)) as [E|E]; [discriminate|].
  intros H. cbn [map]. apply Z.eqb_neq in E. rewrite E. by rewrite IH.
Qed.

Lemma update_where_ids pid f t :
  (forall r, proposal_id (f r) = proposal_id r) ->
  map proposal_id (update_where pid f t) = map proposal_id t.
Proof.
  intros Hf. unfold update_where. induction t as [|r t IH]; [reflexivity|].
  cbn [map]. rewrite IH. f_equal. destruct (_ =? _); [apply Hf|reflexivity].
Qed.

Section Gateway.

Variable env : Env.

(** *** Runs of the mirror functions when the store answers *)

Lemma getProposalFromSupabase_run pid w :
  db_error env (tick w) = None ->
  getProposalFromSupabase env pid w =
    (Ok (match select_proposal pid (dao_proposals w) with
         | inr (Some data) => Some (rowToProposal (dateNow env (S (tick w)) / 1000) data)
         | _ => None
         end),
     set_tick (S (tick w)) w, [Db (DbSelectProposal pid)]).
Proof.
  intros Hdb. unfold getProposalFromSupabase. unfold_m. mcbn. rewrite Hdb. mcbn.
  destruct (select_proposal _ _) as [e|[r|]]; mcbn; try reflexivity.
  by destruct (String.eqb _ _).
Qed.

Lemma getProposalsFromSupabase_run w :
  db_error env (tick w) = None ->
  getProposalsFromSupabase env w =
    (Ok (map (rowToProposal (dateNow env (S (tick w)) / 1000))
             (select_proposals (dao_proposals w))),
     set_tick (S (tick w)) w, [Db DbSelectProposals]).
Proof.
  intros Hdb. unfold getProposalsFromSupabase. unfold_m. mcbn. rewrite Hdb. reflexivity.
Qed.

Lemma updateProposalVotes_run pid y n w :
  db_error env (tick w) = None ->
  updateProposalVotes env pid y n w =
    (Ok true,
     set_dao_proposals
       (update_where pid (set_votes y n (dateNow env (tick w))) (dao_proposals w))
       (set_tick (S (tick w)) w),
     [Db (DbUpdateVotes pid)]).
Proof.
  intros Hdb. unfold updateProposalVotes. unfold_m. mcbn. rewrite Hdb. reflexivity.
Qed.

Lemma updateProposalExecution_run pid b w :
  db_error env (tick w) = None ->
  updateProposalExecution env pid b w =
    (Ok true,
     set_dao_proposals
       (update_where pid (set_row_executed b (dateNow env (tick w))) (dao_proposals w))
       (set_tick (S (tick w)) w),
     [Db (DbUpdateExecution pid)]).
Proof.
  intros Hdb. unfold updateProposalExecution. unfold_m. mcbn. rewrite Hdb. reflexivity.
Qed.

(** X18.  Store, then read.  With unique ids in the table and a store
    that answers, a proposal written by [storeProposalInSupabase] is read
    back by [getProposalFromSupabase] with the same id, terms and summary,
    the deadline in seconds it was stored with (held as a date in between),
    the creator's address in lower case, zero votes, not executed, and status
    [voting] or [closed] by the clock alone. *)
Theorem stored_proposal_reads_back
        (pid l p m : Z) (s u : string) (d : Z) (h : string) (w : World) :
  unique_ids (dao_proposals w) ->
  (forall n, db_error env n = None) ->
  - 8640000000000 <= d <= 8640000000000 ->
  let w1 := final (storeProposalInSupabase env pid l p m s u d h w) in
  let now := dateNow env (S (tick w1)) / 1000 in
  result (getProposalFromSupabase env pid w1) =
    Ok (Some {| id := toString pid;
                proposalId := pid;
                lotSize := l;
                sharePrice := p;
                maxPerInvestor := m;
                proposalSummary := s;
                deadline := d;
                user := toLowerCase u;
                yayVotes := 0;
                nayVotes := 0;
                executed := false;
                status := if d <=? now then closed else voting;
                createdAt := dateNow env (tick w);
                votingEndsAt := d * 1000 |}).
Proof.
  intros Hu Hdb Hd w1 now. subst w1 now. apply validDate_seconds in Hd.
  rewrite (storeProposalInSupabase_run env) by (try exact Hd; apply Hdb).
  unfold final. cbn [fst snd].
  rewrite getProposalFromSupabase_run by apply Hdb.
  unfold result. cbn [fst snd dao_proposals set_dao_proposals set_tick tick].
  unfold select_proposal.
  pose proof (upsert_rows_with
                (newProposalRow pid l p m s u d h (dateNow env (tick w)))
                (dao_proposals w) Hu) as Hrows.
  cbn [proposal_id newProposalRow] in Hrows. rewrite Hrows.
  unfold rowToProposal, rowStatus. cbn [newProposalRow proposal_id lot_size share_price
    max_per_investor proposal_summary creator_address row_deadline yay_votes nay_votes
    row_executed created_at default].
  rewrite Z.div_mul by discriminate. reflexivity.
Qed.


Lemma vote_update_reads_back (pid y n : Z) (r : ProposalRow) (w : World) :
  (forall k, db_error env k = None) ->
  rows_with pid (dao_proposals w) = [r] ->
  let w1 := final (updateProposalVotes env pid y n w) in
  let now := dateNow env (S (tick w1)) / 1000 in
  result (updateProposalVotes env pid y n w) = Ok true
  /\ result (getProposalFromSupabase env pid w1)
     = Ok (Some (rowToProposal now (set_votes y n (dateNow env (tick w)) r)))
  /\ yayVotes (rowToProposal now (set_votes y n (dateNow env (tick w)) r)) = y
  /\ nayVotes (rowToProposal now (set_votes y n (dateNow env (tick w)) r)) = n
  /\ forall q, q <> pid ->
       rows_with q (dao_proposals w1) = rows_with q (dao_proposals w).
Proof.
  intros Hdb Hrow w1 now. subst w1 now.
  rewrite updateProposalVotes_run by apply Hdb.
  unfold final, result. cbn [fst snd].
  rewrite getProposalFromSupabase_run by apply Hdb.
  cbn [fst snd dao_proposals set_dao_proposals set_tick tick].
  unfold select_proposal. rewrite update_where_rows by reflexivity. rewrite Hrow.
  cbn [map]. repeat split.
  intros q Hq. by apply update_where_other.
Qed.

(** X20.  An update of a proposal the mirror does not hold reports
    success: [updateProposalVotes] and [updateProposalExecution] return
    true and leave the table as it was, and the read of that id still
    returns null. *)
Theorem update_of_missing_row_reports_success (pid y n : Z) (b : bool) (w : World) :
  (forall k, db_error env k = None) ->
  rows_with pid (dao_proposals w) = [] ->
  result (updateProposalVotes env pid y n w) = Ok true
  /\ dao_proposals (final (updateProposalVotes env pid y n w)) = dao_proposals w
  /\ result (updateProposalExecution env pid b w) = Ok true
  /\ dao_proposals (final (updateProposalExecution env pid b w)) = dao_proposals w
  /\ result (getProposalFromSupabase env pid w) = Ok None.
Proof.
  intros Hdb Hrow.
  rewrite updateProposalVotes_run, updateProposalExecution_run,
    getProposalFromSupabase_run by apply Hdb.
  unfold final, result. cbn [fst snd dao_proposals set_dao_proposals].
  rewrite !update_where_absent by exact Hrow.
  unfold select_proposal. rewrite Hrow. repeat split.
Qed.

Lemma executed_row_is_marketplace (pid : Z) (r : ProposalRow) (w : World) :
  (forall k, db_error env k = None) ->
  rows_with pid (dao_proposals w) = [r] ->
  let w1 := final (updateProposalExecution env pid true w) in
  exists p,
    result (getProposalFromSupabase env pid w1) = Ok (Some p)
    /\ executed p = true
    /\ status p = marketplace
    /\ yayVotes p = default 0 (yay_votes r)
    /\ nayVotes p = default 0 (nay_votes r)
    /\ deadline p = row_deadline r / 1000.
Proof.
  intros Hdb Hrow w1. subst w1.
  rewrite updateProposalExecution_run by apply Hdb.
  unfold final, result. cbn [fst snd].
  rewrite getProposalFromSupabase_run by apply Hdb.
  cbn [fst snd dao_proposals set_dao_proposals set_tick tick].
  unfold select_proposal. rewrite update_where_rows by reflexivity. rewrite Hrow.
  cbn [map]. eexists. split; [reflexivity|].
  unfold rowToProposal, rowStatus, set_row_executed.
  cbn [executed status yayVotes nayVotes deadline row_executed yay_votes nay_votes
       row_deadline default].
  repeat split. by destruct (_ <=? _).
Qed.

(** X19.  Updates read back.  On a table holding exactly one row for the
    id (the store answering): after [updateProposalVotes] the read returns
    the new tallies and leaves the executed flag, deadline and summary as
    they were, and rows of other ids are untouched; after
    [updateProposalExecution(id, true)] the read returns [executed] and
    status [marketplace], whatever the deadline, with tallies and deadline
    unchanged. *)
Theorem mirror_updates_read_back (pid y n : Z) (r : ProposalRow) (w : World) :
  (forall k, db_error env k = None) ->
  rows_with pid (dao_proposals w) = [r] ->
  let wv := final (updateProposalVotes env pid y n w) in
  let we := final (updateProposalExecution env pid true w) in
  (exists p,
     result (getProposalFromSupabase env pid wv) = Ok (Some p)
     /\ yayVotes p = y /\ nayVotes p = n
     /\ executed p = default false (row_executed r)
     /\ deadline p = row_deadline r / 1000
     /\ proposalSummary p = proposal_summary r)
  /\ (forall q, q <> pid -> rows_with q (dao_proposals wv) = rows_with q (dao_proposals w))
  /\ (exists p,
        result (getProposalFromSupabase env pid we) = Ok (Some p)
        /\ executed p = true
        /\ status p = marketplace
        /\ yayVotes p = default 0 (yay_votes r)
        /\ nayVotes p = default 0 (nay_votes r)
        /\ deadline p = row_deadline r / 1000).
Proof.
  intros Hdb Hrow wv we. subst wv we.
  destruct (vote_update_reads_back pid y n r w Hdb Hrow) as (_ & Hread & Hy & Hn & Hother).
  split; [|split; [exact Hother|exact (executed_row_is_marketplace pid r w Hdb Hrow)]].
  eexists. split; [exact Hread|]. repeat split.
Qed.

(** X21.  When the store fails a query, the writes
    ([storeProposalInSupabase], [updateProposalVotes],
    [updateProposalExecution], [setDaoMembership]) return false and leave
    their table unchanged, and the reads return null, the empty list and
    false. *)
Theorem store_failure_changes_nothing
        (pid l p m d y n : Z) (s u h a : string) (b : bool) (e : Error) (w : World) :
  db_error env (tick w) = Some e ->
  (result (storeProposalInSupabase env pid l p m s u d h w) = Ok false
   /\ dao_proposals (final (storeProposalInSupabase env pid l p m s u d h w))
      = dao_proposals w)
  /\ (result (updateProposalVotes env pid y n w) = Ok false
      /\ dao_proposals (final (updateProposalVotes env pid y n w)) = dao_proposals w)
  /\ (result (updateProposalExecution env pid b w) = Ok false
      /\ dao_proposals (final (updateProposalExecution env pid b w)) = dao_proposals w)
  /\ (result (setDaoMembership env a b w) = Ok false
      /\ dao_members (final (setDaoMembership env a b w)) = dao_members w)
  /\ result (getProposalFromSupabase env pid w) = Ok None
  /\ result (getProposalsFromSupabase env w) = Ok []
  /\ result (getDaoMembership env a w) = Ok false.
Proof.
  intros Hdb.
  unfold storeProposalInSupabase, updateProposalVotes, updateProposalExecution,
    setDaoMembership, getProposalFromSupabase, getProposalsFromSupabase,
    getDaoMembership, result, final.
  unfold_m. mcbn. rewrite Hdb. mcbn.
  destruct (validDate (d * 1000)); mcbn; rewrite ?Hdb; repeat split.
Qed.


(** *** The membership table *)

Lemma members_with_absent a t :
  existsb (fun r => String.eqb (wallet_address r) a) t = false -> members_with a t = [].
Proof.
  unfold members_with. induction t as [|r t IH]; simpl; [reflexivity|].
  intros H. apply orb_false_iff in H as [Hr Ht]. apply String.eqb_neq in Hr.
  rewrite filter_cons. destruct (decide (wallet_address r = a)); [contradiction|]. auto.
Qed.

Lemma upsert_members_with row t :
  unique_members t ->
  members_with (wallet_address row) (upsert_member row t) = [row].
Proof.
  unfold upsert_member, unique_members. intros Hu.
  destruct (existsb _ t) eqn:Hex.
  - induction t as [|r t IH]; [discriminate|].
    simpl in Hu. apply NoDup_cons in Hu as [Hnotin Hu].
    simpl in Hex. simpl. unfold members_with. rewrite filter_cons.
    destruct (String.eqb (wallet_address r) (wallet_address row)) eqn:E.
    + apply String.eqb_eq in E. rewrite decide_True by reflexivity. f_equal.
      assert (Hab : existsb (fun r0 => String.eqb (wallet_address r0) (wallet_address row)) t
                    = false).
      { destruct (existsb _ t) eqn:E2; [|reflexivity].
        apply existsb_exists in E2 as (r0 & Hin & He). apply String.eqb_eq in He.
        exfalso. apply Hnotin. rewrite E, <- He.
        apply list_elem_of_In, in_map. exact Hin. }
      clear -Hab. induction t as [|r' t IH]; [reflexivity|].
      simpl in Hab. apply orb_false_iff in Hab as [H1 H2].
      simpl. rewrite H1. rewrite filter_cons.
      apply String.eqb_neq in H1. rewrite decide_False by assumption. auto.
    + apply String.eqb_neq in E. rewrite decide_False by assumption.
      simpl in Hex. apply IH; assumption.
  - unfold members_with. rewrite filter_app. fold (members_with (wallet_address row) t).
    rewrite members_with_absent by assumption.
    simpl. rewrite filter_cons, decide_True by reflexivity. reflexivity.
Qed.

(** X22.  The membership mirror is keyed by the lower-cased address: what
    [setDaoMembership] wrote for an address, [getDaoMembership] returns for
    every address with the same lower-case form (unique addresses in the
    table, the store answering). *)
Theorem membership_mirror_round_trip (a a' : string) (b : bool) (w : World) :
  unique_members (dao_members w) ->
  (forall k, db_error env k = None) ->
  toLowerCase a' = toLowerCase a ->
  result (setDaoMembership env a b w) = Ok true
  /\ result (getDaoMembership env a' (final (setDaoMembership env a b w))) = Ok b.
Proof.
  intros Hu Hdb Hlow.
  rewrite setDaoMembership_run. rewrite Hdb. unfold result, final. cbn [fst snd].
  split; [reflexivity|].
  unfold getDaoMembership. unfold_m. mcbn. rewrite Hdb. mcbn.
  unfold select_member. rewrite Hlow.
  pose proof (upsert_members_with (memberRow env a b w) (dao_members w) Hu) as Hrows.
  cbn [wallet_address memberRow] in Hrows. rewrite Hrows. reflexivity.
Qed.

(** *** Listings *)

Lemma id_desc_total : Total id_desc.
Proof. intros x y. unfold id_desc. lia. Qed.

Lemma proposal_desc_total : Total proposal_desc.
Proof. intros x y. unfold proposal_desc. lia. Qed.

Lemma rows_sorted now t :
  Sorted proposal_desc (map (rowToProposal now) (select_proposals t)).
Proof.
  assert (H : Sorted id_desc (select_proposals t))
    by exact (@Sorted_merge_sort _ id_desc _ id_desc_total t).
  induction H as [|r rows Hs IH Hhd]; cbn [map]; constructor; [exact IH|].
  destruct Hhd; cbn [map]; constructor. assumption.
Qed.

Lemma getProposalsFromSupabase_sorted w ps :
  result (getProposalsFromSupabase env w) = Ok ps -> Sorted proposal_desc ps.
Proof.
  unfold getProposalsFromSupabase, result. unfold_m. mcbn.
  destruct (db_error env (tick w)); mcbn; intros [= <-]; [constructor|apply rows_sorted].
Qed.

(** X23.  [getAllProposals] always returns a list, sorted by descending
    proposal id, whether it comes from the mirror or from the chain, and
    whatever fails on the way. *)
Theorem getAllProposals_sorted (w : World) :
  exists ps, result (getAllProposals env w) = Ok ps /\ Sorted proposal_desc ps.
Proof.
  unfold getAllProposals, result, getReadOnlyContract. unfold_m. mcbn.
  pose proof (getProposalsFromSupabase_sorted w) as Hs. unfold result in Hs.
  destruct (getProposalsFromSupabase env w) as [[[ps|e] w1] t1]; mcbn.
  - destruct ps as [|p ps]; [|eexists; split; [reflexivity|by apply Hs]].
    destruct (numProposal env (tick (ensure_provider w1))) as [n|e]; mcbn;
      [|eexists; split; [reflexivity|constructor]].
    destruct (n =? 0); mcbn; [eexists; split; [reflexivity|constructor]|].
    destruct (collectProposals env _ _ _ _) as [[[l|e] w2] t2]; mcbn;
      eexists; (split; [reflexivity|]); [|constructor].
    exact (@Sorted_merge_sort _ proposal_desc _ proposal_desc_total l).
  - eexists. split; [reflexivity|constructor].
Qed.

(** X24.  The mirror comes first: when the store answers and the table
    is not empty, [getAllProposals] performs the one mirror query and no
    chain read, and returns what [getProposalsFromSupabase] returns, one
    proposal per row. *)
Theorem getAllProposals_prefers_mirror (w : World) :
  db_error env (tick w) = None ->
  dao_proposals w <> [] ->
  effects (getAllProposals env w) = [Db DbSelectProposals]
  /\ result (getAllProposals env w) = result (getProposalsFromSupabase env w)
  /\ exists ps, result (getAllProposals env w) = Ok ps
                /\ map proposalId ps ≡ₚ map proposal_id (dao_proposals w).
Proof.
  intros Hdb Hne.
  unfold getAllProposals, result, effects. unfold_m.
  rewrite getProposalsFromSupabase_run by exact Hdb. mcbn.
  assert (Hperm : select_proposals (dao_proposals w) ≡ₚ dao_proposals w)
    by apply merge_sort_Permutation.
  destruct (select_proposals (dao_proposals w)) as [|r rs] eqn:E.
  - apply Permutation_nil_l in Hperm. congruence.
  - mcbn. split; [reflexivity|]. split; [reflexivity|].
    eexists. split; [reflexivity|].
    rewrite <- Hperm. change (rowToProposal ?n r :: map (rowToProposal ?n) rs)
      with (map (rowToProposal n) (r :: rs)).
    rewrite map_map. reflexivity.
Qed.

Lemma status_marketplace_iff_executed now data :
  status_eqb (status (rowToProposal now data)) marketplace
  = default false (row_executed data).
Proof.
  unfold rowToProposal, rowStatus. cbn [status].
  destruct (_ <=? _), (default false (row_executed data)); reflexivity.
Qed.

Lemma filter_map_rows now (rows : list ProposalRow) :
  List.filter (fun p => status_eqb (status p) marketplace) (map (rowToProposal now) rows)
  = map (rowToProposal now) (List.filter (fun r => default false (row_executed r)) rows).
Proof.
  induction rows as [|r rows IH]; [reflexivity|].
  cbn [map List.filter]. rewrite status_marketplace_iff_executed.
  destruct (default false (row_executed r)); cbn [map]; by rewrite IH.
Qed.

(** X25.  The marketplace page lists exactly the executed rows.
    [fetchProposals] always hands a list to the page, every proposal in it
    is executed with status [marketplace]; when the store answers it is the
    ordered listing restricted to the rows whose [executed] column is
    true. *)
Theorem marketplace_lists_executed (w : World) :
  (exists l, result (fetchMarketplaceProposals env w) = Ok (Some l)
             /\ forall p, In p l -> executed p = true /\ status p = marketplace)
  /\ (db_error env (tick w) = None ->
      result (fetchMarketplaceProposals env w)
      = Ok (Some (map (rowToProposal (dateNow env (S (tick w)) / 1000))
                      (List.filter (fun r => default false (row_executed r))
                                   (select_proposals (dao_proposals w)))))).
Proof.
  unfold fetchMarketplaceProposals, result. unfold_m. split.
  - unfold getProposalsFromSupabase. unfold_m. mcbn.
    destruct (db_error env (tick w)); mcbn.
    + eexists. split; [reflexivity|]. intros p [].
    + eexists. split; [reflexivity|]. intros p Hin.
      rewrite filter_map_rows in Hin. apply in_map_iff in Hin as (r & <- & Hin).
      apply filter_In in Hin as [_ Hex].
      pose proof (status_marketplace_iff_executed
                    (dateNow env (S (tick w)) / 1000) r) as Hst.
      rewrite Hex in Hst. split; [exact Hex|].
      destruct (status _); [discriminate..|reflexivity].
  - intros Hdb. rewrite getProposalsFromSupabase_run by exact Hdb. mcbn.
    by rewrite filter_map_rows.
Qed.

End Gateway.

(** *** The tabs of the DAO page *)

Lemma matchesSearch_empty p : matchesSearch "" p = true.
Proof. unfold matchesSearch. cbn. by destruct (toLowerCase _). Qed.

Lemma countStatus_split ps :
  (countStatus voting ps + countStatus closed ps + countStatus marketplace ps
   = length ps)%nat.
Proof.
  unfold countStatus. induction ps as [|p ps IH]; [reflexivity|].
  cbn [List.filter length]. destruct (status p); cbn [status_eqb length]; lia.
Qed.

(** X26.  The tab counters of the DAO page partition the proposals:
    voting + closed + marketplace = total, and with an empty search box
    each counter is the length of the list its tab shows. *)
Theorem proposalCounts_partition (ps : list Proposal) :
  (count_voting (proposalCounts ps) + count_closed (proposalCounts ps)
   + count_marketplace (proposalCounts ps) = count_total (proposalCounts ps))%nat
  /\ count_total (proposalCounts ps) = length (filteredProposals ps "" TabAll)
  /\ forall s,
       length (filteredProposals ps "" (TabStatus s))
       = match s with
         | voting => count_voting (proposalCounts ps)
         | closed => count_closed (proposalCounts ps)
         | marketplace => count_marketplace (proposalCounts ps)
         end.
Proof.
  split; [apply countStatus_split|]. split.
  - unfold filteredProposals, proposalCounts. cbn [count_total].
    induction ps as [|p ps IH]; [reflexivity|].
    cbn [List.filter]. rewrite matchesSearch_empty. cbn [length]. by rewrite <- IH.
  - intros s.
    assert (H : length (filteredProposals ps "" (TabStatus s)) = countStatus s ps).
    { unfold filteredProposals, countStatus. f_equal.
      apply List.filter_ext. intros p. rewrite matchesSearch_empty. apply andb_true_r. }
    rewrite H. by destruct s.
Qed.

Lemma stored_proposal_reads_back_witness :
  unique_ids (dao_proposals world_rows)
  /\ (forall n, db_error Scenario.env_member n = None)
  /\ result (getProposalFromSupabase Scenario.env_member 2
               (final (storeProposalInSupabase Scenario.env_member 2 7 3 1 "redo"
                         Scenario.alice 3000 "0x03" world_rows)))
     = Ok (Some (mk_Proposal "2" 2 7 3 1 "redo" 3000 (toLowerCase Scenario.alice)
                             0 0 false voting 2000000 3000000)).
Proof.
  assert (Hu : unique_ids (dao_proposals world_rows)).
  { unfold unique_ids. cbn. repeat constructor; [|apply not_elem_of_nil].
    intros H. apply list_elem_of_singleton in H. discriminate. }
  split; [exact Hu|]. split; [reflexivity|].
  exact (stored_proposal_reads_back Scenario.env_member 2 7 3 1 "redo" Scenario.alice
           3000 "0x03" world_rows Hu (fun _ => eq_refl) ltac:(lia)).
Defined.

Lemma mirror_updates_read_back_witness :
  rows_with 2 (dao_proposals world_rows) = [row2]
  /\ (exists p,
        result (getProposalFromSupabase Scenario.env_member 2
                  (final (updateProposalVotes Scenario.env_member 2 4 2 world_rows)))
        = Ok (Some p)
        /\ yayVotes p = 4 /\ nayVotes p = 2 /\ executed p = false)
  /\ rows_with 1 (dao_proposals
                    (final (updateProposalVotes Scenario.env_member 2 4 2 world_rows)))
     = [row1]
  /\ (exists p,
        result (getProposalFromSupabase Scenario.env_member 2
                  (final (updateProposalExecution Scenario.env_member 2 true world_rows)))
        = Ok (Some p)
        /\ status p = marketplace /\ deadline p = 900000).
Proof.
  assert (Hrow : rows_with 2 (dao_proposals world_rows) = [row2]) by reflexivity.
  split; [exact Hrow|].
  destruct (mirror_updates_read_back Scenario.env_member 2 4 2 row2 world_rows
              (fun _ => eq_refl) Hrow)
    as ((p & Hr & Hy & Hn & He & _) & Hother & (p' & Hr' & _ & Hs & _ & _ & Hd)).
  split; [exists p; repeat split; assumption|].
  split; [rewrite (Hother 1) by discriminate; reflexivity|].
  exists p'. split; [exact Hr'|]. split; [exact Hs|]. rewrite Hd. reflexivity.
Defined.

Lemma update_of_missing_row_reports_success_witness :
  rows_with 7 (dao_proposals world_rows) = []
  /\ result (updateProposalVotes Scenario.env_member 7 4 2 world_rows) = Ok true
  /\ dao_proposals (final (updateProposalVotes Scenario.env_member 7 4 2 world_rows))
     = [row1; row2]
  /\ result (updateProposalExecution Scenario.env_member 7 true world_rows) = Ok true.
Proof.
  assert (Hrow : rows_with 7 (dao_proposals world_rows) = []) by reflexivity.
  split; [exact Hrow|].
  destruct (update_of_missing_row_reports_success Scenario.env_member 7 4 2 true
              world_rows (fun _ => eq_refl) Hrow) as (H1 & H2 & H3 & _).
  split; [exact H1|]. split; [exact H2|exact H3].
Defined.

Lemma store_failure_changes_nothing_witness :
  db_error env_db_down (tick world_rows) = Some storeDown
  /\ result (storeProposalInSupabase env_db_down 3 1 1 1 "x" Scenario.alice 10 "0x" world_rows)
     = Ok false
  /\ dao_proposals (final (updateProposalExecution env_db_down 2 true world_rows))
     = [row1; row2]
  /\ result (getProposalsFromSupabase env_db_down world_rows) = Ok [].
Proof.
  assert (Hdb : db_error env_db_down (tick world_rows) = Some storeDown) by reflexivity.
  split; [exact Hdb|].
  destruct (store_failure_changes_nothing env_db_down 3 1 1 1 10 0 0 "x" Scenario.alice
              "0x" "" true storeDown world_rows Hdb)
    as ((H1 & _) & _ & (_ & _) & _ & _ & H6 & _).
  split; [exact H1|]. split; [|exact H6].
  destruct (store_failure_changes_nothing env_db_down 2 1 1 1 10 0 0 "x" Scenario.alice
              "0x" "" true storeDown world_rows Hdb)
    as (_ & _ & (_ & H3) & _).
  exact H3.
Defined.

Lemma membership_mirror_round_trip_witness :
  unique_members (dao_members Scenario.world0)
  /\ toLowerCase "0xa11ce0000000000000000000000000000000abcd" = toLowerCase Scenario.alice
  /\ result (getDaoMembership Scenario.env_member
               "0xa11ce0000000000000000000000000000000abcd"
               (final (setDaoMembership Scenario.env_member Scenario.alice true
                                        Scenario.world0)))
     = Ok true.
Proof.
  assert (Hu : unique_members (dao_members Scenario.world0)) by constructor.
  split; [exact Hu|]. split; [reflexivity|].
  exact (proj2 (membership_mirror_round_trip Scenario.env_member Scenario.alice
                  "0xa11ce0000000000000000000000000000000abcd" true Scenario.world0
                  Hu (fun _ => eq_refl) eq_refl)).
Defined.

Lemma getAllProposals_prefers_mirror_witness :
  db_error Scenario.env_member (tick world_rows) = None
  /\ dao_proposals world_rows <> []
  /\ effects (getAllProposals Scenario.env_member world_rows) = [Db DbSelectProposals]
  /\ exists ps, result (getAllProposals Scenario.env_member world_rows) = Ok ps
                /\ map proposalId ps = [2; 1].
Proof.
  split; [reflexivity|]. split; [discriminate|].
  destruct (getAllProposals_prefers_mirror Scenario.env_member world_rows eq_refl
              ltac:(discriminate)) as (He & _ & ps & Hr & _).
  split; [exact He|].
  exists ps. split; [exact Hr|].
  assert (Hc : result (getAllProposals Scenario.env_member world_rows)
               = Ok (map (rowToProposal 2) [row2; row1])) by (vm_compute; reflexivity).
  rewrite Hr in Hc. injection Hc as ->. reflexivity.
Defined.

End ClientMirror.

(** ** Membership and creation flows *)

Module ClientPages.

Import Js Client ClientMore ScenarioClient JsProps ClientProps ClientTraces ClientMirror.
Local Open Scope list_scope.
Local Open Scope Z_scope.

(** Simplification that also leaves the membership helpers folded. *)
Ltac pcbn :=
  cbn -[membershipLoop membershipLoopWith verifyLoop toLowerCase polls
        Z.mul Z.add Z.div toString String.append rangeMessage
        isDaoMember getDaoMembership setDaoMembership joinDao getCurrentAddress].

Ltac or_split H :=
  repeat match type of H with
         | _ \/ _ => destruct H as [H|H]; [try discriminate H|]
         | False => destruct H
         end.

Section Gateway.

Variable env : Env.

(** The address lookup of a page whose wallet exposes account [a]. *)
Lemma getCurrentAddress_accounts (a : string) (rest : list string) (w : World) :
  hasEthereum env = true ->
  (forall n, eth_accounts env n = Ok (a :: rest)) ->
  (forall n, signer_getAddress env n = Ok a) ->
  exists w' tr,
    getCurrentAddress env w = (Ok (Some a), w', tr)
    /\ (page w' = page w /\ dao_members w' = dao_members w
        /\ dao_proposals w' = dao_proposals w)
    /\ forallb passive tr = true
    /\ forallb (fun e => match e with Toast _ _ | Db _ | ReadAddressToUser _ => false
                                    | _ => true end) tr = true.
Proof.
  intros He Hacc Ha.
  unfold getCurrentAddress, initializeProvider, checkEtherlinkNetwork. rewrite He.
  unfold_m. mcbn.
  destruct (signer w); mcbn.
  - rewrite Ha. mcbn. do 2 eexists. split; [reflexivity|]. repeat split.
  - rewrite Hacc. mcbn. destruct (provider w); mcbn.
    + do 2 eexists. split; [reflexivity|]. repeat split.
    + rewrite Hacc. mcbn.
      destruct (eth_chainId env _); mcbn;
        do 2 eexists; (split; [reflexivity|]); repeat split.
Qed.


(** One round of the membership loop: [isDaoMember] never throws, so the
    first attempt settles it. *)
Lemma membershipLoop_reads (a : string) (cached : bool) (w : World) :
  let b := saysMember (addressToUser env (tick w) a) in
  exists w',
    membershipLoop env 3 a cached w =
      (Ok tt, w', [ReadAddressToUser a; Db (DbUpsertMember (toLowerCase a) b)])
    /\ isMember (page w') = b
    /\ isConnected (page w') = isConnected (page w)
    /\ walletAddress (page w') = walletAddress (page w)
    /\ justJoined (page w') = justJoined (page w)
    /\ dao_proposals w' = dao_proposals w
    /\ (db_error env (S (tick w)) = None ->
        exists stamp,
          dao_members w' = upsert_member (mk_MemberRow (toLowerCase a) b stamp)
                                         (dao_members w)).
Proof.
  intros b. subst b. unfold membershipLoop. cbn [membershipLoopWith].
  unfold setIsMember, modify_page. unfold_m.
  rewrite isDaoMember_run. mcbn.
  rewrite setDaoMembership_run. mcbn.
  destruct (db_error env (S (tick w))); mcbn; eexists; (split; [reflexivity|]);
    repeat split; try discriminate.
  all: try (intros _; eexists).
  all: unfold ensure_provider, memberRow; destruct (provider w); reflexivity.
Qed.

Lemma checkWallet_follows_contract (a : string) (rest : list string) (b : bool) (w : World) :
  hasEthereum env = true ->
  (forall n, eth_accounts env n = Ok (a :: rest)) ->
  (forall n, eth_chainId env n = Ok 127823) ->
  truthy a = true ->
  justJoined (page w) = false ->
  (forall n, saysMember (addressToUser env n a) = b) ->
  let w' := final (checkWalletAndMembership env w) in
  isMember (page w') = b
  /\ isConnected (page w') = true
  /\ walletAddress (page w') = a
  /\ loading (page w') = false
  /\ effects (checkWalletAndMembership env w)
     = [EthAccounts; EthChainId; EthAccounts; EthChainId; EthAccounts;
        Db (DbSelectMember (toLowerCase a)); ReadAddressToUser a;
        Db (DbUpsertMember (toLowerCase a) b)]
  /\ ((forall k, db_error env k = None) ->
      unique_members (dao_members w) ->
      exists stamp,
        members_with (toLowerCase a) (dao_members w')
        = [mk_MemberRow (toLowerCase a) b stamp]).
Proof.
  intros He Hacc Hchain Ht Hj Hm w'. subst w'.
  unfold checkWalletAndMembership, checkEtherlinkNetwork, initializeProvider,
    getCurrentAddress, checkEtherlinkNetwork, setLoading, setIsConnected,
    setWalletAddress, setIsMember, modify_page.
  rewrite He. unfold final, effects. unfold_m. mcbn. rewrite !Hacc, !Hchain. mcbn.
  rewrite !Hacc, !Hchain. mcbn. rewrite !Hacc. mcbn. unfold present. rewrite Ht. mcbn.
  rewrite Hj. mcbn.
  match goal with |- context [getDaoMembership env a ?w0] =>
    destruct (getDaoMembership_run env a w0) as (c & ->) end.
  mcbn.
  destruct c; mcbn.
  all: match goal with |- context [membershipLoop _ _ _ ?c ?w0] =>
    destruct (membershipLoop_reads a c w0)
      as (w1 & -> & Hmem & Hcon & Hwal & _ & _ & Hrow) end; mcbn.
  all: rewrite Hm in *.
  all: split; [exact Hmem|]; split; [exact Hcon|]; split; [exact Hwal|].
  all: split; [reflexivity|]; split; [reflexivity|].
  all: intros Hdb Hu; destruct (Hrow (Hdb _)) as (stamp & ->); exists stamp.
  all: cbn [dao_members set_tick set_page set_provider set_signer].
  all: exact (upsert_members_with _ _ Hu).
Qed.


Lemma checkWallet_just_joined (a : string) (rest : list string) (w : World) :
  hasEthereum env = true ->
  (forall n, eth_accounts env n = Ok (a :: rest)) ->
  (forall n, eth_chainId env n = Ok 127823) ->
  truthy a = true ->
  justJoined (page w) = true ->
  let w' := final (checkWalletAndMembership env w) in
  isMember (page w') = isMember (page w)
  /\ justJoined (page w') = false
  /\ walletAddress (page w') = a
  /\ dao_members w' = dao_members w
  /\ effects (checkWalletAndMembership env w)
     = [EthAccounts; EthChainId; EthAccounts; EthChainId; EthAccounts].
Proof.
  intros He Hacc Hchain Ht Hj w'. subst w'.
  unfold checkWalletAndMembership, checkEtherlinkNetwork, initializeProvider,
    getCurrentAddress, checkEtherlinkNetwork, setLoading, setIsConnected,
    setWalletAddress, setIsMember, setJustJoined, modify_page.
  rewrite He. unfold final, effects. unfold_m. mcbn. rewrite !Hacc, !Hchain. mcbn.
  rewrite !Hacc, !Hchain. mcbn. rewrite !Hacc. mcbn. unfold present. rewrite Ht. mcbn.
  rewrite Hj. mcbn. repeat split.
Qed.

Lemma accountsChanged_follows_contract
        (a other : string) (rest others : list string) (b : bool) (w : World) :
  hasEthereum env = true ->
  (forall n, eth_accounts env n = Ok (a :: rest)) ->
  (forall n, signer_getAddress env n = Ok a) ->
  truthy a = true ->
  justJoined (page w) = false ->
  (forall n, saysMember (addressToUser env n a) = b) ->
  let w' := final (handleAccountsChanged env (other :: others) w) in
  isMember (page w') = b
  /\ walletAddress (page w') = a
  /\ ((forall k, db_error env k = None) ->
      unique_members (dao_members w) ->
      exists stamp,
        members_with (toLowerCase a) (dao_members w')
        = [mk_MemberRow (toLowerCase a) b stamp]).
Proof.
  intros He Hacc Ha Ht Hj Hm w'. subst w'.
  destruct (getCurrentAddress_accounts a rest w He Hacc Ha)
    as (w1 & tr & Hrun & (Hp & Hmem & _) & _).
  unfold handleAccountsChanged, final, present, setWalletAddress, setIsMember,
    modify_page, when.
  unfold_m. rewrite Hrun. pcbn. rewrite Ht. pcbn. rewrite Hp, Hj. pcbn.
  match goal with |- context [getDaoMembership env a ?w0] =>
    destruct (getDaoMembership_run env a w0) as (c & ->) end.
  pcbn.
  destruct c; pcbn; rewrite !isDaoMember_run; pcbn; rewrite !setDaoMembership_run;
    pcbn; rewrite !Hm.
  all: match goal with |- context [db_error env ?k] =>
         destruct (db_error env k) eqn:Hdbk end; pcbn.
  all: unfold ensure_provider; pcbn; destruct (provider w1); pcbn.
  all: split; [reflexivity|]; split; [reflexivity|].
  all: intros Hdb Hu; try (rewrite Hdb in Hdbk; discriminate).
  all: eexists; unfold memberRow; rewrite ?Hmem.
  all: exact (upsert_members_with (mk_MemberRow (toLowerCase a) b _) (dao_members w) Hu).
Qed.

(** X27.  The membership the DAO page shows after loading, for a wallet
    on the expected chain that exposes account [a].  Right after a join
    (the [justJoined] flag set) the contract is not consulted: [isMember]
    stays, the flag is reset, the mirror is untouched.  Otherwise the page
    shows what the contract read says, true or false, whatever the mirror
    held, after exactly one contract read, and the mirror row of the
    lower-cased address is overwritten with that answer. *)
Theorem page_load_membership (a : string) (rest : list string) (w : World) :
  hasEthereum env = true ->
  (forall n, eth_accounts env n = Ok (a :: rest)) ->
  (forall n, eth_chainId env n = Ok 127823) ->
  truthy a = true ->
  let w' := final (checkWalletAndMembership env w) in
  let tr := effects (checkWalletAndMembership env w) in
  (justJoined (page w) = true ->
   isMember (page w') = isMember (page w)
   /\ justJoined (page w') = false
   /\ walletAddress (page w') = a
   /\ dao_members w' = dao_members w
   /\ tr = [EthAccounts; EthChainId; EthAccounts; EthChainId; EthAccounts])
  /\ (justJoined (page w) = false ->
      forall b, (forall n, saysMember (addressToUser env n a) = b) ->
      isMember (page w') = b
      /\ isConnected (page w') = true
      /\ walletAddress (page w') = a
      /\ loading (page w') = false
      /\ tr = [EthAccounts; EthChainId; EthAccounts; EthChainId; EthAccounts;
               Db (DbSelectMember (toLowerCase a)); ReadAddressToUser a;
               Db (DbUpsertMember (toLowerCase a) b)]
      /\ ((forall k, db_error env k = None) ->
          unique_members (dao_members w) ->
          exists stamp,
            members_with (toLowerCase a) (dao_members w')
            = [mk_MemberRow (toLowerCase a) b stamp])).
Proof.
  intros He Hacc Hchain Ht w' tr. subst w' tr. split.
  - intros Hj. exact (checkWallet_just_joined a rest w He Hacc Hchain Ht Hj).
  - intros Hj b Hm. exact (checkWallet_follows_contract a rest b w He Hacc Hchain Ht Hj Hm).
Qed.

(** X28.  The account-change listener.  An empty account list resets the
    page (disconnected, no address, not a member) without any call.  A
    non-empty one makes the page show the address [getCurrentAddress]
    finds and the membership the contract read gives for it, and
    overwrites the mirror row with that answer; the cached value is never
    what remains. *)
Theorem account_change_membership
        (a : string) (rest accounts : list string) (w : World) :
  hasEthereum env = true ->
  (forall n, eth_accounts env n = Ok (a :: rest)) ->
  (forall n, signer_getAddress env n = Ok a) ->
  truthy a = true ->
  justJoined (page w) = false ->
  let w' := final (handleAccountsChanged env accounts w) in
  (accounts = [] ->
   effects (handleAccountsChanged env accounts w) = []
   /\ isConnected (page w') = false
   /\ walletAddress (page w') = ""
   /\ isMember (page w') = false
   /\ dao_members w' = dao_members w)
  /\ (accounts <> [] ->
      forall b, (forall n, saysMember (addressToUser env n a) = b) ->
      isMember (page w') = b
      /\ walletAddress (page w') = a
      /\ ((forall k, db_error env k = None) ->
          unique_members (dao_members w) ->
          exists stamp,
            members_with (toLowerCase a) (dao_members w')
            = [mk_MemberRow (toLowerCase a) b stamp])).
Proof.
  intros He Hacc Ha Ht Hj w'. subst w'. split.
  - intros ->. repeat split.
  - intros Hne b Hm. destruct accounts as [|other others]; [congruence|].
    exact (accountsChanged_follows_contract a other rest others b w He Hacc Ha Ht Hj Hm).
Qed.

(** X29.  When the contract already lists the account as a member,
    [handleJoinDao] stops at its pre-check: it opens no wallet popup,
    estimates nothing and submits nothing, records the membership in the
    mirror, shows "You are already a member of the DAO", and ends with
    [isMember] true and [joiningDao] false. *)
Theorem handleJoinDao_member_sends_nothing (a : string) (rest : list string) (w : World) :
  hasEthereum env = true ->
  (forall n, eth_accounts env n = Ok (a :: rest)) ->
  (forall n, signer_getAddress env n = Ok a) ->
  truthy a = true ->
  (forall n, saysMember (addressToUser env n a) = true) ->
  let w' := final (handleJoinDao env w) in
  forallb passive (effects (handleJoinDao env w)) = true
  /\ In (Toast toast_info "You are already a member of the DAO")
        (effects (handleJoinDao env w))
  /\ In (Db (DbUpsertMember (toLowerCase a) true)) (effects (handleJoinDao env w))
  /\ isMember (page w') = true
  /\ joiningDao (page w') = false.
Proof.
  intros He Hacc Ha Ht Hm w'. subst w'.
  unfold handleJoinDao, final, effects, finally, in_try, present, setJoiningDao,
    setIsMember, toast, modify_page.
  unfold_m. pcbn.
  match goal with |- context [getCurrentAddress env ?w0] =>
    destruct (getCurrentAddress_accounts a rest w0 He Hacc Ha)
      as (w1 & tr & Hrun & _ & Hpass & _) end.
  rewrite Hrun. pcbn. rewrite Ht. pcbn. rewrite !isDaoMember_run. pcbn. rewrite !Hm. pcbn.
  rewrite !setDaoMembership_run. pcbn.
  match goal with |- context [db_error env ?k] => destruct (db_error env k) end; pcbn.
  all: rewrite app_nil_r.
  all: split; [rewrite forallb_app, Hpass; reflexivity|].
  all: split; [apply in_or_app; right; cbn; auto|].
  all: split; [apply in_or_app; right; cbn; auto|].
  all: split; reflexivity.
Qed.


(** X30.  [createProposal] mirrors the id of the receipt's event.  When
    the estimation, the submission and the confirmation succeed and the
    receipt carries a [proposalCreated] log with a positive id, the action
    returns the transaction, submits exactly that call with the buffered
    limit, and does not read [numProposal].  If the store answers (and
    the client's clock leaves the deadline within the range of [Date], as
    any clock before the year 275760 does), the mirror gains (or replaces)
    the row of that id with the terms given, the caller as creator, and a
    deadline 604800 seconds after the client's clock as read after the
    eight calls that precede the write; if the store fails, the table is
    unchanged and the transaction is still returned. *)
Theorem createProposal_mirrors_event_id
        (a : string) (l p m : Z) (summary : string) (E pid : Z) (tx : Tx) (rc : Receipt)
        (logs : list Log) (w : World) :
  WalletConnects env a ->
  (forall k, estimateGas env k (CCreateProposal l p m summary) None = Ok E) ->
  (forall k o, sendTransaction env k (CCreateProposal l p m summary) o = Ok tx) ->
  (forall k, wait env k (tx_hash tx) = Ok rc) ->
  receipt_logs rc = Some logs ->
  proposalIdFromLogs logs = Some pid ->
  0 < pid ->
  truthy (receipt_hash rc) = true ->
  result (createProposal env l p m summary w) = Ok tx
  /\ (forall c o, In (SendTx c o) (effects (createProposal env l p m summary w)) ->
       c = CCreateProposal l p m summary /\ gasLimit o = withBuffer E)
  /\ ~ In ReadNumProposal (effects (createProposal env l p m summary w))
  /\ ((forall k, db_error env k = None) ->
      let k := (8 + tick w)%nat in
      validDate ((dateNow env k / 1000 + 604800) * 1000) = true ->
      dao_proposals (final (createProposal env l p m summary w))
      = upsert_proposal
          (newProposalRow pid l p m summary a (dateNow env k / 1000 + 604800)
                          (receipt_hash rc) (dateNow env k))
          (dao_proposals w))
  /\ ((forall k, db_error env k <> None) ->
      dao_proposals (final (createProposal env l p m summary w)) = dao_proposals w).
Proof.
  intros Hw Hest Hsend Hwait Hlogs Hid Hpos Hhash. pose proof Hw as [He Hr Hs Ha Ht].
  assert (Hnz : (negb (pid =? 0) && (0 <? pid) && truthy (receipt_hash rc))%bool = true).
  { rewrite Hhash. apply Z.ltb_lt in Hpos as Hlt. rewrite Hlt.
    destruct (pid =? 0) eqn:E0; [apply Z.eqb_eq in E0; lia|reflexivity]. }
  assert (Hmiss : missing_id (Some pid) = false).
  { unfold missing_id. apply Z.eqb_neq. lia. }
  unfold createProposal, result, final, effects, getContract, storeProposalInSupabase.
  unfold_m. rewrite (connectWithMetamask_run env a w Hw). pcbn.
  rewrite Hest. pcbn.
  match goal with |- context [getFeeData env ?k] => destruct (getFeeData env k) end; pcbn.
  all: rewrite Hsend; pcbn; rewrite Hwait; pcbn; rewrite Hlogs, Hid, Hmiss; pcbn.
  all: rewrite Hnz; pcbn.
  all: erewrite getCurrentAddress_signer by (try exact Hw; reflexivity).
  all: pcbn; unfold present; rewrite Ht; pcbn.
  all: change (7 * 24 * 60 * 60) with 604800.
  all: match goal with |- context [validDate ?x] =>
         destruct (validDate x) eqn:Hv end; pcbn.
  all: try match goal with |- context [db_error env ?k] =>
             destruct (db_error env k) eqn:Hdbk end; pcbn.
  all: split; [reflexivity|].
  all: split; [intros c o Hin; or_split Hin; injection Hin as <- <-; split; reflexivity|].
  all: split; [intros Hin; or_split Hin|].
  all: split; [intros Hdb Hvalid; cbn [Nat.add] in Hvalid;
               try (rewrite Hdb in Hdbk; discriminate);
               try (rewrite Hvalid in Hv; discriminate)
              |intros Hdb; try (exfalso; exact (Hdb _ Hdbk))].
  all: reflexivity.
Qed.

End Gateway.

Lemma page_load_membership_witness :
  hasEthereum Scenario.env_unreadable = true
  /\ justJoined (page world_joined) = true
  /\ justJoined (page world_cached) = false
  /\ isMember (page (final (checkWalletAndMembership Scenario.env_unreadable world_joined)))
     = true
  /\ isMember (page (final (checkWalletAndMembership Scenario.env_unreadable world_cached)))
     = false
  /\ exists stamp,
      members_with (toLowerCase Scenario.alice)
        (dao_members (final (checkWalletAndMembership Scenario.env_unreadable world_cached)))
      = [mk_MemberRow (toLowerCase Scenario.alice) false stamp].
Proof.
  split; [reflexivity|]. split; [reflexivity|]. split; [reflexivity|].
  destruct (page_load_membership Scenario.env_unreadable Scenario.alice [] world_joined
              eq_refl (fun _ => eq_refl) (fun _ => eq_refl) eq_refl) as (Hj & _).
  destruct (page_load_membership Scenario.env_unreadable Scenario.alice [] world_cached
              eq_refl (fun _ => eq_refl) (fun _ => eq_refl) eq_refl) as (_ & Hc).
  destruct (Hj eq_refl) as (H1 & _).
  destruct (Hc eq_refl false (fun _ => eq_refl)) as (H2 & _ & _ & _ & _ & H3).
  split; [rewrite H1; reflexivity|]. split; [exact H2|].
  apply H3; [intros k; reflexivity|].
  unfold unique_members. cbn. repeat constructor. apply not_elem_of_nil.
Defined.

Lemma account_change_membership_witness :
  justJoined (page world_cached) = false
  /\ isMember (page (final (handleAccountsChanged Scenario.env_member ["0xb0b"]
                              world_cached))) = true
  /\ walletAddress (page (final (handleAccountsChanged Scenario.env_member ["0xb0b"]
                                   world_cached))) = Scenario.alice
  /\ isMember (page (final (handleAccountsChanged Scenario.env_member [] world_joined)))
     = false.
Proof.
  split; [reflexivity|].
  destruct (account_change_membership Scenario.env_member Scenario.alice [] ["0xb0b"]
              world_cached eq_refl (fun _ => eq_refl) (fun _ => eq_refl) eq_refl eq_refl)
    as (_ & Hc).
  destruct (Hc ltac:(discriminate) true (fun _ => eq_refl)) as (H1 & H2 & _).
  split; [exact H1|]. split; [exact H2|]. reflexivity.
Defined.

Lemma handleJoinDao_member_sends_nothing_witness :
  (forall n, saysMember (addressToUser Scenario.env_member n Scenario.alice) = true)
  /\ forallb passive (effects (handleJoinDao Scenario.env_member Scenario.world0)) = true
  /\ isMember (page (final (handleJoinDao Scenario.env_member Scenario.world0))) = true.
Proof.
  split; [intros n; reflexivity|].
  destruct (handleJoinDao_member_sends_nothing Scenario.env_member Scenario.alice []
              Scenario.world0 eq_refl (fun _ => eq_refl) (fun _ => eq_refl) eq_refl
              (fun _ => eq_refl)) as (H1 & _ & _ & H4 & _).
  split; [exact H1|exact H4].
Defined.

Lemma scenario_wallet_created : WalletConnects env_created Scenario.alice.
Proof. constructor; intros; reflexivity. Qed.

Lemma createProposal_mirrors_event_id_witness :
  proposalIdFromLogs [Scenario.createdLog 3 Scenario.alice 12] = Some 3
  /\ result (createProposal env_created 7 3 1 "third" Scenario.world0)
     = Ok (mk_Tx "0x7e57")
  /\ map proposal_id
         (dao_proposals (final (createProposal env_created 7 3 1 "third" Scenario.world0)))
     = [3]
  /\ map row_deadline
         (dao_proposals (final (createProposal env_created 7 3 1 "third" Scenario.world0)))
     = [(2008 + 604800) * 1000].
Proof.
  split; [reflexivity|].
  destruct (createProposal_mirrors_event_id env_created Scenario.alice 7 3 1 "third"
              21004 3 (mk_Tx "0x7e57") receipt_created
              [Scenario.createdLog 3 Scenario.alice 12] Scenario.world0
              scenario_wallet_created (fun _ => eq_refl) (fun _ _ => eq_refl)
              (fun _ => eq_refl) eq_refl eq_refl ltac:(lia) eq_refl)
    as (Hr & _ & _ & Hrow & _).
  split; [exact Hr|].
  pose proof (Hrow (fun _ => eq_refl) eq_refl) as Hk.
  split; [rewrite Hk; reflexivity|].
  rewrite Hk. reflexivity.
Defined.

End ClientPages.
